(** * gb-stopwatch: the timer-driven timekeeping core

    A shallow embedding of the two revisions of the stopwatch firmware:

    - [Binary]: [src/main.c], hundredths counted 0..99 in plain binary,
      timer overflow at about 100 Hz;
    - [Bcd]: the later revision, sub-unit counted 0..127 (128 Hz), seconds
      and minutes kept in packed BCD and advanced with [add] + [daa].

    Bytes ([uint8_t]) are integers of [Z] in 0..255 with the wrap-around
    written out.  The globals and the three timer registers form the state;
    everything the main loop sends to write-only hardware (tone generator,
    background map, console) is collected in an output trace.  The timer
    interrupt is a state transformer of its own; schedules interleave it
    with the routines of the main loop, and the redraw, which reads the
    volatile counters several times, takes the interrupts serviced between
    its reads as a parameter. *)

From Stdlib Require Import ZArith List Bool Lia String Ascii.
Import ListNotations.
Local Open Scope Z_scope.

(** ** Bytes *)

Definition u8 (x : Z) : Z := x mod 256.

(** ** Output trace of the main loop *)

Inductive sndreg : Set :=
  NR10_REG | NR11_REG | NR12_REG | NR13_REG | NR14_REG
| NR50_REG | NR51_REG | NR52_REG.

Inductive out : Type :=
| Snd (r : sndreg) (v : Z)          (* store to a tone-generator register *)
| Vram (x y : Z) (tile : Z)         (* set_vram_byte / set_bkg_tile_xy    *)
| Print (x y : Z) (text : string).  (* gotoxy(x, y); printf(text)         *)

(** A [void f(void)] routine of the main loop: new state and what it
    emitted, oldest write first. *)
Definition cmd (S : Type) : Type := S -> S * list out.

Definition skip {S} : cmd S := fun s => (s, []).
Definition emit {S} (o : list out) : cmd S := fun s => (s, o).
Definition modify {S} (f : S -> S) : cmd S := fun s => (f s, []).
Definition seq {S} (c1 c2 : cmd S) : cmd S :=
  fun s => let '(s1, o1) := c1 s in
           let '(s2, o2) := c2 s1 in (s2, o1 ++ o2).
Definition branch {S} (b : S -> bool) (c1 c2 : cmd S) : cmd S :=
  fun s => if b s then c1 s else c2 s.

Declare Scope cmd_scope.
Delimit Scope cmd_scope with cmd.
Notation "c1 ;; c2" := (seq c1 c2)
  (at level 61, right associativity) : cmd_scope.
Open Scope cmd_scope.

Definition exec {S} (c : cmd S) (s : S) : S := fst (c s).
Definition trace {S} (c : cmd S) (s : S) : list out := snd (c s).

(** [set_vram_byte(get_bkg_xy_addr(x, y), e)]: the expression [e] is
    evaluated in the state at the call and passed as a [uint8_t]. *)
Definition set_vram_byte {S} (x y : Z) (e : S -> Z) : cmd S :=
  fun s => (s, [Vram x y (u8 (e s))]).

(** Interrupt arrivals during a routine of the main loop: the number of
    timer interrupts serviced just before its i-th read of a [volatile]
    counter.  [no_irq]: none is serviced while the routine runs. *)
Definition no_irq : nat -> nat := fun _ => O.

(** ** Constants of the platform headers (GBDK [gb/gb.h], [gb/hardware.h]) *)

Definition J_A : Z := 0x10.
Definition J_B : Z := 0x20.
Definition TACF_STOP : Z := 0x00.
Definition TACF_START : Z := 0x04.
Definition TACF_4KHZ : Z := 0x00.

(** [x & mask] as a C truth value. *)
Definition tst (x mask : Z) : bool := negb (Z.land x mask =? 0).

(** The three [joypad()] reads of one [handle_inputs] call, in order:
    the one stored in [current_joypad], the one tested against [J_A] and
    the one tested against [J_B]. *)
Record pad_reads : Set := PadReads { jp_cur : Z; jp_a : Z; jp_b : Z }.

(** A poll in which all three reads return the same mask. *)
Definition pad (m : Z) : pad_reads := PadReads m m m.

(** The press-edge tests of [handle_inputs]:
    [(joypad() & J_A) && !(prev_joypad & J_A)] and the same for [J_B]. *)
Definition confirm_edge (r : pad_reads) (prev : Z) : bool :=
  tst (jp_a r) J_A && negb (tst prev J_A).
Definition cancel_edge (r : pad_reads) (prev : Z) : bool :=
  tst (jp_b r) J_B && negb (tst prev J_B).

(** ** Sound presets (identical in both revisions) *)

Section Sound.
Context {S : Type}.

Definition SOUND_ON : cmd S :=
  emit [Snd NR52_REG 0x80; Snd NR51_REG 0xFF; Snd NR50_REG 0x77].

Definition VOLUME_MAX : cmd S := emit [Snd NR50_REG 0x77].
Definition VOLUME_LOW : cmd S := emit [Snd NR50_REG 0x11].

Definition sfx_1 : cmd S :=
  emit [Snd NR10_REG 0x17; Snd NR11_REG 0x42; Snd NR12_REG 0xD5;
        Snd NR13_REG 0x37; Snd NR14_REG 0x87].

Definition sfx_2 : cmd S :=
  emit [Snd NR10_REG 0x64; Snd NR11_REG 0x82; Snd NR12_REG 0xD5;
        Snd NR13_REG 0x37; Snd NR14_REG 0x87].

Definition sfx_4 : cmd S :=
  emit [Snd NR10_REG 0x6D; Snd NR11_REG 0x85; Snd NR12_REG 0xD1;
        Snd NR13_REG 0x5D; Snd NR14_REG 0x87].
End Sound.

(** The tick cue is the only preset whose sweep register value is 0x64. *)
Definition is_tick_cue (o : out) : bool :=
  match o with
  | Snd NR10_REG v => v =? 0x64
  | _ => false
  end.

Definition count_tick_cues (os : list out) : nat :=
  List.length (filter is_tick_cue os).

(** ** The binary-counter revision, [src/main.c] *)

Module Binary.

Definition TAC_REG_STOP : Z := 0x00.
Definition TAC_REG_START_1024 : Z := 0x04.
Definition TAC_REG_START_256 : Z := 0x07.
Definition TMA_REG_REALTIME_DMG : Z := 0x5C.
Definition TMA_REG_REALTIME_GBC : Z := 0xAE.

Record state : Type := State {
  is_gbc : bool;
  is_cpu_fast : bool;
  text_LUT_ascii_base_idx : Z;
  num_zeros : Z;
  stopwatch : bool;
  play_tick_sfx : bool;
  minutes : Z;
  seconds : Z;
  hundredths : Z;
  num_buffer_minutes : list Z;
  num_buffer_seconds : list Z;
  num_buffer_hundredths : list Z;
  TMA_REG : Z;
  TIMA_REG : Z;
  TAC_REG : Z;
  prev_joypad : Z
}.

Definition set_is_gbc v s :=
  State v (is_cpu_fast s) (text_LUT_ascii_base_idx s) (num_zeros s)
    (stopwatch s) (play_tick_sfx s) (minutes s) (seconds s) (hundredths s)
    (num_buffer_minutes s) (num_buffer_seconds s) (num_buffer_hundredths s)
    (TMA_REG s) (TIMA_REG s) (TAC_REG s) (prev_joypad s).
Definition set_is_cpu_fast v s :=
  State (is_gbc s) v (text_LUT_ascii_base_idx s) (num_zeros s)
    (stopwatch s) (play_tick_sfx s) (minutes s) (seconds s) (hundredths s)
    (num_buffer_minutes s) (num_buffer_seconds s) (num_buffer_hundredths s)
    (TMA_REG s) (TIMA_REG s) (TAC_REG s) (prev_joypad s).
Definition set_num_zeros v s :=
  State (is_gbc s) (is_cpu_fast s) (text_LUT_ascii_base_idx s) v
    (stopwatch s) (play_tick_sfx s) (minutes s) (seconds s) (hundredths s)
    (num_buffer_minutes s) (num_buffer_seconds s) (num_buffer_hundredths s)
    (TMA_REG s) (TIMA_REG s) (TAC_REG s) (prev_joypad s).
Definition set_stopwatch v s :=
  State (is_gbc s) (is_cpu_fast s) (text_LUT_ascii_base_idx s) (num_zeros s)
    v (play_tick_sfx s) (minutes s) (seconds s) (hundredths s)
    (num_buffer_minutes s) (num_buffer_seconds s) (num_buffer_hundredths s)
    (TMA_REG s) (TIMA_REG s) (TAC_REG s) (prev_joypad s).
Definition set_play_tick_sfx v s :=
  State (is_gbc s) (is_cpu_fast s) (text_LUT_ascii_base_idx s) (num_zeros s)
    (stopwatch s) v (minutes s) (seconds s) (hundredths s)
    (num_buffer_minutes s) (num_buffer_seconds s) (num_buffer_hundredths s)
    (TMA_REG s) (TIMA_REG s) (TAC_REG s) (prev_joypad s).
Definition set_minutes v s :=
  State (is_gbc s) (is_cpu_fast s) (text_LUT_ascii_base_idx s) (num_zeros s)
    (stopwatch s) (play_tick_sfx s) v (seconds s) (hundredths s)
    (num_buffer_minutes s) (num_buffer_seconds s) (num_buffer_hundredths s)
    (TMA_REG s) (TIMA_REG s) (TAC_REG s) (prev_joypad s).
Definition set_seconds v s :=
  State (is_gbc s) (is_cpu_fast s) (text_LUT_ascii_base_idx s) (num_zeros s)
    (stopwatch s) (play_tick_sfx s) (minutes s) v (hundredths s)
    (num_buffer_minutes s) (num_buffer_seconds s) (num_buffer_hundredths s)
    (TMA_REG s) (TIMA_REG s) (TAC_REG s) (prev_joypad s).
Definition set_hundredths v s :=
  State (is_gbc s) (is_cpu_fast s) (text_LUT_ascii_base_idx s) (num_zeros s)
    (stopwatch s) (play_tick_sfx s) (minutes s) (seconds s) v
    (num_buffer_minutes s) (num_buffer_seconds s) (num_buffer_hundredths s)
    (TMA_REG s) (TIMA_REG s) (TAC_REG s) (prev_joypad s).
Definition set_num_buffer_minutes v s :=
  State (is_gbc s) (is_cpu_fast s) (text_LUT_ascii_base_idx s) (num_zeros s)
    (stopwatch s) (play_tick_sfx s) (minutes s) (seconds s) (hundredths s)
    v (num_buffer_seconds s) (num_buffer_hundredths s)
    (TMA_REG s) (TIMA_REG s) (TAC_REG s) (prev_joypad s).
Definition set_num_buffer_seconds v s :=
  State (is_gbc s) (is_cpu_fast s) (text_LUT_ascii_base_idx s) (num_zeros s)
    (stopwatch s) (play_tick_sfx s) (minutes s) (seconds s) (hundredths s)
    (num_buffer_minutes s) v (num_buffer_hundredths s)
    (TMA_REG s) (TIMA_REG s) (TAC_REG s) (prev_joypad s).
Definition set_num_buffer_hundredths v s :=
  State (is_gbc s) (is_cpu_fast s) (text_LUT_ascii_base_idx s) (num_zeros s)
    (stopwatch s) (play_tick_sfx s) (minutes s) (seconds s) (hundredths s)
    (num_buffer_minutes s) (num_buffer_seconds s) v
    (TMA_REG s) (TIMA_REG s) (TAC_REG s) (prev_joypad s).
Definition set_TMA_REG v s :=
  State (is_gbc s) (is_cpu_fast s) (text_LUT_ascii_base_idx s) (num_zeros s)
    (stopwatch s) (play_tick_sfx s) (minutes s) (seconds s) (hundredths s)
    (num_buffer_minutes s) (num_buffer_seconds s) (num_buffer_hundredths s)
    v (TIMA_REG s) (TAC_REG s) (prev_joypad s).
Definition set_TIMA_REG v s :=
  State (is_gbc s) (is_cpu_fast s) (text_LUT_ascii_base_idx s) (num_zeros s)
    (stopwatch s) (play_tick_sfx s) (minutes s) (seconds s) (hundredths s)
    (num_buffer_minutes s) (num_buffer_seconds s) (num_buffer_hundredths s)
    (TMA_REG s) v (TAC_REG s) (prev_joypad s).
Definition set_TAC_REG v s :=
  State (is_gbc s) (is_cpu_fast s) (text_LUT_ascii_base_idx s) (num_zeros s)
    (stopwatch s) (play_tick_sfx s) (minutes s) (seconds s) (hundredths s)
    (num_buffer_minutes s) (num_buffer_seconds s) (num_buffer_hundredths s)
    (TMA_REG s) (TIMA_REG s) v (prev_joypad s).
Definition set_prev_joypad v s :=
  State (is_gbc s) (is_cpu_fast s) (text_LUT_ascii_base_idx s) (num_zeros s)
    (stopwatch s) (play_tick_sfx s) (minutes s) (seconds s) (hundredths s)
    (num_buffer_minutes s) (num_buffer_seconds s) (num_buffer_hundredths s)
    (TMA_REG s) (TIMA_REG s) (TAC_REG s) v.

(** [set_timer_realtime_reg] *)
Definition set_timer_realtime_reg : cmd state :=
  branch (fun s => negb (is_cpu_fast s))
    (modify (set_TMA_REG TMA_REG_REALTIME_DMG) ;;
     modify (set_TIMA_REG TMA_REG_REALTIME_DMG))
    (modify (set_TMA_REG TMA_REG_REALTIME_GBC) ;;
     modify (set_TIMA_REG TMA_REG_REALTIME_GBC)).

(** [stopwatch_timer_isr]: the interrupt handler never touches the
    write-only hardware, so it is a plain state transformer. *)
Definition stopwatch_timer_isr (s : state) : state :=
  if stopwatch s then
    let s := set_hundredths (u8 (hundredths s + 1)) s in
    if 100 <=? hundredths s then
      let s := set_hundredths 0 s in
      let s := set_seconds (u8 (seconds s + 1)) s in
      let s := set_play_tick_sfx true s in
      if 60 <=? seconds s then
        let s := set_seconds 0 s in
        set_minutes (u8 (minutes s + 1)) s
      else s
    else s
  else s.

(** [n] consecutive timer interrupts. *)
Definition ticks (n : nat) (s : state) : state :=
  Nat.iter n stopwatch_timer_isr s.

(** [k] timer interrupts serviced at this point of the main loop. *)
Definition irq (k : nat) : cmd state := modify (ticks k).

(** [uitoa(n, buffer, 10)] of the C library: the decimal digits of [n] as
    character codes, most significant first, no padding; the terminating
    NUL is the end of the list.  Five digits cover an unsigned int. *)
Fixpoint uitoa_aux (fuel : nat) (n : Z) (acc : list Z) : list Z :=
  match fuel with
  | O => acc
  | S fuel' =>
      let acc' := (48 + n mod 10) :: acc in
      if n / 10 =? 0 then acc' else uitoa_aux fuel' (n / 10) acc'
  end.
Definition uitoa (n : Z) : list Z := uitoa_aux 5 n [].

(** Consecutive background-map cells starting at column [x] of row [y]
    ([vramAddr++] stays inside the row for the columns used here). *)
Fixpoint place (x y : Z) (tiles : list Z) : list out :=
  match tiles with
  | [] => []
  | t :: tiles' => Vram x y t :: place (x + 1) y tiles'
  end.

Definition is_digit (c : Z) : bool := (48 <=? c) && (c <=? 57).

(** [draw_numbers_ascii] *)
Definition draw_numbers_ascii (x y : Z) (buffer : list Z) : cmd state :=
  fun s =>
    let base := text_LUT_ascii_base_idx s in
    let zeros := repeat (u8 (base + 16)) (Z.to_nat (num_zeros s)) in
    let digits := map (fun c => u8 (base + c - 32)) (filter is_digit buffer) in
    (s, place x y (zeros ++ digits)).

(** [reset_stopwatch] *)
Definition reset_stopwatch : cmd state :=
  sfx_4 ;;
  modify (set_stopwatch false) ;;
  modify (set_minutes 0) ;;
  modify (set_seconds 0) ;;
  modify (set_hundredths 0) ;;
  emit [Print 6 6 "00:00:00"].

(** [pause_stopwatch] *)
Definition pause_stopwatch : cmd state :=
  modify (set_TAC_REG TAC_REG_STOP) ;;
  modify (set_stopwatch false) ;;
  VOLUME_MAX ;;
  sfx_1 ;;
  emit [Print 10 15 "Start"] ;;
  emit [Print 5 16 "B:   Reset"].

(** [start_stopwatch] *)
Definition start_stopwatch : cmd state :=
  modify (fun s =>
    set_TAC_REG (if is_cpu_fast s then TAC_REG_START_1024
                 else TAC_REG_START_256) s) ;;
  modify (set_stopwatch true) ;;
  VOLUME_MAX ;;
  sfx_1 ;;
  emit [Print 10 15 "Stop "] ;;
  emit [Print 5 16 "          "].

(** [handle_inputs]; [prev_joypad] is the function's static local. *)
Definition handle_inputs (r : pad_reads) : cmd state :=
  branch (fun s => confirm_edge r (prev_joypad s))
    (branch stopwatch pause_stopwatch start_stopwatch)
    skip ;;
  branch (fun s => cancel_edge r (prev_joypad s) && negb (stopwatch s))
    reset_stopwatch
    skip ;;
  modify (set_prev_joypad (jp_cur r)).

(** [print_stopwatch].  The counters are [volatile] and the timer interrupt
    is live during the redraw: [irqs i] is the number of interrupts
    serviced just before the i-th read of a counter (two reads per counter:
    the [num_zeros] test and the argument of [uitoa]).  An interrupt
    serviced inside [draw_numbers_ascii], which reads no counter, has the
    effect of one serviced before the next read. *)
Definition print_stopwatch (irqs : nat -> nat) : cmd state :=
  irq (irqs 0%nat) ;;
  modify (fun s => set_num_zeros (if 9 <? minutes s then 0 else 1) s) ;;
  irq (irqs 1%nat) ;;
  modify (fun s => set_num_buffer_minutes (uitoa (minutes s)) s) ;;
  (fun s => draw_numbers_ascii 6 6 (num_buffer_minutes s) s) ;;
  irq (irqs 2%nat) ;;
  modify (fun s => set_num_zeros (if 9 <? seconds s then 0 else 1) s) ;;
  irq (irqs 3%nat) ;;
  modify (fun s => set_num_buffer_seconds (uitoa (seconds s)) s) ;;
  (fun s => draw_numbers_ascii 9 6 (num_buffer_seconds s) s) ;;
  irq (irqs 4%nat) ;;
  modify (fun s => set_num_zeros (if 9 <? hundredths s then 0 else 1) s) ;;
  irq (irqs 5%nat) ;;
  modify (fun s => set_num_buffer_hundredths (uitoa (hundredths s)) s) ;;
  (fun s => draw_numbers_ascii 12 6 (num_buffer_hundredths s) s) ;;
  emit [Vram 14 6 0].

(** [handle_stopwatch], with the interrupts serviced during the redraw. *)
Definition handle_stopwatch_irq (irqs : nat -> nat) : cmd state :=
  branch stopwatch
    (print_stopwatch irqs ;;
     branch play_tick_sfx
       (VOLUME_LOW ;; sfx_2 ;; modify (set_play_tick_sfx false))
       skip)
    skip.

(** [handle_stopwatch] when no interrupt is serviced while it runs: the
    schedules below place the interrupts between the routines of the
    loop. *)
Definition handle_stopwatch : cmd state := handle_stopwatch_irq no_irq.

(** One iteration of the loop in [main]; [vsync()] only waits. *)
Definition main_loop_body (r : pad_reads) : cmd state :=
  handle_inputs r ;; handle_stopwatch.

(** [set_cpu]; [cgb] is the outcome of the probe [_cpu == CGB_TYPE]. *)
Definition set_cpu (cgb : bool) : cmd state :=
  (if cgb then modify (set_is_gbc true) else skip) ;;
  branch is_gbc (modify (set_is_cpu_fast true)) skip.

(** [init_system]: of the bring-up only the speed probe and [SOUND_ON]
    touch what is modelled here. *)
Definition init_system (cgb : bool) : cmd state :=
  set_cpu cgb ;; SOUND_ON.

(** [init_scene] *)
Definition init_scene : cmd state :=
  emit [Print 1 1 "GB STOPWATCH :"; Print 1 2 "------------------";
        Print 6 6 "00:00:00"; Print 1 14 "------------------";
        Print 5 15 "A:   Start"; Print 5 16 "B:   Reset"].

(** [init_game]; the font and the handler registration have no effect on
    the state modelled here. *)
Definition init_game : cmd state :=
  set_timer_realtime_reg ;; init_scene.

(** Globals are zero-initialised by the C runtime; the timer is stopped
    at power-on. *)
Definition power_on : state :=
  State false false 0 0 false false 0 0 0 [] [] [] 0 0 0 0.

(** State when [main] enters its loop. *)
Definition boot (cgb : bool) : state :=
  exec (init_system cgb ;; init_game) power_on.

(** Whether an invocation of the handler in state [s] sets the cue flag:
    run it with the flag cleared and look at the flag. *)
Definition isr_sets_cue (s : state) : bool :=
  play_tick_sfx (stopwatch_timer_isr (set_play_tick_sfx false s)).

(** How many of [n] consecutive invocations from [s] set the cue flag. *)
Fixpoint cue_sets (n : nat) (s : state) : nat :=
  match n with
  | O => O
  | S n' => ((if isr_sets_cue s then 1 else 0)
             + cue_sets n' (stopwatch_timer_isr s))%nat
  end.

(** The operations that act on the timekeeping state. *)
Inductive op : Set := OpIsr | OpStart | OpPause | OpReset.

Definition step (o : op) (s : state) : state :=
  match o with
  | OpIsr => stopwatch_timer_isr s
  | OpStart => exec start_stopwatch s
  | OpPause => exec pause_stopwatch s
  | OpReset => exec reset_stopwatch s
  end.

Definition run (ops : list op) (s : state) : state :=
  fold_left (fun s o => step o s) ops s.

Definition is_isr (o : op) : bool :=
  match o with OpIsr => true | _ => false end.

Definition count_isr (ops : list op) : Z :=
  Z.of_nat (List.length (filter is_isr ops)).

(** Interleavings of the interrupt with iterations of the main loop. *)
Inductive sched : Set := Tick | Frame (r : pad_reads).

Definition sched_step (x : sched) : cmd state :=
  match x with
  | Tick => modify stopwatch_timer_isr
  | Frame r => main_loop_body r
  end.

Fixpoint sched_run (l : list sched) : cmd state :=
  match l with
  | [] => skip
  | x :: l' => sched_step x ;; sched_run l'
  end.

(** Number of interrupts of the schedule that set the cue flag. *)
Fixpoint sched_sets (l : list sched) (s : state) : nat :=
  match l with
  | [] => O
  | x :: l' =>
      ((match x with
        | Tick => if isr_sets_cue s then 1 else 0
        | Frame _ => 0
        end) + sched_sets l' (exec (sched_step x) s))%nat
  end.

(** [k] iterations of the main loop, one poll each, no interrupt. *)
Definition frames (rs : list pad_reads) : cmd state :=
  sched_run (map Frame rs).

Definition counters (s : state) : Z * Z * Z :=
  (minutes s, seconds s, hundredths s).

End Binary.

(** ** The BCD-packed revision *)

(** *** The two CPU instructions of the inline assembly *)

(** Accumulator with the half-carry and carry flags. *)
Record alu : Set := Alu { acc : Z; flag_h : bool; flag_c : bool }.

(** [add #n]: 8-bit add, H from bit 3, C from bit 7. *)
Definition asm_add (a n : Z) : alu :=
  Alu (u8 (a + n))
      (0xF <? Z.land a 0xF + Z.land n 0xF)
      (0xFF <? a + n).

(** [daa] after an addition (N flag clear). *)
Definition asm_daa (r : alu) : Z :=
  let a := acc r in
  let a := if flag_c r || (0x99 <? a) then a + 0x60 else a in
  let a := if flag_h r || (0x09 <? Z.land a 0x0F) then a + 0x06 else a in
  u8 a.

(** [ld a, (x); add #0x01; daa; ld (x), a] as a function of the byte. *)
Definition bcdIncrement (b : Z) : Z := asm_daa (asm_add b 1).

(** Packed BCD of a number below 100, and the number a packed byte shows
    when its nibbles are drawn as the two digits (as [print_stopwatch]
    does). *)
Definition to_bcd (n : Z) : Z := 16 * (n / 10) + n mod 10.
Definition bcd_val (b : Z) : Z :=
  10 * Z.land (Z.shiftr b 4) 0x0F + Z.land b 0x0F.
Definition bcd_valid (b : Z) : Prop :=
  0 <= b <= 0x99 /\ Z.land b 0x0F <= 9.

Module Bcd.

Definition NUMBERS_BASE_TILE_IDX : Z := 16.

Record state : Type := State {
  is_gbc : bool;
  is_cpu_fast : bool;
  stopwatch : bool;
  play_tick_sfx : bool;
  minutes : Z;
  seconds : Z;
  hundredths : Z;
  TMA_REG : Z;
  TIMA_REG : Z;
  TAC_REG : Z;
  prev_joypad : Z
}.

Definition set_is_gbc v s :=
  State v (is_cpu_fast s) (stopwatch s) (play_tick_sfx s) (minutes s)
    (seconds s) (hundredths s) (TMA_REG s) (TIMA_REG s) (TAC_REG s)
    (prev_joypad s).
Definition set_is_cpu_fast v s :=
  State (is_gbc s) v (stopwatch s) (play_tick_sfx s) (minutes s) (seconds s)
    (hundredths s) (TMA_REG s) (TIMA_REG s) (TAC_REG s) (prev_joypad s).
Definition set_stopwatch v s :=
  State (is_gbc s) (is_cpu_fast s) v (play_tick_sfx s) (minutes s)
    (seconds s) (hundredths s) (TMA_REG s) (TIMA_REG s) (TAC_REG s)
    (prev_joypad s).
Definition set_play_tick_sfx v s :=
  State (is_gbc s) (is_cpu_fast s) (stopwatch s) v (minutes s) (seconds s)
    (hundredths s) (TMA_REG s) (TIMA_REG s) (TAC_REG s) (prev_joypad s).
Definition set_minutes v s :=
  State (is_gbc s) (is_cpu_fast s) (stopwatch s) (play_tick_sfx s) v
    (seconds s) (hundredths s) (TMA_REG s) (TIMA_REG s) (TAC_REG s)
    (prev_joypad s).
Definition set_seconds v s :=
  State (is_gbc s) (is_cpu_fast s) (stopwatch s) (play_tick_sfx s)
    (minutes s) v (hundredths s) (TMA_REG s) (TIMA_REG s) (TAC_REG s)
    (prev_joypad s).
Definition set_hundredths v s :=
  State (is_gbc s) (is_cpu_fast s) (stopwatch s) (play_tick_sfx s)
    (minutes s) (seconds s) v (TMA_REG s) (TIMA_REG s) (TAC_REG s)
    (prev_joypad s).
Definition set_TMA_REG v s :=
  State (is_gbc s) (is_cpu_fast s) (stopwatch s) (play_tick_sfx s)
    (minutes s) (seconds s) (hundredths s) v (TIMA_REG s) (TAC_REG s)
    (prev_joypad s).
Definition set_TIMA_REG v s :=
  State (is_gbc s) (is_cpu_fast s) (stopwatch s) (play_tick_sfx s)
    (minutes s) (seconds s) (hundredths s) (TMA_REG s) v (TAC_REG s)
    (prev_joypad s).
Definition set_TAC_REG v s :=
  State (is_gbc s) (is_cpu_fast s) (stopwatch s) (play_tick_sfx s)
    (minutes s) (seconds s) (hundredths s) (TMA_REG s) (TIMA_REG s) v
    (prev_joypad s).
Definition set_prev_joypad v s :=
  State (is_gbc s) (is_cpu_fast s) (stopwatch s) (play_tick_sfx s)
    (minutes s) (seconds s) (hundredths s) (TMA_REG s) (TIMA_REG s)
    (TAC_REG s) v.

(** [MilTable128]: each entry is a two-character string. *)
Definition MilTable128 : list string :=
  [
    "00"; "00"; "01"; "02";
    "03"; "03"; "04"; "05";
    "06"; "07"; "07"; "08";
    "09"; "10"; "10"; "11";
    "12"; "13"; "14"; "14";
    "15"; "16"; "17"; "17";
    "18"; "19"; "20"; "21";
    "21"; "22"; "23"; "24";
    "25"; "25"; "26"; "27";
    "28"; "28"; "29"; "30";
    "31"; "32"; "32"; "33";
    "34"; "35"; "35"; "36";
    "37"; "38"; "39"; "39";
    "40"; "41"; "42"; "42";
    "43"; "44"; "45"; "46";
    "46"; "47"; "48"; "49";
    "50"; "50"; "51"; "52";
    "53"; "53"; "54"; "55";
    "56"; "57"; "57"; "58";
    "59"; "60"; "60"; "61";
    "62"; "63"; "64"; "64";
    "65"; "66"; "67"; "67";
    "68"; "69"; "70"; "71";
    "71"; "72"; "73"; "74";
    "75"; "75"; "76"; "77";
    "78"; "78"; "79"; "80";
    "81"; "82"; "82"; "83";
    "84"; "85"; "85"; "86";
    "87"; "88"; "89"; "89";
    "90"; "91"; "92"; "92";
    "93"; "94"; "95"; "96";
    "96"; "97"; "98"; "99"
  ]%string.

(** [MilTable128[v][i]] as a character code. *)
Definition mil_char (v : Z) (i : nat) : Z :=
  match String.get i (nth (Z.to_nat v) MilTable128 EmptyString) with
  | Some c => Z.of_N (N_of_ascii c)
  | None => 0
  end.

(** [set_timer_reg_stopwatch] *)
Definition set_timer_reg_stopwatch : cmd state :=
  branch (fun s => negb (is_cpu_fast s))
    (modify (set_TMA_REG (u8 (0x100 - 32))))
    (modify (set_TMA_REG (u8 (0x100 - 64)))).

(** [stopwatch_timer_isr] *)
Definition stopwatch_timer_isr (s : state) : state :=
  if stopwatch s then
    let s := set_hundredths (Z.land (hundredths s + 1) 0x7F) s in
    if hundredths s =? 0 then
      let s := set_seconds (bcdIncrement (seconds s)) s in
      let s := set_play_tick_sfx true s in
      if 0x60 <=? seconds s then
        let s := set_seconds 0x00 s in
        set_minutes (bcdIncrement (minutes s)) s
      else s
    else s
  else s.

(** [n] consecutive timer interrupts. *)
Definition ticks (n : nat) (s : state) : state :=
  Nat.iter n stopwatch_timer_isr s.

(** [k] timer interrupts serviced at this point of the main loop. *)
Definition irq (k : nat) : cmd state := modify (ticks k).

(** [reset_stopwatch] *)
Definition reset_stopwatch : cmd state :=
  sfx_4 ;;
  modify (set_stopwatch false) ;;
  modify (set_minutes 0) ;;
  modify (set_seconds 0) ;;
  modify (set_hundredths 0) ;;
  emit [Print 6 6 "00:00:00"].

(** [pause_stopwatch] *)
Definition pause_stopwatch : cmd state :=
  modify (set_TAC_REG TACF_STOP) ;;
  modify (set_stopwatch false) ;;
  VOLUME_MAX ;;
  sfx_1 ;;
  emit [Print 10 15 "Start"] ;;
  emit [Print 5 16 "B:   Reset"].

(** [start_stopwatch] *)
Definition start_stopwatch : cmd state :=
  modify (set_TAC_REG (Z.lor TACF_4KHZ TACF_START)) ;;
  modify (set_stopwatch true) ;;
  VOLUME_MAX ;;
  sfx_1 ;;
  emit [Print 10 15 "Stop "] ;;
  emit [Print 5 16 "          "].

(** [handle_inputs]; [prev_joypad] is the function's static local. *)
Definition handle_inputs (r : pad_reads) : cmd state :=
  branch (fun s => confirm_edge r (prev_joypad s))
    (branch stopwatch pause_stopwatch start_stopwatch)
    skip ;;
  branch (fun s => cancel_edge r (prev_joypad s) && negb (stopwatch s))
    reset_stopwatch
    skip ;;
  modify (set_prev_joypad (jp_cur r)).

(** [print_stopwatch].  The counters are [volatile] and the timer interrupt
    is live during the redraw: [irqs i] is the number of interrupts
    serviced just before the i-th read of a counter (one read per digit
    drawn). *)
Definition print_stopwatch (irqs : nat -> nat) : cmd state :=
  irq (irqs 0%nat) ;;
  set_vram_byte 12 6
    (fun s => mil_char (hundredths s) 0 - 48 + NUMBERS_BASE_TILE_IDX) ;;
  irq (irqs 1%nat) ;;
  set_vram_byte 13 6
    (fun s => mil_char (hundredths s) 1 - 48 + NUMBERS_BASE_TILE_IDX) ;;
  irq (irqs 2%nat) ;;
  set_vram_byte 9 6
    (fun s => Z.land (Z.shiftr (seconds s) 4) 0x0F + NUMBERS_BASE_TILE_IDX) ;;
  irq (irqs 3%nat) ;;
  set_vram_byte 10 6
    (fun s => Z.land (seconds s) 0x0F + NUMBERS_BASE_TILE_IDX) ;;
  irq (irqs 4%nat) ;;
  set_vram_byte 6 6
    (fun s => Z.land (Z.shiftr (minutes s) 4) 0x0F + NUMBERS_BASE_TILE_IDX) ;;
  irq (irqs 5%nat) ;;
  set_vram_byte 7 6
    (fun s => Z.land (minutes s) 0x0F + NUMBERS_BASE_TILE_IDX).

(** [handle_stopwatch], with the interrupts serviced during the redraw. *)
Definition handle_stopwatch_irq (irqs : nat -> nat) : cmd state :=
  branch stopwatch
    (print_stopwatch irqs ;;
     branch play_tick_sfx
       (VOLUME_LOW ;; sfx_2 ;; modify (set_play_tick_sfx false))
       skip)
    skip.

(** [handle_stopwatch] when no interrupt is serviced while it runs: the
    schedules below place the interrupts between the routines of the
    loop. *)
Definition handle_stopwatch : cmd state := handle_stopwatch_irq no_irq.

(** One iteration of the loop in [main]; [vsync()] only waits. *)
Definition main_loop_body (r : pad_reads) : cmd state :=
  handle_inputs r ;; handle_stopwatch.

(** [set_cpu]; [cgb] is the outcome of the probe [_cpu == CGB_TYPE]. *)
Definition set_cpu (cgb : bool) : cmd state :=
  (if cgb then modify (set_is_gbc true) else skip) ;;
  branch is_gbc (modify (set_is_cpu_fast true)) skip.

(** [init_system]: of the bring-up only the speed probe and [SOUND_ON]
    touch what is modelled here. *)
Definition init_system (cgb : bool) : cmd state :=
  set_cpu cgb ;; SOUND_ON.

(** [init_scene] *)
Definition init_scene : cmd state :=
  emit [Print 1 1 "GB STOPWATCH :"; Print 1 2 "------------------";
        Print 6 6 "00:00:00"; Print 1 14 "------------------";
        Print 5 15 "A:   Start"; Print 5 16 "B:   Reset"].

(** [init_game] *)
Definition init_game : cmd state :=
  set_timer_reg_stopwatch ;; init_scene.

(** Globals are zero-initialised by the C runtime; the timer is stopped
    at power-on. *)
Definition power_on : state :=
  State false false false false 0 0 0 0 0 0 0.

(** State when [main] enters its loop. *)
Definition boot (cgb : bool) : state :=
  exec (init_system cgb ;; init_game) power_on.

(** Whether an invocation of the handler in state [s] sets the cue flag:
    run it with the flag cleared and look at the flag. *)
Definition isr_sets_cue (s : state) : bool :=
  play_tick_sfx (stopwatch_timer_isr (set_play_tick_sfx false s)).

(** How many of [n] consecutive invocations from [s] set the cue flag. *)
Fixpoint cue_sets (n : nat) (s : state) : nat :=
  match n with
  | O => O
  | S n' => ((if isr_sets_cue s then 1 else 0)
             + cue_sets n' (stopwatch_timer_isr s))%nat
  end.

(** The operations that act on the timekeeping state. *)
Inductive op : Set := OpIsr | OpStart | OpPause | OpReset.

Definition step (o : op) (s : state) : state :=
  match o with
  | OpIsr => stopwatch_timer_isr s
  | OpStart => exec start_stopwatch s
  | OpPause => exec pause_stopwatch s
  | OpReset => exec reset_stopwatch s
  end.

Definition run (ops : list op) (s : state) : state :=
  fold_left (fun s o => step o s) ops s.

Definition is_isr (o : op) : bool :=
  match o with OpIsr => true | _ => false end.

Definition count_isr (ops : list op) : Z :=
  Z.of_nat (List.length (filter is_isr ops)).

(** Interleavings of the interrupt with iterations of the main loop. *)
Inductive sched : Set := Tick | Frame (r : pad_reads).

Definition sched_step (x : sched) : cmd state :=
  match x with
  | Tick => modify stopwatch_timer_isr
  | Frame r => main_loop_body r
  end.

Fixpoint sched_run (l : list sched) : cmd state :=
  match l with
  | [] => skip
  | x :: l' => sched_step x ;; sched_run l'
  end.

(** Number of interrupts of the schedule that set the cue flag. *)
Fixpoint sched_sets (l : list sched) (s : state) : nat :=
  match l with
  | [] => O
  | x :: l' =>
      ((match x with
        | Tick => if isr_sets_cue s then 1 else 0
        | Frame _ => 0
        end) + sched_sets l' (exec (sched_step x) s))%nat
  end.

(** [k] iterations of the main loop, one poll each, no interrupt. *)
Definition frames (rs : list pad_reads) : cmd state :=
  sched_run (map Frame rs).

Definition counters (s : state) : Z * Z * Z :=
  (minutes s, seconds s, hundredths s).

End Bcd.

(** ** Vocabulary of the statements *)

(** Well-formed counters: what every reachable state satisfies. *)
Definition bin_wf (s : Binary.state) : Prop :=
  0 <= Binary.hundredths s < 100 /\
  0 <= Binary.seconds s < 60 /\
  0 <= Binary.minutes s < 256.

Definition bcd_wf (s : Bcd.state) : Prop :=
  0 <= Bcd.hundredths s < 128 /\
  (bcd_valid (Bcd.seconds s) /\ bcd_val (Bcd.seconds s) < 60) /\
  bcd_valid (Bcd.minutes s).

(** Elapsed sub-unit ticks shown by the counters. *)
Definition bin_elapsed (s : Binary.state) : Z :=
  6000 * Binary.minutes s + 100 * Binary.seconds s + Binary.hundredths s.

Definition bcd_elapsed (s : Bcd.state) : Z :=
  7680 * bcd_val (Bcd.minutes s) + 128 * bcd_val (Bcd.seconds s)
  + Bcd.hundredths s.

(** The two CPU speeds and the timer clock. *)
Inductive ClockSpeedMode : Set := Normal | Double.

Definition speedFactor (m : ClockSpeedMode) : Z :=
  match m with Normal => 1 | Double => 2 end.

Definition mode_of (cpu_fast : bool) : ClockSpeedMode :=
  if cpu_fast then Double else Normal.

(** CPU cycles per increment of the timer counter, by the clock-select bits
    of the control register (the table in the notes of the source). *)
Definition tac_cycles (tac : Z) : Z :=
  match Z.land tac 0x03 with
  | 0 => 1024
  | 1 => 16
  | 2 => 64
  | _ => 256
  end.

(** CPU cycles between two overflow interrupts: the counter is reloaded
    with the modulo and overflows when it passes 0xFF. *)
Definition cycles_per_overflow (tma tac : Z) : Z :=
  (256 - tma) * tac_cycles tac.

Definition b2n (b : bool) : nat := if b then 1%nat else 0%nat.

(** No poll of the sequence detects a cancel press-edge; [prev] is the
    mask remembered before the first one, and each poll leaves the mask it
    stored in [current_joypad] for the next. *)
Fixpoint no_cancel_edge (prev : Z) (rs : list pad_reads) : bool :=
  match rs with
  | [] => true
  | r :: rs' => negb (cancel_edge r prev) && no_cancel_edge (jp_cur r) rs'
  end.

(** The two decimal digit characters of a number below 100. *)
Definition two_digits (q : Z) : string :=
  String (ascii_of_N (Z.to_N (48 + q / 10)))
    (String (ascii_of_N (Z.to_N (48 + q mod 10))) EmptyString).

(** The number shown by the two characters of a table entry. *)
Definition mil_value (v : Z) : Z :=
  10 * (Bcd.mil_char v 0 - 48) + (Bcd.mil_char v 1 - 48).

Definition mil_entry_ok (v : Z) : bool :=
  let q := v * 100 / 128 in
  String.eqb (nth (Z.to_nat v) Bcd.MilTable128 EmptyString) (two_digits q)
  && (u8 (Bcd.mil_char v 0 - 48 + Bcd.NUMBERS_BASE_TILE_IDX) =? 16 + q / 10)
  && (u8 (Bcd.mil_char v 1 - 48 + Bcd.NUMBERS_BASE_TILE_IDX)
      =? 16 + q mod 10)
  && (mil_value v =? q).

(** Checking a decidable property on every integer of [0, n). *)
Definition all_below (n : nat) (p : Z -> bool) : bool :=
  forallb p (map Z.of_nat (List.seq 0 n)).

(** The control value [start_stopwatch] stores, and the agreement of the
    timer control register with the run flag. *)
Definition bin_tac_start (s : Binary.state) : Z :=
  if Binary.is_cpu_fast s then Binary.TAC_REG_START_1024
  else Binary.TAC_REG_START_256.

Definition bcd_tac_start : Z := Z.lor TACF_4KHZ TACF_START.

Definition bin_timer_follows (s : Binary.state) : Prop :=
  Binary.TAC_REG s =
  (if Binary.stopwatch s then bin_tac_start s else Binary.TAC_REG_STOP).

Definition bcd_timer_follows (s : Bcd.state) : Prop :=
  Bcd.TAC_REG s = (if Bcd.stopwatch s then bcd_tac_start else TACF_STOP).

(** Two digit tiles of a number below 100 in row 6, tens first ("0" is
    tile 16). *)
Definition digit_pair (x v : Z) : list out :=
  [Vram x 6 (16 + v / 10); Vram (x + 1) 6 (16 + v mod 10)].

Definition tiles_are (l : list Z) (expected : list Z) : bool :=
  (List.length l =? List.length expected)%nat
  && forallb (fun i => nth i l (-1) =? nth i expected (-1))
       (List.seq 0 (List.length expected)).

(** A schedule of interrupts and main-loop iterations in which every poll
    reads the mask [m] in all three reads. *)
Definition reads_mask (m : Z) (r : pad_reads) : bool :=
  (jp_cur r =? m) && (jp_a r =? m) && (jp_b r =? m).

Definition bin_all_read (m : Z) (l : list Binary.sched) : bool :=
  forallb (fun x => match x with
                    | Binary.Tick => true
                    | Binary.Frame r => reads_mask m r
                    end) l.

Definition bcd_all_read (m : Z) (l : list Bcd.sched) : bool :=
  forallb (fun x => match x with
                    | Bcd.Tick => true
                    | Bcd.Frame r => reads_mask m r
                    end) l.

(** The state at the i-th counter read of a redraw that starts in [s]. *)
Fixpoint bin_at (irqs : nat -> nat) (i : nat) (s : Binary.state)
  : Binary.state :=
  match i with
  | O => Binary.ticks (irqs O) s
  | S j => Binary.ticks (irqs (S j)) (bin_at irqs j s)
  end.

Fixpoint bcd_at (irqs : nat -> nat) (i : nat) (s : Bcd.state) : Bcd.state :=
  match i with
  | O => Bcd.ticks (irqs O) s
  | S j => Bcd.ticks (irqs (S j)) (bcd_at irqs j s)
  end.

(** The tiles [draw_numbers_ascii] writes for one counter of the binary
    revision: [v1] is the value the [num_zeros] test read, [v2] the value
    [uitoa] converted, [base] the character base. *)
Definition bin_read_tiles (base v1 v2 : Z) : list Z :=
  repeat (u8 (base + 16)) (Z.to_nat (if 9 <? v1 then 0 else 1))
  ++ map (fun c => u8 (base + c - 32))
       (filter Binary.is_digit (Binary.uitoa v2)).

(** One interrupt and no other during a redraw, just before read [i]. *)
Definition one_irq_before (i : nat) : nat -> nat :=
  fun j => if Nat.eqb j i then 1%nat else 0%nat.

(** * Proofs *)

(** ** Clock arithmetic *)

Lemma clock_step_100 (t : Z) : 0 <= t ->
  (t + 1) mod 100 = (if t mod 100 =? 99 then 0 else t mod 100 + 1) /\
  ((t + 1) / 100) mod 60 =
    (if t mod 100 =? 99
     then (if (t / 100) mod 60 =? 59 then 0 else (t / 100) mod 60 + 1)
     else (t / 100) mod 60) /\
  ((t + 1) / 6000) mod 256 =
    (if (t mod 100 =? 99) && ((t / 100) mod 60 =? 59)
     then ((t / 6000) mod 256 + 1) mod 256
     else (t / 6000) mod 256).
Proof.
  intros Ht.
  destruct (Z.eqb_spec (t mod 100) 99);
    destruct (Z.eqb_spec ((t / 100) mod 60) 59); cbn [andb];
    Z.to_euclidean_division_equations; lia.
Qed.

Lemma clock_step_128 (t : Z) : 0 <= t ->
  (t + 1) mod 128 = (if t mod 128 =? 127 then 0 else t mod 128 + 1) /\
  ((t + 1) / 128) mod 60 =
    (if t mod 128 =? 127
     then (if (t / 128) mod 60 =? 59 then 0 else (t / 128) mod 60 + 1)
     else (t / 128) mod 60) /\
  ((t + 1) / 7680) mod 100 =
    (if (t mod 128 =? 127) && ((t / 128) mod 60 =? 59)
     then ((t / 7680) mod 100 + 1) mod 100
     else (t / 7680) mod 100).
Proof.
  intros Ht.
  destruct (Z.eqb_spec (t mod 128) 127);
    destruct (Z.eqb_spec ((t / 128) mod 60) 59); cbn [andb];
    Z.to_euclidean_division_equations; lia.
Qed.

Lemma all_below_spec (n : nat) (p : Z -> bool) :
  all_below n p = true -> forall i, 0 <= i < Z.of_nat n -> p i = true.
Proof.
  unfold all_below. rewrite forallb_forall. intros H i Hi.
  apply H. apply in_map_iff. exists (Z.to_nat i). split; [lia|].
  apply in_seq. lia.
Qed.

(** ** The decimal-adjusted increment *)

Lemma bcdIncrement_to_bcd (n : Z) :
  0 <= n < 100 -> bcdIncrement (to_bcd n) = to_bcd ((n + 1) mod 100).
Proof.
  intros Hn. apply Z.eqb_eq.
  revert n Hn.
  apply (all_below_spec 100
           (fun n => bcdIncrement (to_bcd n) =? to_bcd ((n + 1) mod 100))).
  vm_compute. reflexivity.
Qed.

Lemma bcd_val_to_bcd (n : Z) : 0 <= n < 100 -> bcd_val (to_bcd n) = n.
Proof.
  intros Hn. apply Z.eqb_eq. revert n Hn.
  apply (all_below_spec 100 (fun n => bcd_val (to_bcd n) =? n)).
  vm_compute. reflexivity.
Qed.

Lemma to_bcd_valid (n : Z) : 0 <= n < 100 -> bcd_valid (to_bcd n).
Proof.
  intros Hn.
  assert (H : ((0 <=? to_bcd n) && (to_bcd n <=? 0x99)
               && (Z.land (to_bcd n) 0x0F <=? 9)) = true).
  { revert n Hn.
    apply (all_below_spec 100
             (fun n => (0 <=? to_bcd n) && (to_bcd n <=? 0x99)
                       && (Z.land (to_bcd n) 0x0F <=? 9))).
    vm_compute. reflexivity. }
  apply andb_prop in H as [H H3]. apply andb_prop in H as [H1 H2].
  unfold bcd_valid. lia.
Qed.

Lemma to_bcd_rollover (n : Z) :
  0 <= n < 100 -> (0x60 <=? to_bcd n) = (60 <=? n).
Proof.
  intros Hn. apply Bool.eqb_prop. revert n Hn.
  apply (all_below_spec 100
           (fun n => Bool.eqb (0x60 <=? to_bcd n) (60 <=? n))).
  vm_compute. reflexivity.
Qed.

Lemma bcd_valid_to_bcd (b : Z) :
  bcd_valid b -> b = to_bcd (bcd_val b) /\ 0 <= bcd_val b < 100.
Proof.
  intros [Hb Hn].
  assert (H : implb (Z.land b 0x0F <=? 9)
                 ((b =? to_bcd (bcd_val b)) && (0 <=? bcd_val b)
                  && (bcd_val b <? 100)) = true).
  { assert (Hb' : 0 <= b < Z.of_nat 154) by lia. revert b Hb' Hb Hn.
    intros b Hb' _ _. revert b Hb'.
    apply (all_below_spec 154
      (fun b => implb (Z.land b 0x0F <=? 9)
                  ((b =? to_bcd (bcd_val b)) && (0 <=? bcd_val b)
                   && (bcd_val b <? 100)))).
    vm_compute. reflexivity. }
  apply Z.leb_le in Hn. rewrite Hn in H. cbn in H.
  apply andb_prop in H as [H H3]. apply andb_prop in H as [H1 H2].
  lia.
Qed.

(** ** One interrupt, binary revision *)

Lemma bin_isr_idle (s : Binary.state) :
  Binary.stopwatch s = false -> Binary.stopwatch_timer_isr s = s.
Proof. intros H. unfold Binary.stopwatch_timer_isr. now rewrite H. Qed.

Lemma bin_isr_running (s : Binary.state) :
  Binary.stopwatch s = true -> bin_wf s ->
  let h := Binary.hundredths s in
  let sec := Binary.seconds s in
  let m := Binary.minutes s in
  Binary.stopwatch_timer_isr s =
  Binary.set_minutes
    (if (h =? 99) && (sec =? 59) then (m + 1) mod 256 else m)
    (Binary.set_seconds
       (if h =? 99 then (if sec =? 59 then 0 else sec + 1) else sec)
       (Binary.set_hundredths (if h =? 99 then 0 else h + 1)
          (Binary.set_play_tick_sfx
             (Binary.play_tick_sfx s || (h =? 99)) s))).
Proof.
  intros Hrun (Hh & Hs & Hm). destruct s; cbn in *. subst.
  unfold Binary.stopwatch_timer_isr; cbn.
  unfold u8.
  rewrite (Z.mod_small (hundredths + 1) 256) by lia.
  destruct (Z.eqb_spec hundredths 99) as [->|Hne].
  - cbn. rewrite (Z.mod_small (seconds + 1) 256) by lia.
    rewrite orb_true_r.
    destruct (Z.eqb_spec seconds 59) as [->|Hne].
    + reflexivity.
    + destruct (Z.leb_spec 60 (seconds + 1)); [lia|]. reflexivity.
  - destruct (Z.leb_spec 100 (hundredths + 1)); [lia|].
    cbn. rewrite orb_false_r. reflexivity.
Qed.

Lemma bin_isr_wf (s : Binary.state) :
  bin_wf s -> bin_wf (Binary.stopwatch_timer_isr s).
Proof.
  intros Hwf. destruct (Binary.stopwatch s) eqn:Hrun.
  - rewrite (bin_isr_running s Hrun Hwf). destruct Hwf as (Hh & Hs & Hm).
    unfold bin_wf; cbn.
    destruct (Z.eqb_spec (Binary.hundredths s) 99);
      destruct (Z.eqb_spec (Binary.seconds s) 59); cbn [andb];
      repeat split; try lia; apply Z.mod_pos_bound; lia.
  - now rewrite bin_isr_idle.
Qed.

Lemma bin_isr_stopwatch (s : Binary.state) :
  Binary.stopwatch (Binary.stopwatch_timer_isr s) = Binary.stopwatch s.
Proof.
  unfold Binary.stopwatch_timer_isr.
  destruct s; cbn.
  repeat match goal with |- context [if ?b then _ else _] => destruct b end;
    reflexivity.
Qed.

(** Closed form of the counters after [n] interrupts from zero, for every
    [n]: the minutes byte has no test of its own and wraps at 256. *)
Lemma bin_ticks_closed (n : nat) (s : Binary.state) :
  Binary.stopwatch s = true ->
  Binary.counters s = (0, 0, 0) ->
  let t := Z.of_nat n in
  Binary.stopwatch (Binary.ticks n s) = true /\
  Binary.hundredths (Binary.ticks n s) = t mod 100 /\
  Binary.seconds (Binary.ticks n s) = (t / 100) mod 60 /\
  Binary.minutes (Binary.ticks n s) = (t / 6000) mod 256.
Proof.
  intros Hrun Hz. unfold Binary.counters in Hz.
  injection Hz as Hm Hs Hh. cbv zeta.
  induction n as [|n IH].
  - cbn. rewrite Hm, Hs, Hh. auto.
  - destruct IH as (IHr & IHh & IHs & IHm).
    change (Binary.ticks (S n) s)
      with (Binary.stopwatch_timer_isr (Binary.ticks n s)).
    set (s' := Binary.ticks n s) in *.
    assert (Hwf : bin_wf s').
    { unfold bin_wf. rewrite IHh, IHs, IHm.
      repeat split; apply Z.mod_pos_bound; lia. }
    replace (Z.of_nat (S n)) with (Z.of_nat n + 1) by lia.
    destruct (clock_step_100 (Z.of_nat n)) as (E1 & E2 & E3); [lia|].
    rewrite E1, E2, E3.
    rewrite (bin_isr_running s' IHr Hwf). cbn.
    rewrite IHr, IHh, IHs, IHm. repeat split; reflexivity.
Qed.

(** ** One interrupt, BCD revision *)

Lemma land_7F (x : Z) : Z.land x 0x7F = x mod 128.
Proof. change 0x7F with (Z.ones 7). rewrite Z.land_ones by lia. reflexivity. Qed.

Lemma bcd_isr_idle (s : Bcd.state) :
  Bcd.stopwatch s = false -> Bcd.stopwatch_timer_isr s = s.
Proof. intros H. unfold Bcd.stopwatch_timer_isr. now rewrite H. Qed.

Lemma bcd_isr_running (s : Bcd.state) :
  Bcd.stopwatch s = true -> bcd_wf s ->
  let h := Bcd.hundredths s in
  let sec := bcd_val (Bcd.seconds s) in
  let m := bcd_val (Bcd.minutes s) in
  Bcd.stopwatch_timer_isr s =
  Bcd.set_minutes
    (if (h =? 127) && (sec =? 59) then to_bcd ((m + 1) mod 100)
     else Bcd.minutes s)
    (Bcd.set_seconds
       (if h =? 127 then (if sec =? 59 then 0 else to_bcd (sec + 1))
        else Bcd.seconds s)
       (Bcd.set_hundredths (if h =? 127 then 0 else h + 1)
          (Bcd.set_play_tick_sfx
             (Bcd.play_tick_sfx s || (h =? 127)) s))).
Proof.
  intros Hrun (Hh & (Hs & Hs60) & Hm).
  destruct (bcd_valid_to_bcd _ Hs) as (Es & Hsr).
  destruct (bcd_valid_to_bcd _ Hm) as (Em & Hmr).
  destruct s; cbn in *. subst stopwatch.
  unfold Bcd.stopwatch_timer_isr; cbn.
  rewrite land_7F.
  destruct (Z.eqb_spec hundredths 127) as [->|Hne].
  - assert (Hinc : bcdIncrement seconds = to_bcd (bcd_val seconds + 1)).
    { rewrite Es at 1. rewrite bcdIncrement_to_bcd by lia.
      now rewrite Z.mod_small by lia. }
    assert (Hinc' : bcdIncrement minutes = to_bcd ((bcd_val minutes + 1) mod 100)).
    { rewrite Em at 1. now rewrite bcdIncrement_to_bcd by lia. }
    cbn. rewrite orb_true_r, Hinc, Hinc'.
    rewrite to_bcd_rollover by lia.
    destruct (Z.eqb_spec (bcd_val seconds) 59) as [E|Hne].
    + rewrite E. reflexivity.
    + destruct (Z.leb_spec 60 (bcd_val seconds + 1)); [lia|]. reflexivity.
  - rewrite (Z.mod_small (hundredths + 1) 128) by lia.
    destruct (Z.eqb_spec (hundredths + 1) 0); [lia|].
    cbn. rewrite orb_false_r. reflexivity.
Qed.

Lemma bcd_isr_wf (s : Bcd.state) :
  bcd_wf s -> bcd_wf (Bcd.stopwatch_timer_isr s).
Proof.
  intros Hwf. destruct (Bcd.stopwatch s) eqn:Hrun.
  - rewrite (bcd_isr_running s Hrun Hwf).
    destruct Hwf as (Hh & (Hs & Hs60) & Hm).
    destruct (bcd_valid_to_bcd _ Hs) as (Es & Hsr).
    destruct (bcd_valid_to_bcd _ Hm) as (Em & Hmr).
    unfold bcd_wf; cbn.
    assert (Hm1 : 0 <= (bcd_val (Bcd.minutes s) + 1) mod 100 < 100)
      by (apply Z.mod_pos_bound; lia).
    destruct (Z.eqb_spec (Bcd.hundredths s) 127);
      destruct (Z.eqb_spec (bcd_val (Bcd.seconds s)) 59); cbn [andb];
      repeat split;
      try lia; try assumption;
      try (apply to_bcd_valid; lia);
      try (rewrite bcd_val_to_bcd; lia);
      try (cbv; congruence);
      try (unfold bcd_valid in Hs, Hm; lia);
      try (apply (to_bcd_valid _ Hm1));
      try (apply to_bcd_valid; lia).
  - now rewrite bcd_isr_idle.
Qed.

Lemma bcd_isr_stopwatch (s : Bcd.state) :
  Bcd.stopwatch (Bcd.stopwatch_timer_isr s) = Bcd.stopwatch s.
Proof.
  unfold Bcd.stopwatch_timer_isr.
  destruct s; cbn.
  repeat match goal with |- context [if ?b then _ else _] => destruct b end;
    reflexivity.
Qed.

(** Closed form after [n] interrupts from zero, for every [n]: the minutes
    byte is only decimal-adjusted, so it runs through 00..99. *)
Lemma bcd_ticks_closed (n : nat) (s : Bcd.state) :
  Bcd.stopwatch s = true ->
  Bcd.counters s = (0, 0, 0) ->
  Bcd.stopwatch (Bcd.ticks n s) = true /\
  Bcd.hundredths (Bcd.ticks n s) = Z.of_nat n mod 128 /\
  Bcd.seconds (Bcd.ticks n s) = to_bcd ((Z.of_nat n / 128) mod 60) /\
  Bcd.minutes (Bcd.ticks n s) = to_bcd ((Z.of_nat n / 7680) mod 100).
Proof.
  intros Hrun Hz. unfold Bcd.counters in Hz.
  injection Hz as Hm Hs Hh.
  induction n as [|n IH].
  - cbn. rewrite Hm, Hs, Hh. auto.
  - destruct IH as (IHr & IHh & IHs & IHm).
    change (Bcd.ticks (S n) s)
      with (Bcd.stopwatch_timer_isr (Bcd.ticks n s)).
    set (s' := Bcd.ticks n s) in *.
    assert (B1 : 0 <= Z.of_nat n mod 128 < 128)
      by (apply Z.mod_pos_bound; lia).
    assert (B2 : 0 <= (Z.of_nat n / 128) mod 60 < 60)
      by (apply Z.mod_pos_bound; lia).
    assert (B3 : 0 <= (Z.of_nat n / 7680) mod 100 < 100)
      by (apply Z.mod_pos_bound; lia).
    assert (Hwf : bcd_wf s').
    { unfold bcd_wf. rewrite IHh, IHs, IHm.
      repeat split; try lia; try (apply to_bcd_valid; lia).
      rewrite bcd_val_to_bcd; lia. }
    replace (Z.of_nat (S n)) with (Z.of_nat n + 1) by lia.
    destruct (clock_step_128 (Z.of_nat n)) as (E1 & E2 & E3); [lia|].
    rewrite E1, E2, E3.
    rewrite (bcd_isr_running s' IHr Hwf). cbn.
    rewrite IHr, IHh, IHs, IHm.
    rewrite !bcd_val_to_bcd by lia.
    repeat split; try reflexivity;
      destruct (Z.of_nat n mod 128 =? 127);
      destruct ((Z.of_nat n / 128) mod 60 =? 59); reflexivity.
Qed.

(** ** Control operations and reachable states *)

Lemma bin_pause_state (s : Binary.state) :
  exec Binary.pause_stopwatch s =
  Binary.set_stopwatch false (Binary.set_TAC_REG Binary.TAC_REG_STOP s).
Proof. reflexivity. Qed.

Lemma bin_start_state (s : Binary.state) :
  exec Binary.start_stopwatch s =
  Binary.set_stopwatch true
    (Binary.set_TAC_REG
       (if Binary.is_cpu_fast s then Binary.TAC_REG_START_1024
        else Binary.TAC_REG_START_256) s).
Proof. reflexivity. Qed.

Lemma bin_reset_state (s : Binary.state) :
  exec Binary.reset_stopwatch s =
  Binary.set_hundredths 0
    (Binary.set_seconds 0
       (Binary.set_minutes 0 (Binary.set_stopwatch false s))).
Proof. reflexivity. Qed.

Lemma bcd_pause_state (s : Bcd.state) :
  exec Bcd.pause_stopwatch s =
  Bcd.set_stopwatch false (Bcd.set_TAC_REG TACF_STOP s).
Proof. reflexivity. Qed.

Lemma bcd_start_state (s : Bcd.state) :
  exec Bcd.start_stopwatch s =
  Bcd.set_stopwatch true
    (Bcd.set_TAC_REG (Z.lor TACF_4KHZ TACF_START) s).
Proof. reflexivity. Qed.

Lemma bcd_reset_state (s : Bcd.state) :
  exec Bcd.reset_stopwatch s =
  Bcd.set_hundredths 0
    (Bcd.set_seconds 0 (Bcd.set_minutes 0 (Bcd.set_stopwatch false s))).
Proof. reflexivity. Qed.

Lemma bcd_valid_0 : bcd_valid 0.
Proof. cbv. repeat split; congruence. Qed.

Lemma bin_step_wf (o : Binary.op) (s : Binary.state) :
  bin_wf s -> bin_wf (Binary.step o s).
Proof.
  intros Hwf. destruct o; cbn [Binary.step].
  - now apply bin_isr_wf.
  - rewrite bin_start_state. exact Hwf.
  - rewrite bin_pause_state. exact Hwf.
  - rewrite bin_reset_state. unfold bin_wf; cbn. lia.
Qed.

Lemma bcd_step_wf (o : Bcd.op) (s : Bcd.state) :
  bcd_wf s -> bcd_wf (Bcd.step o s).
Proof.
  intros Hwf. destruct o; cbn [Bcd.step].
  - now apply bcd_isr_wf.
  - rewrite bcd_start_state. exact Hwf.
  - rewrite bcd_pause_state. exact Hwf.
  - rewrite bcd_reset_state. unfold bcd_wf; cbn.
    repeat split; try lia; try apply bcd_valid_0; cbv; congruence.
Qed.

Lemma bin_run_wf (ops : list Binary.op) (s : Binary.state) :
  bin_wf s -> bin_wf (Binary.run ops s).
Proof.
  revert s. induction ops as [|o ops IH]; intros s Hwf; [exact Hwf|].
  cbn. apply IH. now apply bin_step_wf.
Qed.

Lemma bcd_run_wf (ops : list Bcd.op) (s : Bcd.state) :
  bcd_wf s -> bcd_wf (Bcd.run ops s).
Proof.
  revert s. induction ops as [|o ops IH]; intros s Hwf; [exact Hwf|].
  cbn. apply IH. now apply bcd_step_wf.
Qed.

Lemma bin_boot_wf (cgb : bool) : bin_wf (Binary.boot cgb).
Proof. destruct cgb; unfold bin_wf; cbn; lia. Qed.

Lemma bcd_boot_wf (cgb : bool) : bcd_wf (Bcd.boot cgb).
Proof.
  destruct cgb; unfold bcd_wf; cbn;
    (repeat split; try lia; try apply bcd_valid_0; cbv; congruence).
Qed.

Lemma bin_run_app (l1 l2 : list Binary.op) (s : Binary.state) :
  Binary.run (l1 ++ l2) s = Binary.run l2 (Binary.run l1 s).
Proof. apply fold_left_app. Qed.

Lemma bcd_run_app (l1 l2 : list Bcd.op) (s : Bcd.state) :
  Bcd.run (l1 ++ l2) s = Bcd.run l2 (Bcd.run l1 s).
Proof. apply fold_left_app. Qed.

Lemma bin_run_repeat_isr (n : nat) (s : Binary.state) :
  Binary.run (repeat Binary.OpIsr n) s = Binary.ticks n s.
Proof.
  induction n as [|n IH]; [reflexivity|].
  replace (repeat Binary.OpIsr (S n))
    with (repeat Binary.OpIsr n ++ [Binary.OpIsr]).
  - rewrite bin_run_app, IH. reflexivity.
  - change [Binary.OpIsr] with (repeat Binary.OpIsr 1).
    rewrite <- repeat_app. f_equal. lia.
Qed.

Lemma bcd_run_repeat_isr (n : nat) (s : Bcd.state) :
  Bcd.run (repeat Bcd.OpIsr n) s = Bcd.ticks n s.
Proof.
  induction n as [|n IH]; [reflexivity|].
  replace (repeat Bcd.OpIsr (S n))
    with (repeat Bcd.OpIsr n ++ [Bcd.OpIsr]).
  - rewrite bcd_run_app, IH. reflexivity.
  - change [Bcd.OpIsr] with (repeat Bcd.OpIsr 1).
    rewrite <- repeat_app. f_equal. lia.
Qed.

(** Reading a field of an updated state. *)
Ltac bin_fields :=
  cbn [Binary.minutes Binary.seconds Binary.hundredths Binary.stopwatch
       Binary.play_tick_sfx Binary.TAC_REG Binary.TMA_REG Binary.TIMA_REG
       Binary.prev_joypad Binary.is_cpu_fast Binary.is_gbc
       Binary.set_minutes Binary.set_seconds Binary.set_hundredths
       Binary.set_stopwatch Binary.set_play_tick_sfx Binary.set_TAC_REG
       Binary.set_TMA_REG Binary.set_TIMA_REG Binary.set_prev_joypad].

Ltac bcd_fields :=
  cbn [Bcd.minutes Bcd.seconds Bcd.hundredths Bcd.stopwatch
       Bcd.play_tick_sfx Bcd.TAC_REG Bcd.TMA_REG Bcd.TIMA_REG
       Bcd.prev_joypad Bcd.is_cpu_fast Bcd.is_gbc
       Bcd.set_minutes Bcd.set_seconds Bcd.set_hundredths
       Bcd.set_stopwatch Bcd.set_play_tick_sfx Bcd.set_TAC_REG
       Bcd.set_TMA_REG Bcd.set_TIMA_REG Bcd.set_prev_joypad].

(** ** Counting from the zeroed state *)

(** C1.  For every tick count [t] in [0, N*3600), [t] interrupts from the
    zeroed counters with the stopwatch running give
    minutes = (t / (N*60)) mod 60, seconds = (t / N) mod 60 and
    sub-unit = t mod N, and the stopwatch is still running.  N is 100 in
    the binary revision.  In the BCD revision N is 128 and the minutes and
    seconds bytes hold these numbers in packed BCD: they are valid BCD
    bytes whose two digits read as the stated values. *)
Theorem C1_ticks_from_zero :
  (forall (t : nat) (s : Binary.state),
      Binary.stopwatch s = true ->
      Binary.counters s = (0, 0, 0) ->
      Z.of_nat t < 100 * 3600 ->
      Binary.stopwatch (Binary.ticks t s) = true /\
      Binary.minutes (Binary.ticks t s) = (Z.of_nat t / (100 * 60)) mod 60 /\
      Binary.seconds (Binary.ticks t s) = (Z.of_nat t / 100) mod 60 /\
      Binary.hundredths (Binary.ticks t s) = Z.of_nat t mod 100) /\
  (forall (t : nat) (s : Bcd.state),
      Bcd.stopwatch s = true ->
      Bcd.counters s = (0, 0, 0) ->
      Z.of_nat t < 128 * 3600 ->
      Bcd.stopwatch (Bcd.ticks t s) = true /\
      bcd_valid (Bcd.minutes (Bcd.ticks t s)) /\
      bcd_val (Bcd.minutes (Bcd.ticks t s))
        = (Z.of_nat t / (128 * 60)) mod 60 /\
      bcd_valid (Bcd.seconds (Bcd.ticks t s)) /\
      bcd_val (Bcd.seconds (Bcd.ticks t s)) = (Z.of_nat t / 128) mod 60 /\
      Bcd.hundredths (Bcd.ticks t s) = Z.of_nat t mod 128).
Proof.
  split; intros t s Hrun Hz Ht.
  - destruct (bin_ticks_closed t s Hrun Hz) as (Er & Eh & Es & Em).
    repeat split; try assumption.
    rewrite Em. change (100 * 60) with 6000.
    Z.to_euclidean_division_equations; lia.
  - destruct (bcd_ticks_closed t s Hrun Hz) as (Er & Eh & Es & Em).
    assert (B2 : 0 <= (Z.of_nat t / 128) mod 60 < 60)
      by (apply Z.mod_pos_bound; lia).
    assert (B3 : 0 <= (Z.of_nat t / 7680) mod 100 < 100)
      by (apply Z.mod_pos_bound; lia).
    rewrite Es, Em. rewrite !bcd_val_to_bcd by lia.
    repeat split; try assumption; try (apply to_bcd_valid; lia).
    change (128 * 60) with 7680.
    Z.to_euclidean_division_equations; lia.
Qed.

Lemma C1_ticks_from_zero_witness :
  Binary.counters
    (Binary.ticks 250 (exec Binary.start_stopwatch (Binary.boot false)))
  = (0, 2, 50) /\
  (bcd_val (Bcd.seconds
     (Bcd.ticks 1500 (exec Bcd.start_stopwatch (Bcd.boot true)))) = 11 /\
   Bcd.seconds (Bcd.ticks 1500 (exec Bcd.start_stopwatch (Bcd.boot true)))
   = 0x11).
Proof.
  split.
  - destruct (proj1 C1_ticks_from_zero 250%nat
                (exec Binary.start_stopwatch (Binary.boot false)))
      as (_ & Em & Es & Eh);
      [reflexivity | reflexivity | reflexivity |].
    unfold Binary.counters. rewrite Em, Es, Eh. reflexivity.
  - destruct (proj2 C1_ticks_from_zero 1500%nat
                (exec Bcd.start_stopwatch (Bcd.boot true)))
      as (_ & _ & _ & _ & Es & _);
      [reflexivity | reflexivity | reflexivity |].
    split; [rewrite Es; reflexivity | vm_compute; reflexivity].
Defined.

Lemma bin_sets_cue (s : Binary.state) :
  Binary.stopwatch s = true -> bin_wf s ->
  Binary.isr_sets_cue s = (Binary.hundredths s =? 99).
Proof.
  intros Hrun Hwf. unfold Binary.isr_sets_cue.
  rewrite bin_isr_running; [reflexivity | exact Hrun | exact Hwf].
Qed.

Lemma bcd_sets_cue (s : Bcd.state) :
  Bcd.stopwatch s = true -> bcd_wf s ->
  Bcd.isr_sets_cue s = (Bcd.hundredths s =? 127).
Proof.
  intros Hrun Hwf. unfold Bcd.isr_sets_cue.
  rewrite bcd_isr_running; [reflexivity | exact Hrun | exact Hwf].
Qed.



(** ** Elapsed time never runs ahead of the interrupts *)

Lemma bin_isr_elapsed_le (s : Binary.state) :
  bin_wf s ->
  bin_elapsed (Binary.stopwatch_timer_isr s) <= bin_elapsed s + 1.
Proof.
  intros Hwf. destruct (Binary.stopwatch s) eqn:Hrun.
  - rewrite (bin_isr_running s Hrun Hwf). destruct Hwf as (Hh & Hs & Hm).
    unfold bin_elapsed. bin_fields.
    destruct (Z.eqb_spec (Binary.hundredths s) 99);
      destruct (Z.eqb_spec (Binary.seconds s) 59); cbn [andb];
      try lia.
    Z.to_euclidean_division_equations; lia.
  - rewrite bin_isr_idle by assumption. lia.
Qed.

Lemma bcd_isr_elapsed_le (s : Bcd.state) :
  bcd_wf s ->
  bcd_elapsed (Bcd.stopwatch_timer_isr s) <= bcd_elapsed s + 1.
Proof.
  intros Hwf. destruct (Bcd.stopwatch s) eqn:Hrun.
  - rewrite (bcd_isr_running s Hrun Hwf).
    destruct Hwf as (Hh & (Hs & Hs60) & Hm).
    destruct (bcd_valid_to_bcd _ Hs) as (Es & Hsr).
    destruct (bcd_valid_to_bcd _ Hm) as (Em & Hmr).
    assert (Hm1 : 0 <= (bcd_val (Bcd.minutes s) + 1) mod 100 < 100)
      by (apply Z.mod_pos_bound; lia).
    unfold bcd_elapsed. bcd_fields.
    destruct (Z.eqb_spec (Bcd.hundredths s) 127);
      destruct (Z.eqb_spec (bcd_val (Bcd.seconds s)) 59); cbn [andb];
      rewrite ?bcd_val_to_bcd by lia; change (bcd_val 0) with 0;
      try lia.
    Z.to_euclidean_division_equations; lia.
  - rewrite bcd_isr_idle by assumption. lia.
Qed.

Lemma bin_count_isr_cons (o : Binary.op) (ops : list Binary.op) :
  Binary.count_isr (o :: ops) =
  (if Binary.is_isr o then 1 else 0) + Binary.count_isr ops.
Proof.
  unfold Binary.count_isr. cbn [filter].
  destruct (Binary.is_isr o); cbn [List.length]; lia.
Qed.

Lemma bcd_count_isr_cons (o : Bcd.op) (ops : list Bcd.op) :
  Bcd.count_isr (o :: ops) =
  (if Bcd.is_isr o then 1 else 0) + Bcd.count_isr ops.
Proof.
  unfold Bcd.count_isr. cbn [filter].
  destruct (Bcd.is_isr o); cbn [List.length]; lia.
Qed.

Lemma bin_run_elapsed (ops : list Binary.op) (s : Binary.state) :
  bin_wf s ->
  bin_elapsed (Binary.run ops s) <= bin_elapsed s + Binary.count_isr ops.
Proof.
  revert s. induction ops as [|o ops IH]; intros s Hwf.
  - cbn. unfold Binary.count_isr; cbn. lia.
  - rewrite bin_count_isr_cons.
    change (Binary.run (o :: ops) s)
      with (Binary.run ops (Binary.step o s)).
    specialize (IH (Binary.step o s) (bin_step_wf o s Hwf)).
    assert (bin_elapsed (Binary.step o s)
            <= bin_elapsed s + (if Binary.is_isr o then 1 else 0)).
    { destruct o; cbn [Binary.step Binary.is_isr].
      - now apply bin_isr_elapsed_le.
      - rewrite bin_start_state. unfold bin_elapsed; bin_fields. lia.
      - rewrite bin_pause_state. unfold bin_elapsed; bin_fields. lia.
      - rewrite bin_reset_state. destruct Hwf as (? & ? & ?).
        unfold bin_elapsed; bin_fields. lia. }
    lia.
Qed.

Lemma bcd_run_elapsed (ops : list Bcd.op) (s : Bcd.state) :
  bcd_wf s ->
  bcd_elapsed (Bcd.run ops s) <= bcd_elapsed s + Bcd.count_isr ops.
Proof.
  revert s. induction ops as [|o ops IH]; intros s Hwf.
  - cbn. unfold Bcd.count_isr; cbn. lia.
  - rewrite bcd_count_isr_cons.
    change (Bcd.run (o :: ops) s) with (Bcd.run ops (Bcd.step o s)).
    specialize (IH (Bcd.step o s) (bcd_step_wf o s Hwf)).
    assert (bcd_elapsed (Bcd.step o s)
            <= bcd_elapsed s + (if Bcd.is_isr o then 1 else 0)).
    { destruct o; cbn [Bcd.step Bcd.is_isr].
      - now apply bcd_isr_elapsed_le.
      - rewrite bcd_start_state. unfold bcd_elapsed; bcd_fields. lia.
      - rewrite bcd_pause_state. unfold bcd_elapsed; bcd_fields. lia.
      - rewrite bcd_reset_state. destruct Hwf as (Hh & (Hs & Hs60) & Hm).
        destruct (bcd_valid_to_bcd _ Hs) as (Es & Hsr).
        destruct (bcd_valid_to_bcd _ Hm) as (Em & Hmr).
        unfold bcd_elapsed; bcd_fields. change (bcd_val 0) with 0. lia. }
    lia.
Qed.

(** Start from boot, then [n] interrupts. *)
Lemma bin_minutes_after_start (cgb : bool) (n : nat) :
  Binary.minutes
    (Binary.run (Binary.OpStart :: repeat Binary.OpIsr n) (Binary.boot cgb))
  = (Z.of_nat n / 6000) mod 256.
Proof.
  change (Binary.run (Binary.OpStart :: repeat Binary.OpIsr n)
            (Binary.boot cgb))
    with (Binary.run (repeat Binary.OpIsr n)
            (Binary.step Binary.OpStart (Binary.boot cgb))).
  rewrite bin_run_repeat_isr.
  apply bin_ticks_closed; destruct cgb; reflexivity.
Qed.

Lemma bcd_minutes_after_start (cgb : bool) (n : nat) :
  Bcd.minutes
    (Bcd.run (Bcd.OpStart :: repeat Bcd.OpIsr n) (Bcd.boot cgb))
  = to_bcd ((Z.of_nat n / 7680) mod 100).
Proof.
  change (Bcd.run (Bcd.OpStart :: repeat Bcd.OpIsr n) (Bcd.boot cgb))
    with (Bcd.run (repeat Bcd.OpIsr n)
            (Bcd.step Bcd.OpStart (Bcd.boot cgb))).
  rewrite bcd_run_repeat_isr.
  apply bcd_ticks_closed; destruct cgb; reflexivity.
Qed.

(** C3 (as the code has it).  In every state reachable from boot by
    interrupts, start, pause and reset, minutes stays a byte: 0..255 in the
    binary revision, a valid packed-BCD byte (00..99) in the BCD revision;
    it does not exceed 59 while fewer than N*3600 interrupts have occurred.
    The handler has no test on minutes: the carry out of seconds adds one,
    so 59 is followed by 60, and the byte wraps to 0 only from 255 (binary)
    or from 0x99 (BCD).  That invocation writes the counters and the cue
    flag and nothing else: there is no overflow signal. *)
Theorem C3_minutes_range :
  (forall (cgb : bool) (ops : list Binary.op),
      let s := Binary.run ops (Binary.boot cgb) in
      0 <= Binary.minutes s <= 255 /\
      (Binary.count_isr ops < 100 * 3600 -> Binary.minutes s <= 59)) /\
  (forall s : Binary.state,
      Binary.stopwatch s = true ->
      Binary.hundredths s = 99 -> Binary.seconds s = 59 ->
      0 <= Binary.minutes s <= 255 ->
      Binary.stopwatch_timer_isr s =
      Binary.set_minutes ((Binary.minutes s + 1) mod 256)
        (Binary.set_seconds 0
           (Binary.set_hundredths 0 (Binary.set_play_tick_sfx true s)))) /\
  (forall (cgb : bool) (ops : list Bcd.op),
      let s := Bcd.run ops (Bcd.boot cgb) in
      bcd_valid (Bcd.minutes s) /\
      (Bcd.count_isr ops < 128 * 3600 -> bcd_val (Bcd.minutes s) <= 59)) /\
  (forall s : Bcd.state,
      Bcd.stopwatch s = true ->
      Bcd.hundredths s = 127 -> Bcd.seconds s = 0x59 ->
      bcd_valid (Bcd.minutes s) ->
      Bcd.stopwatch_timer_isr s =
      Bcd.set_minutes (to_bcd ((bcd_val (Bcd.minutes s) + 1) mod 100))
        (Bcd.set_seconds 0
           (Bcd.set_hundredths 0 (Bcd.set_play_tick_sfx true s)))).
Proof.
  split; [|split; [|split]].
  - intros cgb ops s.
    assert (Hwf : bin_wf s) by apply bin_run_wf, bin_boot_wf.
    pose proof (bin_run_elapsed ops (Binary.boot cgb) (bin_boot_wf cgb)) as He.
    fold s in He.
    replace (bin_elapsed (Binary.boot cgb)) with 0 in He
      by (destruct cgb; reflexivity).
    destruct Hwf as (Hh & Hs & Hm). unfold bin_elapsed in He.
    split; lia.
  - intros s Hrun Hh Hs Hm.
    rewrite bin_isr_running; [|exact Hrun|unfold bin_wf; lia].
    rewrite Hh, Hs. cbn [Z.eqb Pos.eqb andb].
    rewrite orb_true_r. reflexivity.
  - intros cgb ops s.
    assert (Hwf : bcd_wf s) by apply bcd_run_wf, bcd_boot_wf.
    pose proof (bcd_run_elapsed ops (Bcd.boot cgb) (bcd_boot_wf cgb)) as He.
    fold s in He.
    replace (bcd_elapsed (Bcd.boot cgb)) with 0 in He
      by (destruct cgb; reflexivity).
    destruct Hwf as (Hh & (Hs & Hs60) & Hm).
    destruct (bcd_valid_to_bcd _ Hs) as (Es & Hsr).
    destruct (bcd_valid_to_bcd _ Hm) as (Em & Hmr).
    unfold bcd_elapsed in He.
    split; [exact Hm | lia].
  - intros s Hrun Hh Hs Hm.
    rewrite bcd_isr_running; [|exact Hrun|].
    + rewrite Hh, Hs. change (bcd_val 89) with 59.
      cbn [Z.eqb Pos.eqb andb]. rewrite orb_true_r. reflexivity.
    + unfold bcd_wf. rewrite Hh, Hs.
      split; [lia|]. split; [|exact Hm].
      cbv. repeat split; congruence.
Qed.

Lemma C3_minutes_range_witness :
  Binary.minutes
    (Binary.run [Binary.OpStart; Binary.OpIsr] (Binary.boot false)) <= 59 /\
  Binary.minutes
    (Binary.stopwatch_timer_isr
       (Binary.State false false 0 0 true false 59 59 99 [] [] []
          0x5C 0x5C 0x07 0)) = 60 /\
  bcd_val (Bcd.minutes
    (Bcd.run [Bcd.OpStart; Bcd.OpIsr] (Bcd.boot false))) <= 59 /\
  Bcd.minutes
    (Bcd.stopwatch_timer_isr
       (Bcd.State false false true false 0x59 0x59 127 224 0 4 0)) = 0x60.
Proof.
  destruct C3_minutes_range as (H1 & H2 & H3 & H4).
  split; [|split; [|split]].
  - apply (H1 false [Binary.OpStart; Binary.OpIsr]).
    vm_compute. reflexivity.
  - rewrite H2; [reflexivity | reflexivity | reflexivity | reflexivity
                | cbn; lia].
  - apply (H3 false [Bcd.OpStart; Bcd.OpIsr]).
    vm_compute. reflexivity.
  - rewrite H4; [reflexivity | reflexivity | reflexivity | reflexivity
                | cbv; repeat split; congruence].
Defined.

(** C3 as stated fails: after one hour of run time the minutes field shows
    60 in both revisions. *)
Lemma C3_counterexample :
  Binary.minutes
    (Binary.run (Binary.OpStart :: repeat Binary.OpIsr (Z.to_nat 360000))
       (Binary.boot false)) = 60 /\
  Bcd.minutes
    (Bcd.run (Bcd.OpStart :: repeat Bcd.OpIsr (Z.to_nat 460800))
       (Bcd.boot false)) = 0x60.
Proof.
  rewrite bin_minutes_after_start, bcd_minutes_after_start.
  rewrite !Z2Nat.id by lia. split; reflexivity.
Qed.

(** C4.  BCD revision: an invocation that increments seconds (the sub-unit
    counter wraps to 0 in it) while seconds holds 0x59 leaves seconds at
    0x00 and minutes at [bcdIncrement minutes], which for a valid BCD byte
    is the packed BCD of the next number.  [bcdIncrement] is the binary
    add-one followed by the decimal adjust; it takes 0x59 to 0x60 (not to
    0x5A), and the handler compares the adjusted seconds with 0x60. *)
Theorem C4_bcd_seconds_rollover :
  (forall s : Bcd.state,
      Bcd.stopwatch s = true ->
      Z.land (Bcd.hundredths s + 1) 0x7F = 0 ->
      Bcd.seconds s = 0x59 ->
      let s' := Bcd.stopwatch_timer_isr s in
      Bcd.seconds s' = 0x00 /\
      Bcd.minutes s' = bcdIncrement (Bcd.minutes s) /\
      (bcd_valid (Bcd.minutes s) ->
       Bcd.minutes s' = to_bcd ((bcd_val (Bcd.minutes s) + 1) mod 100))) /\
  (forall b : Z, bcdIncrement b = asm_daa (asm_add b 1)) /\
  (bcdIncrement 0x59 = 0x60 /\ bcdIncrement 0x09 = 0x10 /\
   bcdIncrement 0x99 = 0x00) /\
  (forall s : Bcd.state,
      Bcd.stopwatch s = true ->
      Z.land (Bcd.hundredths s + 1) 0x7F = 0 ->
      Bcd.seconds (Bcd.stopwatch_timer_isr s) =
      (if 0x60 <=? bcdIncrement (Bcd.seconds s) then 0x00
       else bcdIncrement (Bcd.seconds s))).
Proof.
  split; [|split; [|split]].
  - intros s Hrun Hh Hs s'. subst s'.
    unfold Bcd.stopwatch_timer_isr. rewrite Hrun. bcd_fields.
    rewrite Hh, Hs. cbn [Z.eqb].
    change (bcdIncrement 89) with 0x60. cbn [Z.leb Z.compare Pos.compare
      Pos.compare_cont]. bcd_fields.
    split; [reflexivity|]. split; [reflexivity|].
    intros Hm. destruct (bcd_valid_to_bcd _ Hm) as (Em & Hmr).
    rewrite Em at 1. now rewrite bcdIncrement_to_bcd by lia.
  - reflexivity.
  - repeat split; reflexivity.
  - intros s Hrun Hh.
    unfold Bcd.stopwatch_timer_isr. rewrite Hrun. bcd_fields.
    rewrite Hh. cbn [Z.eqb]. bcd_fields.
    destruct (0x60 <=? bcdIncrement (Bcd.seconds s)); reflexivity.
Qed.

Lemma C4_bcd_seconds_rollover_witness :
  let s := Bcd.State false false true false 0x07 0x59 127 224 0 4 0 in
  Bcd.seconds (Bcd.stopwatch_timer_isr s) = 0x00 /\
  Bcd.minutes (Bcd.stopwatch_timer_isr s) = 0x08 /\
  Bcd.seconds
    (Bcd.stopwatch_timer_isr
       (Bcd.State false false true false 0x07 0x58 127 224 0 4 0)) = 0x59.
Proof.
  cbv zeta.
  destruct C4_bcd_seconds_rollover as (H1 & _ & _ & H4).
  destruct (H1 (Bcd.State false false true false 0x07 0x59 127 224 0 4 0))
    as (Es & Em & Em'); [reflexivity | reflexivity | reflexivity |].
  split; [exact Es|]. split.
  - rewrite Em'; [reflexivity | cbv; repeat split; congruence].
  - rewrite H4; reflexivity.
Defined.

(** ** Sequencing *)

Lemma exec_seq {S} (c1 c2 : cmd S) (s : S) :
  exec (c1 ;; c2) s = exec c2 (exec c1 s).
Proof.
  unfold exec, seq. destruct (c1 s) as [s1 o1]; cbn.
  destruct (c2 s1); reflexivity.
Qed.

Lemma trace_seq {S} (c1 c2 : cmd S) (s : S) :
  trace (c1 ;; c2) s = trace c1 s ++ trace c2 (exec c1 s).
Proof.
  unfold trace, exec, seq. destruct (c1 s) as [s1 o1]; cbn.
  destruct (c2 s1); reflexivity.
Qed.

Lemma exec_branch {S} (b : S -> bool) (c1 c2 : cmd S) (s : S) :
  exec (branch b c1 c2) s = if b s then exec c1 s else exec c2 s.
Proof. unfold exec, branch. now destruct (b s). Qed.

Lemma trace_branch {S} (b : S -> bool) (c1 c2 : cmd S) (s : S) :
  trace (branch b c1 c2) s = if b s then trace c1 s else trace c2 s.
Proof. unfold trace, branch. now destruct (b s). Qed.

(** ** Polling the buttons *)

Lemma bin_handle_inputs_state (r : pad_reads) (s : Binary.state) :
  exec (Binary.handle_inputs r) s =
  let s1 := if confirm_edge r (Binary.prev_joypad s)
            then (if Binary.stopwatch s then exec Binary.pause_stopwatch s
                  else exec Binary.start_stopwatch s)
            else s in
  let s2 := if cancel_edge r (Binary.prev_joypad s1)
               && negb (Binary.stopwatch s1)
            then exec Binary.reset_stopwatch s1 else s1 in
  Binary.set_prev_joypad (jp_cur r) s2.
Proof.
  destruct s as [g f b z sw ptk m sec h bm bs bh tma tima tac prev].
  unfold exec, Binary.handle_inputs, seq, branch.
  cbn [Binary.prev_joypad Binary.stopwatch].
  destruct (confirm_edge r prev); [destruct sw|];
    cbn -[confirm_edge cancel_edge];
    destruct (cancel_edge r prev); try destruct sw; reflexivity.
Qed.

Lemma bcd_handle_inputs_state (r : pad_reads) (s : Bcd.state) :
  exec (Bcd.handle_inputs r) s =
  let s1 := if confirm_edge r (Bcd.prev_joypad s)
            then (if Bcd.stopwatch s then exec Bcd.pause_stopwatch s
                  else exec Bcd.start_stopwatch s)
            else s in
  let s2 := if cancel_edge r (Bcd.prev_joypad s1)
               && negb (Bcd.stopwatch s1)
            then exec Bcd.reset_stopwatch s1 else s1 in
  Bcd.set_prev_joypad (jp_cur r) s2.
Proof.
  destruct s as [g f sw ptk m sec h tma tima tac prev].
  unfold exec, Bcd.handle_inputs, seq, branch.
  cbn [Bcd.prev_joypad Bcd.stopwatch].
  destruct (confirm_edge r prev); [destruct sw|];
    cbn -[confirm_edge cancel_edge];
    destruct (cancel_edge r prev); try destruct sw; reflexivity.
Qed.

Lemma bin_handle_inputs_quiet (r : pad_reads) (s : Binary.state) :
  Binary.stopwatch s = true ->
  confirm_edge r (Binary.prev_joypad s) = false ->
  Binary.handle_inputs r s = (Binary.set_prev_joypad (jp_cur r) s, []).
Proof.
  intros Hrun Hc.
  destruct s as [g f b z sw ptk m sec h bm bs bh tma tima tac prev].
  cbn in Hrun, Hc. subst sw.
  unfold Binary.handle_inputs, seq, branch.
  cbn [Binary.prev_joypad Binary.stopwatch].
  rewrite Hc. cbn -[cancel_edge]. rewrite andb_false_r. reflexivity.
Qed.

Lemma bcd_handle_inputs_quiet (r : pad_reads) (s : Bcd.state) :
  Bcd.stopwatch s = true ->
  confirm_edge r (Bcd.prev_joypad s) = false ->
  Bcd.handle_inputs r s = (Bcd.set_prev_joypad (jp_cur r) s, []).
Proof.
  intros Hrun Hc.
  destruct s as [g f sw ptk m sec h tma tima tac prev].
  cbn in Hrun, Hc. subst sw.
  unfold Bcd.handle_inputs, seq, branch.
  cbn [Bcd.prev_joypad Bcd.stopwatch].
  rewrite Hc. cbn -[cancel_edge]. rewrite andb_false_r. reflexivity.
Qed.

(** C5 (as the code has it).  The reset routine zeroes minutes, seconds
    and sub-unit whatever they held, and a poll that detects a cancel
    press-edge and no confirm press-edge while Idle performs it.  While
    Running, a poll that detects no confirm press-edge, whatever the cancel
    button does, causes no transition and emits nothing: counters,
    RunState and the timer registers keep their values, and the only store
    is the button mask remembered for the next poll. *)
Theorem C5_reset_guard :
  (forall s : Binary.state,
      Binary.counters (exec Binary.reset_stopwatch s) = (0, 0, 0)) /\
  (forall (r : pad_reads) (s : Binary.state),
      Binary.stopwatch s = false ->
      cancel_edge r (Binary.prev_joypad s) = true ->
      confirm_edge r (Binary.prev_joypad s) = false ->
      Binary.counters (exec (Binary.handle_inputs r) s) = (0, 0, 0) /\
      Binary.stopwatch (exec (Binary.handle_inputs r) s) = false) /\
  (forall (r : pad_reads) (s : Binary.state),
      Binary.stopwatch s = true ->
      confirm_edge r (Binary.prev_joypad s) = false ->
      Binary.handle_inputs r s = (Binary.set_prev_joypad (jp_cur r) s, [])) /\
  (forall s : Bcd.state,
      Bcd.counters (exec Bcd.reset_stopwatch s) = (0, 0, 0)) /\
  (forall (r : pad_reads) (s : Bcd.state),
      Bcd.stopwatch s = false ->
      cancel_edge r (Bcd.prev_joypad s) = true ->
      confirm_edge r (Bcd.prev_joypad s) = false ->
      Bcd.counters (exec (Bcd.handle_inputs r) s) = (0, 0, 0) /\
      Bcd.stopwatch (exec (Bcd.handle_inputs r) s) = false) /\
  (forall (r : pad_reads) (s : Bcd.state),
      Bcd.stopwatch s = true ->
      confirm_edge r (Bcd.prev_joypad s) = false ->
      Bcd.handle_inputs r s = (Bcd.set_prev_joypad (jp_cur r) s, [])).
Proof.
  repeat apply conj.
  - reflexivity.
  - intros r s Hidle Hb Ha. rewrite bin_handle_inputs_state.
    rewrite Ha. cbv zeta. rewrite Hb, Hidle. split; reflexivity.
  - exact bin_handle_inputs_quiet.
  - reflexivity.
  - intros r s Hidle Hb Ha. rewrite bcd_handle_inputs_state.
    rewrite Ha. cbv zeta. rewrite Hb, Hidle. split; reflexivity.
  - exact bcd_handle_inputs_quiet.
Qed.

Lemma C5_reset_guard_witness :
  (let s := Binary.ticks 250 (exec Binary.pause_stopwatch
              (Binary.ticks 250
                 (exec Binary.start_stopwatch (Binary.boot false)))) in
   Binary.counters s = (0, 2, 50) /\
   Binary.counters (exec (Binary.handle_inputs (pad J_B)) s) = (0, 0, 0)) /\
  (let s := Binary.ticks 250
              (exec Binary.start_stopwatch (Binary.boot false)) in
   Binary.counters s = (0, 2, 50) /\
   exec (Binary.handle_inputs (pad J_B)) s = Binary.set_prev_joypad J_B s) /\
  (let s := Bcd.ticks 300 (exec Bcd.pause_stopwatch
              (Bcd.ticks 300 (exec Bcd.start_stopwatch (Bcd.boot true)))) in
   Bcd.counters s = (0, 2, 44) /\
   Bcd.counters (exec (Bcd.handle_inputs (pad J_B)) s) = (0, 0, 0)) /\
  (let s := Bcd.ticks 300 (exec Bcd.start_stopwatch (Bcd.boot true)) in
   Bcd.counters s = (0, 2, 44) /\
   exec (Bcd.handle_inputs (pad J_B)) s = Bcd.set_prev_joypad J_B s).
Proof.
  destruct C5_reset_guard as (_ & B1 & B2 & _ & D1 & D2).
  cbv zeta. repeat apply conj.
  - vm_compute. reflexivity.
  - apply B1; vm_compute; reflexivity.
  - vm_compute. reflexivity.
  - unfold exec at 1. rewrite B2; [reflexivity | |]; vm_compute; reflexivity.
  - vm_compute. reflexivity.
  - apply D1; vm_compute; reflexivity.
  - vm_compute. reflexivity.
  - unfold exec at 1. rewrite D2; [reflexivity | |]; vm_compute; reflexivity.
Defined.

(** C5 as stated fails: with the stopwatch running, a poll that sees both
    buttons newly pressed pauses and then, the flag being clear by then,
    resets: the cancel press-edge has zeroed the counters. *)
Lemma C5_counterexample :
  (let s := Binary.ticks 250
              (exec Binary.start_stopwatch (Binary.boot false)) in
   let r := pad (Z.lor J_A J_B) in
   Binary.stopwatch s = true /\
   cancel_edge r (Binary.prev_joypad s) = true /\
   Binary.counters s = (0, 2, 50) /\
   Binary.counters (exec (Binary.handle_inputs r) s) = (0, 0, 0)) /\
  (let s := Bcd.ticks 300 (exec Bcd.start_stopwatch (Bcd.boot true)) in
   let r := pad (Z.lor J_A J_B) in
   Bcd.stopwatch s = true /\
   cancel_edge r (Bcd.prev_joypad s) = true /\
   Bcd.counters s = (0, 2, 44) /\
   Bcd.counters (exec (Bcd.handle_inputs r) s) = (0, 0, 0)).
Proof. vm_compute. repeat split; reflexivity. Qed.

(** C6.  The pause routine stores Stopped in the timer control register
    and clears the run flag; minutes, seconds, sub-unit, the timer counter
    and the timer modulo keep their values (so does every other variable:
    the state after pause is the state before with these two stores). *)
Theorem C6_pause_frame :
  (forall s : Binary.state,
      let s' := exec Binary.pause_stopwatch s in
      Binary.TAC_REG s' = Binary.TAC_REG_STOP /\
      Binary.stopwatch s' = false /\
      Binary.counters s' = Binary.counters s /\
      Binary.TIMA_REG s' = Binary.TIMA_REG s /\
      Binary.TMA_REG s' = Binary.TMA_REG s /\
      s' = Binary.set_stopwatch false
             (Binary.set_TAC_REG Binary.TAC_REG_STOP s)) /\
  (forall s : Bcd.state,
      let s' := exec Bcd.pause_stopwatch s in
      Bcd.TAC_REG s' = TACF_STOP /\
      Bcd.stopwatch s' = false /\
      Bcd.counters s' = Bcd.counters s /\
      Bcd.TIMA_REG s' = Bcd.TIMA_REG s /\
      Bcd.TMA_REG s' = Bcd.TMA_REG s /\
      s' = Bcd.set_stopwatch false (Bcd.set_TAC_REG TACF_STOP s)).
Proof.
  split; intros s; repeat split.
Qed.

(** ** Main-loop iterations *)

Lemma bin_handle_stopwatch_counters (s : Binary.state) :
  Binary.counters (exec Binary.handle_stopwatch s) = Binary.counters s.
Proof.
  destruct s as [g f b z sw ptk m sec h bm bs bh tma tima tac prev].
  destruct sw, ptk; reflexivity.
Qed.

Lemma bcd_handle_stopwatch_counters (s : Bcd.state) :
  Bcd.counters (exec Bcd.handle_stopwatch s) = Bcd.counters s.
Proof.
  destruct s as [g f sw ptk m sec h tma tima tac prev].
  destruct sw, ptk; reflexivity.
Qed.

Lemma bin_handle_inputs_counters (r : pad_reads) (s : Binary.state) :
  cancel_edge r (Binary.prev_joypad s) = false ->
  Binary.counters (exec (Binary.handle_inputs r) s) = Binary.counters s.
Proof.
  intros Hb. rewrite bin_handle_inputs_state. cbv zeta.
  destruct (confirm_edge r (Binary.prev_joypad s));
    [destruct (Binary.stopwatch s)|];
    (match goal with
     | |- context [cancel_edge r ?p] =>
         change (cancel_edge r p) with (cancel_edge r (Binary.prev_joypad s))
     end);
    rewrite Hb; reflexivity.
Qed.

Lemma bcd_handle_inputs_counters (r : pad_reads) (s : Bcd.state) :
  cancel_edge r (Bcd.prev_joypad s) = false ->
  Bcd.counters (exec (Bcd.handle_inputs r) s) = Bcd.counters s.
Proof.
  intros Hb. rewrite bcd_handle_inputs_state. cbv zeta.
  destruct (confirm_edge r (Bcd.prev_joypad s));
    [destruct (Bcd.stopwatch s)|];
    (match goal with
     | |- context [cancel_edge r ?p] =>
         change (cancel_edge r p) with (cancel_edge r (Bcd.prev_joypad s))
     end);
    rewrite Hb; reflexivity.
Qed.

Lemma bin_frame_prev (r : pad_reads) (s : Binary.state) :
  Binary.prev_joypad
    (exec Binary.handle_stopwatch (exec (Binary.handle_inputs r) s))
  = jp_cur r.
Proof.
  rewrite bin_handle_inputs_state. cbv zeta.
  match goal with
  | |- context [Binary.set_prev_joypad _ ?x] => generalize x
  end.
  intros [g f b z sw ptk m sec h bm bs bh tma tima tac prev].
  destruct sw, ptk; reflexivity.
Qed.

Lemma bcd_frame_prev (r : pad_reads) (s : Bcd.state) :
  Bcd.prev_joypad
    (exec Bcd.handle_stopwatch (exec (Bcd.handle_inputs r) s))
  = jp_cur r.
Proof.
  rewrite bcd_handle_inputs_state. cbv zeta.
  match goal with
  | |- context [Bcd.set_prev_joypad _ ?x] => generalize x
  end.
  intros [g f sw ptk m sec h tma tima tac prev].
  destruct sw, ptk; reflexivity.
Qed.

Lemma bin_frames_cons (r : pad_reads) (rs : list pad_reads)
      (s : Binary.state) :
  exec (Binary.frames (r :: rs)) s =
  exec (Binary.frames rs)
    (exec Binary.handle_stopwatch (exec (Binary.handle_inputs r) s)).
Proof.
  unfold Binary.frames. cbn [map Binary.sched_run Binary.sched_step].
  unfold Binary.main_loop_body. now rewrite !exec_seq.
Qed.

Lemma bcd_frames_cons (r : pad_reads) (rs : list pad_reads)
      (s : Bcd.state) :
  exec (Bcd.frames (r :: rs)) s =
  exec (Bcd.frames rs)
    (exec Bcd.handle_stopwatch (exec (Bcd.handle_inputs r) s)).
Proof.
  unfold Bcd.frames. cbn [map Bcd.sched_run Bcd.sched_step].
  unfold Bcd.main_loop_body. now rewrite !exec_seq.
Qed.

Lemma bin_handle_inputs_counters_any (r : pad_reads) (s : Binary.state) :
  Binary.counters (exec (Binary.handle_inputs r) s) = Binary.counters s \/
  Binary.counters (exec (Binary.handle_inputs r) s) = (0, 0, 0).
Proof.
  rewrite bin_handle_inputs_state. cbv zeta.
  destruct (confirm_edge r (Binary.prev_joypad s));
    [destruct (Binary.stopwatch s)|];
    match goal with
    | |- context [if ?b then _ else _] => destruct b
    end; auto.
Qed.

Lemma bcd_handle_inputs_counters_any (r : pad_reads) (s : Bcd.state) :
  Bcd.counters (exec (Bcd.handle_inputs r) s) = Bcd.counters s \/
  Bcd.counters (exec (Bcd.handle_inputs r) s) = (0, 0, 0).
Proof.
  rewrite bcd_handle_inputs_state. cbv zeta.
  destruct (confirm_edge r (Bcd.prev_joypad s));
    [destruct (Bcd.stopwatch s)|];
    match goal with
    | |- context [if ?b then _ else _] => destruct b
    end; auto.
Qed.

(** C7 (as the code has it).  Pausing twice gives the same state as pausing
    once.  Any number of main-loop iterations in which no cancel press-edge
    is detected leaves minutes, seconds and sub-unit as they were, whatever
    the state and whatever the confirm button does.  With
    arbitrary button reads the iterations leave the counters as they were
    or zeroed by a reset: the loop never advances them, only the interrupt
    does. *)
Theorem C7_pause_idempotent :
  (forall s : Binary.state,
      exec Binary.pause_stopwatch (exec Binary.pause_stopwatch s)
      = exec Binary.pause_stopwatch s) /\
  (forall (rs : list pad_reads) (s : Binary.state),
      no_cancel_edge (Binary.prev_joypad s) rs = true ->
      Binary.counters (exec (Binary.frames rs) s) = Binary.counters s) /\
  (forall (rs : list pad_reads) (s : Binary.state),
      Binary.counters (exec (Binary.frames rs) s) = Binary.counters s \/
      Binary.counters (exec (Binary.frames rs) s) = (0, 0, 0)) /\
  (forall s : Bcd.state,
      exec Bcd.pause_stopwatch (exec Bcd.pause_stopwatch s)
      = exec Bcd.pause_stopwatch s) /\
  (forall (rs : list pad_reads) (s : Bcd.state),
      no_cancel_edge (Bcd.prev_joypad s) rs = true ->
      Bcd.counters (exec (Bcd.frames rs) s) = Bcd.counters s) /\
  (forall (rs : list pad_reads) (s : Bcd.state),
      Bcd.counters (exec (Bcd.frames rs) s) = Bcd.counters s \/
      Bcd.counters (exec (Bcd.frames rs) s) = (0, 0, 0)).
Proof.
  repeat apply conj.
  - reflexivity.
  - intros rs. induction rs as [|r rs IH]; intros s Hrs; [reflexivity|].
    cbn [no_cancel_edge] in Hrs. apply andb_prop in Hrs as [Hr Hrs].
    apply negb_true_iff in Hr.
    rewrite bin_frames_cons, IH by (now rewrite bin_frame_prev).
    rewrite bin_handle_stopwatch_counters.
    now apply bin_handle_inputs_counters.
  - intros rs. induction rs as [|r rs IH]; intros s; [now left|].
    rewrite bin_frames_cons.
    destruct (IH (exec Binary.handle_stopwatch
                    (exec (Binary.handle_inputs r) s))) as [E|E];
      rewrite E; [|now right].
    rewrite bin_handle_stopwatch_counters.
    apply bin_handle_inputs_counters_any.
  - reflexivity.
  - intros rs. induction rs as [|r rs IH]; intros s Hrs; [reflexivity|].
    cbn [no_cancel_edge] in Hrs. apply andb_prop in Hrs as [Hr Hrs].
    apply negb_true_iff in Hr.
    rewrite bcd_frames_cons, IH by (now rewrite bcd_frame_prev).
    rewrite bcd_handle_stopwatch_counters.
    now apply bcd_handle_inputs_counters.
  - intros rs. induction rs as [|r rs IH]; intros s; [now left|].
    rewrite bcd_frames_cons.
    destruct (IH (exec Bcd.handle_stopwatch
                    (exec (Bcd.handle_inputs r) s))) as [E|E];
      rewrite E; [|now right].
    rewrite bcd_handle_stopwatch_counters.
    apply bcd_handle_inputs_counters_any.
Qed.

Lemma C7_pause_idempotent_witness :
  (let s := exec Binary.pause_stopwatch
              (Binary.ticks 250
                 (exec Binary.start_stopwatch (Binary.boot false))) in
   Binary.counters (exec (Binary.frames (repeat (pad 0) 100)) s)
   = (0, 2, 50)) /\
  (let s := exec Bcd.pause_stopwatch
              (Bcd.ticks 300 (exec Bcd.start_stopwatch (Bcd.boot true))) in
   Bcd.counters
     (exec (Bcd.frames [pad 0; pad J_A; pad J_A; pad 0; pad J_A]) s)
   = (0, 2, 44)).
Proof.
  destruct C7_pause_idempotent as (_ & B & _ & _ & D & _).
  cbv zeta. split.
  - rewrite B; vm_compute; reflexivity.
  - rewrite D; vm_compute; reflexivity.
Defined.

(** C7 as stated fails: one main-loop iteration run while the timer is
    stopped, in which the cancel button is newly pressed, zeroes the
    counters without any interrupt. *)
Lemma C7_counterexample :
  (let s := exec Binary.pause_stopwatch
              (Binary.ticks 250
                 (exec Binary.start_stopwatch (Binary.boot false))) in
   let s' := exec (Binary.frames [pad J_B]) s in
   Binary.TAC_REG s = Binary.TAC_REG_STOP /\
   Binary.TAC_REG s' = Binary.TAC_REG_STOP /\
   Binary.counters s = (0, 2, 50) /\ Binary.counters s' = (0, 0, 0)) /\
  (let s := exec Bcd.pause_stopwatch
              (Bcd.ticks 300 (exec Bcd.start_stopwatch (Bcd.boot true))) in
   let s' := exec (Bcd.frames [pad J_B]) s in
   Bcd.TAC_REG s = TACF_STOP /\ Bcd.TAC_REG s' = TACF_STOP /\
   Bcd.counters s = (0, 2, 44) /\ Bcd.counters s' = (0, 0, 0)).
Proof. vm_compute. repeat split; reflexivity. Qed.

(** ** Timer configuration *)

(** C8 (as the code has it).  Configuring the timer stores, in the binary
    revision, modulo = 256 - (164 / speedFactor) (and the same value in the
    counter); in the BCD revision, modulo = 256 - (32 * speedFactor);
    speedFactor is 1 in Normal and 2 in Double mode.  With the divider that
    starting the stopwatch selects, the number of CPU cycles between two
    overflows is a constant times speedFactor (41984 resp. 32768), so at a
    doubled CPU clock the interrupt keeps its rate. *)
Theorem C8_timer_modulo :
  (forall s : Binary.state,
      let m := mode_of (Binary.is_cpu_fast s) in
      let s' := exec Binary.set_timer_realtime_reg s in
      Binary.TMA_REG s' = 256 - 164 / speedFactor m /\
      Binary.TIMA_REG s' = 256 - 164 / speedFactor m /\
      let s'' := exec Binary.start_stopwatch s' in
      cycles_per_overflow (Binary.TMA_REG s'') (Binary.TAC_REG s'')
      = 41984 * speedFactor m) /\
  (forall s : Bcd.state,
      let m := mode_of (Bcd.is_cpu_fast s) in
      let s' := exec Bcd.set_timer_reg_stopwatch s in
      Bcd.TMA_REG s' = 256 - 32 * speedFactor m /\
      let s'' := exec Bcd.start_stopwatch s' in
      cycles_per_overflow (Bcd.TMA_REG s'') (Bcd.TAC_REG s'')
      = 32768 * speedFactor m).
Proof.
  split; intros s; destruct s as [? f]; destruct f; repeat split.
Qed.

(** C8 as stated fails in the BCD revision: no base tick count gives both
    moduli through 256 - (baseTicks / speedFactor). *)
Lemma C8_counterexample :
  Bcd.TMA_REG (exec Bcd.set_timer_reg_stopwatch (Bcd.boot false)) = 224 /\
  Bcd.TMA_REG (exec Bcd.set_timer_reg_stopwatch (Bcd.boot true)) = 192 /\
  ~ exists baseTicks : Z,
      forall s : Bcd.state,
        Bcd.TMA_REG (exec Bcd.set_timer_reg_stopwatch s)
        = 256 - baseTicks / speedFactor (mode_of (Bcd.is_cpu_fast s)).
Proof.
  split; [reflexivity|]. split; [reflexivity|].
  intros [b H].
  pose proof (H (Bcd.boot false)) as Hn.
  pose proof (H (Bcd.boot true)) as Hd.
  change (Bcd.TMA_REG (exec Bcd.set_timer_reg_stopwatch (Bcd.boot false)))
    with 224 in Hn.
  change (Bcd.TMA_REG (exec Bcd.set_timer_reg_stopwatch (Bcd.boot true)))
    with 192 in Hd.
  change (speedFactor (mode_of (Bcd.is_cpu_fast (Bcd.boot false))))
    with 1 in Hn.
  change (speedFactor (mode_of (Bcd.is_cpu_fast (Bcd.boot true))))
    with 2 in Hd.
  rewrite Z.div_1_r in Hn.
  Z.to_euclidean_division_equations; lia.
Qed.

(** ** The redraw with the interrupt live *)

Ltac bin_all_fields :=
  cbn [Binary.is_gbc Binary.is_cpu_fast Binary.text_LUT_ascii_base_idx
       Binary.num_zeros Binary.stopwatch Binary.play_tick_sfx
       Binary.minutes Binary.seconds Binary.hundredths
       Binary.num_buffer_minutes Binary.num_buffer_seconds
       Binary.num_buffer_hundredths Binary.TMA_REG Binary.TIMA_REG
       Binary.TAC_REG Binary.prev_joypad
       Binary.set_num_zeros Binary.set_num_buffer_minutes
       Binary.set_num_buffer_seconds Binary.set_num_buffer_hundredths].

Lemma bin_isr_scratch (s : Binary.state) :
  (forall z, Binary.stopwatch_timer_isr (Binary.set_num_zeros z s)
             = Binary.set_num_zeros z (Binary.stopwatch_timer_isr s)) /\
  (forall b, Binary.stopwatch_timer_isr (Binary.set_num_buffer_minutes b s)
             = Binary.set_num_buffer_minutes b
                 (Binary.stopwatch_timer_isr s)) /\
  (forall b, Binary.stopwatch_timer_isr (Binary.set_num_buffer_seconds b s)
             = Binary.set_num_buffer_seconds b
                 (Binary.stopwatch_timer_isr s)) /\
  (forall b, Binary.stopwatch_timer_isr
               (Binary.set_num_buffer_hundredths b s)
             = Binary.set_num_buffer_hundredths b
                 (Binary.stopwatch_timer_isr s)) /\
  Binary.text_LUT_ascii_base_idx (Binary.stopwatch_timer_isr s)
  = Binary.text_LUT_ascii_base_idx s.
Proof.
  unfold Binary.stopwatch_timer_isr.
  destruct s as [g f b z sw ptk m sec h bm bs bh tma tima tac prev]; cbn.
  repeat split; intros;
    repeat match goal with |- context [if ?c then _ else _] => destruct c end;
    reflexivity.
Qed.

Lemma bin_ticks_scratch (k : nat) (s : Binary.state) :
  (forall z, Binary.ticks k (Binary.set_num_zeros z s)
             = Binary.set_num_zeros z (Binary.ticks k s)) /\
  (forall b, Binary.ticks k (Binary.set_num_buffer_minutes b s)
             = Binary.set_num_buffer_minutes b (Binary.ticks k s)) /\
  (forall b, Binary.ticks k (Binary.set_num_buffer_seconds b s)
             = Binary.set_num_buffer_seconds b (Binary.ticks k s)) /\
  (forall b, Binary.ticks k (Binary.set_num_buffer_hundredths b s)
             = Binary.set_num_buffer_hundredths b (Binary.ticks k s)) /\
  Binary.text_LUT_ascii_base_idx (Binary.ticks k s)
  = Binary.text_LUT_ascii_base_idx s.
Proof.
  induction k as [|k (I1 & I2 & I3 & I4 & I5)]; [now repeat split|].
  change (Binary.ticks (S k)) with
    (fun s => Binary.stopwatch_timer_isr (Binary.ticks k s)). cbv beta.
  destruct (bin_isr_scratch (Binary.ticks k s)) as (E1 & E2 & E3 & E4 & E5).
  repeat split; intros;
    rewrite ?I1, ?I2, ?I3, ?I4, ?E1, ?E2, ?E3, ?E4, ?E5; auto.
Qed.

Lemma bin_ticks_set_num_zeros (k : nat) (z : Z) (s : Binary.state) :
  Binary.ticks k (Binary.set_num_zeros z s)
  = Binary.set_num_zeros z (Binary.ticks k s).
Proof. apply bin_ticks_scratch. Qed.

Lemma bin_ticks_set_buffer_minutes (k : nat) (b : list Z)
      (s : Binary.state) :
  Binary.ticks k (Binary.set_num_buffer_minutes b s)
  = Binary.set_num_buffer_minutes b (Binary.ticks k s).
Proof. apply bin_ticks_scratch. Qed.

Lemma bin_ticks_set_buffer_seconds (k : nat) (b : list Z)
      (s : Binary.state) :
  Binary.ticks k (Binary.set_num_buffer_seconds b s)
  = Binary.set_num_buffer_seconds b (Binary.ticks k s).
Proof. apply bin_ticks_scratch. Qed.

Lemma bin_ticks_set_buffer_hundredths (k : nat) (b : list Z)
      (s : Binary.state) :
  Binary.ticks k (Binary.set_num_buffer_hundredths b s)
  = Binary.set_num_buffer_hundredths b (Binary.ticks k s).
Proof. apply bin_ticks_scratch. Qed.

Lemma bin_ticks_base (k : nat) (s : Binary.state) :
  Binary.text_LUT_ascii_base_idx (Binary.ticks k s)
  = Binary.text_LUT_ascii_base_idx s.
Proof. apply bin_ticks_scratch. Qed.

(** Every cell a redraw of the binary revision writes, whatever
    interrupts are serviced during it. *)
Lemma bin_print_trace_irq (irqs : nat -> nat) (s : Binary.state) :
  let base := Binary.text_LUT_ascii_base_idx s in
  trace (Binary.print_stopwatch irqs) s =
  Binary.place 6 6
    (bin_read_tiles base (Binary.minutes (bin_at irqs 0 s))
       (Binary.minutes (bin_at irqs 1 s)))
  ++ Binary.place 9 6
       (bin_read_tiles base (Binary.seconds (bin_at irqs 2 s))
          (Binary.seconds (bin_at irqs 3 s)))
  ++ Binary.place 12 6
       (bin_read_tiles base (Binary.hundredths (bin_at irqs 4 s))
          (Binary.hundredths (bin_at irqs 5 s)))
  ++ [Vram 14 6 0].
Proof.
  cbv zeta. unfold Binary.print_stopwatch, Binary.irq.
  repeat rewrite trace_seq.
  cbn [exec trace modify emit fst snd Binary.draw_numbers_ascii app].
  repeat rewrite ?bin_ticks_set_num_zeros, ?bin_ticks_set_buffer_minutes,
    ?bin_ticks_set_buffer_seconds, ?bin_ticks_set_buffer_hundredths.
  bin_all_fields.
  repeat rewrite ?bin_ticks_set_num_zeros, ?bin_ticks_set_buffer_minutes,
    ?bin_ticks_set_buffer_seconds, ?bin_ticks_set_buffer_hundredths.
  bin_all_fields.
  rewrite !bin_ticks_base.
  reflexivity.
Qed.

(** ** The cue flag: producer and consumer *)

Lemma count_tick_cues_app (a b : list out) :
  count_tick_cues (a ++ b) = (count_tick_cues a + count_tick_cues b)%nat.
Proof. unfold count_tick_cues. now rewrite filter_app, length_app. Qed.

Lemma bin_place_no_cue (x y : Z) (tiles : list Z) :
  count_tick_cues (Binary.place x y tiles) = 0%nat.
Proof.
  revert x. induction tiles as [|t tiles IH]; intros x; [reflexivity|].
  cbn [Binary.place]. unfold count_tick_cues in *. cbn. apply IH.
Qed.

Lemma bin_print_no_cue (s : Binary.state) :
  count_tick_cues (trace (Binary.print_stopwatch no_irq) s) = 0%nat /\
  Binary.play_tick_sfx (exec (Binary.print_stopwatch no_irq) s)
  = Binary.play_tick_sfx s /\
  Binary.stopwatch (exec (Binary.print_stopwatch no_irq) s)
  = Binary.stopwatch s.
Proof.
  split; [|split; reflexivity].
  rewrite bin_print_trace_irq.
  rewrite !count_tick_cues_app, !bin_place_no_cue. reflexivity.
Qed.

Lemma bin_isr_flag (s : Binary.state) :
  Binary.play_tick_sfx (Binary.stopwatch_timer_isr s)
  = Binary.play_tick_sfx s || Binary.isr_sets_cue s.
Proof.
  unfold Binary.isr_sets_cue, Binary.stopwatch_timer_isr.
  destruct s as [g f b z sw ptk m sec h bm bs bh tma tima tac prev].
  bin_fields.
  destruct sw; [|now rewrite orb_false_r].
  destruct (100 <=? u8 (h + 1)); [|now rewrite orb_false_r].
  destruct (60 <=? u8 (sec + 1)); bin_fields; now rewrite orb_true_r.
Qed.

Lemma bcd_isr_flag (s : Bcd.state) :
  Bcd.play_tick_sfx (Bcd.stopwatch_timer_isr s)
  = Bcd.play_tick_sfx s || Bcd.isr_sets_cue s.
Proof.
  unfold Bcd.isr_sets_cue, Bcd.stopwatch_timer_isr.
  destruct s as [g f sw ptk m sec h tma tima tac prev].
  bcd_fields.
  destruct sw; [|now rewrite orb_false_r].
  destruct (Z.land (h + 1) 127 =? 0); [|now rewrite orb_false_r].
  destruct (96 <=? bcdIncrement sec); bcd_fields; now rewrite orb_true_r.
Qed.

Lemma bin_handle_inputs_cue (r : pad_reads) (s : Binary.state) :
  count_tick_cues (trace (Binary.handle_inputs r) s) = 0%nat /\
  Binary.play_tick_sfx (exec (Binary.handle_inputs r) s)
  = Binary.play_tick_sfx s.
Proof.
  destruct s as [g f b z sw ptk m sec h bm bs bh tma tima tac prev].
  unfold trace, exec, Binary.handle_inputs, seq, branch.
  cbn [Binary.prev_joypad Binary.stopwatch].
  destruct (confirm_edge r prev); [destruct sw|];
    cbn -[confirm_edge cancel_edge];
    destruct (cancel_edge r prev); try destruct sw; split; reflexivity.
Qed.

Lemma bcd_handle_inputs_cue (r : pad_reads) (s : Bcd.state) :
  count_tick_cues (trace (Bcd.handle_inputs r) s) = 0%nat /\
  Bcd.play_tick_sfx (exec (Bcd.handle_inputs r) s) = Bcd.play_tick_sfx s.
Proof.
  destruct s as [g f sw ptk m sec h tma tima tac prev].
  unfold trace, exec, Bcd.handle_inputs, seq, branch.
  cbn [Bcd.prev_joypad Bcd.stopwatch].
  destruct (confirm_edge r prev); [destruct sw|];
    cbn -[confirm_edge cancel_edge];
    destruct (cancel_edge r prev); try destruct sw; split; reflexivity.
Qed.

Lemma bin_handle_stopwatch_cue (s : Binary.state) :
  (count_tick_cues (trace Binary.handle_stopwatch s)
   + b2n (Binary.play_tick_sfx (exec Binary.handle_stopwatch s)))%nat
  = b2n (Binary.play_tick_sfx s).
Proof.
  unfold Binary.handle_stopwatch, Binary.handle_stopwatch_irq.
  rewrite trace_branch, exec_branch.
  destruct (Binary.stopwatch s) eqn:Hrun; [|reflexivity].
  rewrite trace_seq, exec_seq, count_tick_cues_app.
  destruct (bin_print_no_cue s) as (E0 & Ef & _). rewrite E0, <- Ef.
  rewrite trace_branch, exec_branch.
  destruct (Binary.play_tick_sfx (exec (Binary.print_stopwatch no_irq) s))
    eqn:E1.
  - reflexivity.
  - change (exec skip (exec (Binary.print_stopwatch no_irq) s))
      with (exec (Binary.print_stopwatch no_irq) s).
    rewrite E1. reflexivity.
Qed.

Lemma bcd_handle_stopwatch_cue (s : Bcd.state) :
  (count_tick_cues (trace Bcd.handle_stopwatch s)
   + b2n (Bcd.play_tick_sfx (exec Bcd.handle_stopwatch s)))%nat
  = b2n (Bcd.play_tick_sfx s).
Proof.
  destruct s as [g f sw ptk m sec h tma tima tac prev].
  destruct sw, ptk; reflexivity.
Qed.

Lemma bin_sched_cue (l : list Binary.sched) (s : Binary.state) :
  (count_tick_cues (trace (Binary.sched_run l) s)
   + b2n (Binary.play_tick_sfx (exec (Binary.sched_run l) s))
   <= Binary.sched_sets l s + b2n (Binary.play_tick_sfx s))%nat.
Proof.
  revert s. induction l as [|x l IH]; intros s; [cbn; lia|].
  cbn [Binary.sched_run Binary.sched_sets].
  rewrite trace_seq, exec_seq, count_tick_cues_app.
  specialize (IH (exec (Binary.sched_step x) s)).
  destruct x as [|r]; cbn [Binary.sched_step] in *.
  - change (exec (modify Binary.stopwatch_timer_isr) s)
      with (Binary.stopwatch_timer_isr s) in *.
    change (trace (modify Binary.stopwatch_timer_isr) s) with (@nil out).
    rewrite bin_isr_flag in IH.
    destruct (Binary.play_tick_sfx s), (Binary.isr_sets_cue s);
      cbn [orb b2n count_tick_cues filter List.length] in *; lia.
  - unfold Binary.main_loop_body in *.
    rewrite trace_seq, exec_seq, count_tick_cues_app in *.
    destruct (bin_handle_inputs_cue r s) as (E0 & Ef).
    pose proof (bin_handle_stopwatch_cue
                  (exec (Binary.handle_inputs r) s)) as Hc.
    rewrite Ef in Hc. lia.
Qed.

Lemma bcd_sched_cue (l : list Bcd.sched) (s : Bcd.state) :
  (count_tick_cues (trace (Bcd.sched_run l) s)
   + b2n (Bcd.play_tick_sfx (exec (Bcd.sched_run l) s))
   <= Bcd.sched_sets l s + b2n (Bcd.play_tick_sfx s))%nat.
Proof.
  revert s. induction l as [|x l IH]; intros s; [cbn; lia|].
  cbn [Bcd.sched_run Bcd.sched_sets].
  rewrite trace_seq, exec_seq, count_tick_cues_app.
  specialize (IH (exec (Bcd.sched_step x) s)).
  destruct x as [|r]; cbn [Bcd.sched_step] in *.
  - change (exec (modify Bcd.stopwatch_timer_isr) s)
      with (Bcd.stopwatch_timer_isr s) in *.
    change (trace (modify Bcd.stopwatch_timer_isr) s) with (@nil out).
    rewrite bcd_isr_flag in IH.
    destruct (Bcd.play_tick_sfx s), (Bcd.isr_sets_cue s);
      cbn [orb b2n count_tick_cues filter List.length] in *; lia.
  - unfold Bcd.main_loop_body in *.
    rewrite trace_seq, exec_seq, count_tick_cues_app in *.
    destruct (bcd_handle_inputs_cue r s) as (E0 & Ef).
    pose proof (bcd_handle_stopwatch_cue
                  (exec (Bcd.handle_inputs r) s)) as Hc.
    rewrite Ef in Hc. lia.
Qed.

(** Settings of the flag among [n] consecutive interrupts while running. *)
Lemma bin_cue_sets_running (n : nat) (s : Binary.state) :
  Binary.stopwatch s = true -> bin_wf s ->
  Z.of_nat (Binary.cue_sets n s)
  = (Binary.hundredths s + Z.of_nat n) / 100.
Proof.
  revert s. induction n as [|n IH]; intros s Hrun Hwf.
  - cbn [Binary.cue_sets]. destruct Hwf as (Hh & _).
    rewrite Z.add_0_r, Z.div_small; lia.
  - cbn [Binary.cue_sets].
    rewrite Nat2Z.inj_add, IH;
      [|now rewrite bin_isr_stopwatch|now apply bin_isr_wf].
    rewrite (bin_sets_cue s Hrun Hwf).
    rewrite (bin_isr_running s Hrun Hwf). bin_fields.
    destruct Hwf as (Hh & _).
    replace (Z.of_nat (S n)) with (Z.of_nat n + 1) by lia.
    destruct (Z.eqb_spec (Binary.hundredths s) 99) as [E|E];
      cbn [Z.of_nat]; Z.to_euclidean_division_equations; lia.
Qed.

Lemma bcd_cue_sets_running (n : nat) (s : Bcd.state) :
  Bcd.stopwatch s = true -> bcd_wf s ->
  Z.of_nat (Bcd.cue_sets n s) = (Bcd.hundredths s + Z.of_nat n) / 128.
Proof.
  revert s. induction n as [|n IH]; intros s Hrun Hwf.
  - cbn [Bcd.cue_sets]. destruct Hwf as (Hh & _).
    rewrite Z.add_0_r, Z.div_small; lia.
  - cbn [Bcd.cue_sets].
    rewrite Nat2Z.inj_add, IH;
      [|now rewrite bcd_isr_stopwatch|now apply bcd_isr_wf].
    rewrite (bcd_sets_cue s Hrun Hwf).
    rewrite (bcd_isr_running s Hrun Hwf). bcd_fields.
    destruct Hwf as (Hh & _).
    replace (Z.of_nat (S n)) with (Z.of_nat n + 1) by lia.
    destruct (Z.eqb_spec (Bcd.hundredths s) 127) as [E|E];
      cbn [Z.of_nat]; Z.to_euclidean_division_equations; lia.
Qed.

(** C9 (as the code has it).  Over a continuous run from the zeroed state
    the cue flag is set by exactly one invocation per second of run time:
    after [n] interrupts exactly [n / N] of them have set it, and of any N
    consecutive invocations from a reachable running state exactly one
    sets it.  In any interleaving of interrupts and main-loop iterations
    that starts with the flag clear, the loop plays at most as many tick
    cues as there were settings: each setting is consumed at most once. *)
Theorem C9_cue_once_per_second :
  (forall (n : nat) (s : Binary.state),
      Binary.stopwatch s = true -> Binary.counters s = (0, 0, 0) ->
      Z.of_nat (Binary.cue_sets n s) = Z.of_nat n / 100) /\
  (forall (cgb : bool) (ops : list Binary.op),
      let s := Binary.run ops (Binary.boot cgb) in
      Binary.stopwatch s = true -> Binary.cue_sets 100 s = 1%nat) /\
  (forall (l : list Binary.sched) (s : Binary.state),
      Binary.play_tick_sfx s = false ->
      (count_tick_cues (trace (Binary.sched_run l) s)
       <= Binary.sched_sets l s)%nat) /\
  (forall (n : nat) (s : Bcd.state),
      Bcd.stopwatch s = true -> Bcd.counters s = (0, 0, 0) ->
      Z.of_nat (Bcd.cue_sets n s) = Z.of_nat n / 128) /\
  (forall (cgb : bool) (ops : list Bcd.op),
      let s := Bcd.run ops (Bcd.boot cgb) in
      Bcd.stopwatch s = true -> Bcd.cue_sets 128 s = 1%nat) /\
  (forall (l : list Bcd.sched) (s : Bcd.state),
      Bcd.play_tick_sfx s = false ->
      (count_tick_cues (trace (Bcd.sched_run l) s)
       <= Bcd.sched_sets l s)%nat).
Proof.
  repeat apply conj.
  - intros n s Hrun Hz. injection Hz as Hm Hs Hh.
    rewrite bin_cue_sets_running;
      [now rewrite Hh | exact Hrun | unfold bin_wf; lia].
  - intros cgb ops s Hrun.
    assert (Hwf : bin_wf s) by apply bin_run_wf, bin_boot_wf.
    apply Nat2Z.inj. rewrite (bin_cue_sets_running 100 s Hrun Hwf).
    destruct Hwf as (Hh & _). change (Z.of_nat 100) with 100.
    change (Z.of_nat 1) with 1.
    Z.to_euclidean_division_equations; lia.
  - intros l s Hf. pose proof (bin_sched_cue l s) as H.
    rewrite Hf in H. cbn [b2n] in H. lia.
  - intros n s Hrun Hz. injection Hz as Hm Hs Hh.
    rewrite bcd_cue_sets_running; [now rewrite Hh | exact Hrun |].
    unfold bcd_wf. rewrite Hm, Hs, Hh.
    repeat split; try lia; cbv; congruence.
  - intros cgb ops s Hrun.
    assert (Hwf : bcd_wf s) by apply bcd_run_wf, bcd_boot_wf.
    apply Nat2Z.inj. rewrite (bcd_cue_sets_running 128 s Hrun Hwf).
    destruct Hwf as (Hh & _). change (Z.of_nat 128) with 128.
    change (Z.of_nat 1) with 1.
    Z.to_euclidean_division_equations; lia.
  - intros l s Hf. pose proof (bcd_sched_cue l s) as H.
    rewrite Hf in H. cbn [b2n] in H. lia.
Qed.

Lemma C9_cue_once_per_second_witness :
  Z.of_nat (Binary.cue_sets 250
              (exec Binary.start_stopwatch (Binary.boot false))) = 2 /\
  Binary.cue_sets 100
    (Binary.run (Binary.OpStart :: repeat Binary.OpIsr 42)
       (Binary.boot false)) = 1%nat /\
  (count_tick_cues
     (trace (Binary.sched_run
               (Binary.Frame (pad J_A) :: repeat Binary.Tick 100
                ++ [Binary.Frame (pad J_A); Binary.Frame (pad J_A)]))
        (Binary.boot false)) <= 1)%nat /\
  Z.of_nat (Bcd.cue_sets 300
              (exec Bcd.start_stopwatch (Bcd.boot true))) = 2 /\
  Bcd.cue_sets 128
    (Bcd.run (Bcd.OpStart :: repeat Bcd.OpIsr 42) (Bcd.boot true)) = 1%nat /\
  (count_tick_cues
     (trace (Bcd.sched_run
               (Bcd.Frame (pad J_A) :: repeat Bcd.Tick 128
                ++ [Bcd.Frame (pad J_A); Bcd.Frame (pad J_A)]))
        (Bcd.boot true)) <= 1)%nat.
Proof.
  destruct C9_cue_once_per_second as (B1 & B2 & B3 & D1 & D2 & D3).
  repeat apply conj.
  - rewrite B1; reflexivity.
  - apply (B2 false (Binary.OpStart :: repeat Binary.OpIsr 42)).
    reflexivity.
  - eapply Nat.le_trans; [apply B3; reflexivity|].
    vm_compute. apply le_n.
  - rewrite D1; reflexivity.
  - apply (D2 true (Bcd.OpStart :: repeat Bcd.OpIsr 42)). reflexivity.
  - eapply Nat.le_trans; [apply D3; reflexivity|].
    vm_compute. apply le_n.
Defined.

(** C9 as stated fails: in the first 60 seconds of a run sixty invocations
    set the cue flag, not one. *)
Lemma C9_counterexample :
  Binary.cue_sets (Z.to_nat (60 * 100))
    (exec Binary.start_stopwatch (Binary.boot false)) = 60%nat /\
  Bcd.cue_sets (Z.to_nat (60 * 128))
    (exec Bcd.start_stopwatch (Bcd.boot true)) = 60%nat.
Proof. split; vm_compute; reflexivity. Qed.

(** ** The hundredths table *)

Lemma mil_table_checked (v : Z) :
  0 <= v < 128 -> mil_entry_ok v = true.
Proof.
  apply (all_below_spec 128 mil_entry_ok). vm_compute. reflexivity.
Qed.

Lemma bcd_print_trace_irq (irqs : nat -> nat) (s : Bcd.state) :
  trace (Bcd.print_stopwatch irqs) s =
  [ Vram 12 6
      (u8 (Bcd.mil_char (Bcd.hundredths (bcd_at irqs 0 s)) 0 - 48
           + Bcd.NUMBERS_BASE_TILE_IDX));
    Vram 13 6
      (u8 (Bcd.mil_char (Bcd.hundredths (bcd_at irqs 1 s)) 1 - 48
           + Bcd.NUMBERS_BASE_TILE_IDX));
    Vram 9 6
      (u8 (Z.land (Z.shiftr (Bcd.seconds (bcd_at irqs 2 s)) 4) 0x0F
           + Bcd.NUMBERS_BASE_TILE_IDX));
    Vram 10 6
      (u8 (Z.land (Bcd.seconds (bcd_at irqs 3 s)) 0x0F
           + Bcd.NUMBERS_BASE_TILE_IDX));
    Vram 6 6
      (u8 (Z.land (Z.shiftr (Bcd.minutes (bcd_at irqs 4 s)) 4) 0x0F
           + Bcd.NUMBERS_BASE_TILE_IDX));
    Vram 7 6
      (u8 (Z.land (Bcd.minutes (bcd_at irqs 5 s)) 0x0F
           + Bcd.NUMBERS_BASE_TILE_IDX)) ].
Proof.
  unfold Bcd.print_stopwatch, Bcd.irq.
  repeat rewrite trace_seq.
  cbn [exec trace modify fst snd set_vram_byte app]. reflexivity.
Qed.

(** C10 (as the code has it).  BCD revision: for every sub-unit value [v]
    in 0..127 the table entry is the two decimal digit characters of
    floor(v*100/128), a number in 0..99 that does not decrease when [v]
    grows.  The renderer reads the volatile counter once per digit, with
    the timer interrupt live: the tile at (12,6) is the tens digit of the
    rescaled value at the first read, the tile at (13,6) the units digit of
    the rescaled value at the second read.  When no interrupt is serviced
    during the redraw, the two tiles are the digits of floor(v*100/128). *)
Theorem C10_mil_table :
  forall v : Z, 0 <= v < 128 ->
    let q := v * 100 / 128 in
    nth (Z.to_nat v) Bcd.MilTable128 EmptyString = two_digits q /\
    mil_value v = q /\
    0 <= q <= 99 /\
    (forall w : Z, v <= w < 128 -> mil_value v <= mil_value w) /\
    (forall (irqs : nat -> nat) (s : Bcd.state) (w : Z),
        Bcd.hundredths (bcd_at irqs 0 s) = v ->
        Bcd.hundredths (bcd_at irqs 1 s) = w -> 0 <= w < 128 ->
        firstn 2 (trace (Bcd.print_stopwatch irqs) s)
        = [Vram 12 6 (Bcd.NUMBERS_BASE_TILE_IDX + q / 10);
           Vram 13 6
             (Bcd.NUMBERS_BASE_TILE_IDX + (w * 100 / 128) mod 10)]) /\
    (forall s : Bcd.state,
        Bcd.hundredths s = v ->
        firstn 2 (trace (Bcd.print_stopwatch no_irq) s)
        = [Vram 12 6 (Bcd.NUMBERS_BASE_TILE_IDX + q / 10);
           Vram 13 6 (Bcd.NUMBERS_BASE_TILE_IDX + q mod 10)]).
Proof.
  intros v Hv q.
  pose proof (mil_table_checked v Hv) as H. unfold mil_entry_ok in H.
  fold q in H.
  apply andb_prop in H as [H H4]. apply andb_prop in H as [H H3].
  apply andb_prop in H as [H1 H2].
  apply String.eqb_eq in H1. apply Z.eqb_eq in H2, H3, H4.
  assert (Hq : 0 <= q <= 99)
    by (subst q; Z.to_euclidean_division_equations; lia).
  split; [exact H1|]. split; [exact H4|]. split; [exact Hq|].
  split; [|split].
  - intros w Hw. rewrite H4.
    pose proof (mil_table_checked w ltac:(lia)) as Hw'.
    unfold mil_entry_ok in Hw'.
    apply andb_prop in Hw' as [_ Hw4]. apply Z.eqb_eq in Hw4.
    rewrite Hw4. subst q. apply Z.div_le_mono; lia.
  - intros irqs s w E0 E1 Hw.
    pose proof (mil_table_checked w Hw) as Hw'. unfold mil_entry_ok in Hw'.
    apply andb_prop in Hw' as [Hw' _]. apply andb_prop in Hw' as [_ Hw3].
    apply Z.eqb_eq in Hw3.
    rewrite bcd_print_trace_irq. cbn [firstn].
    rewrite E0, E1, H2, Hw3. reflexivity.
  - intros s Hs. rewrite bcd_print_trace_irq. cbn [firstn].
    change (bcd_at no_irq 0 s) with s. change (bcd_at no_irq 1 s) with s.
    rewrite Hs, H2, H3. reflexivity.
Qed.

Lemma C10_mil_table_witness :
  nth 77 Bcd.MilTable128 EmptyString = "60"%string /\
  mil_value 77 = 60 /\
  mil_value 77 <= mil_value 78 /\
  firstn 2
    (trace (Bcd.print_stopwatch (one_irq_before 1))
       (Bcd.ticks 77 (exec Bcd.start_stopwatch (Bcd.boot true))))
  = [Vram 12 6 22; Vram 13 6 16] /\
  firstn 2
    (trace (Bcd.print_stopwatch no_irq)
       (Bcd.ticks 77 (exec Bcd.start_stopwatch (Bcd.boot true))))
  = [Vram 12 6 22; Vram 13 6 16].
Proof.
  destruct (C10_mil_table 77 ltac:(lia)) as (E1 & E2 & _ & Emono & Elive & Eq).
  split; [exact E1|]. split; [exact E2|]. split; [apply Emono; lia|].
  split.
  - rewrite (Elive (one_irq_before 1)
               (Bcd.ticks 77 (exec Bcd.start_stopwatch (Bcd.boot true)))
               78); [reflexivity | reflexivity | reflexivity | lia].
  - rewrite Eq; reflexivity.
Defined.

(** C10 as stated fails for the displayed field: with the counter at 12
    (shown as 09) and one interrupt serviced between the two reads of the
    redraw, the counter is 13 (shown as 10) at the second read and the two
    tiles drawn are those of "00", the digits of neither value, below the
    number shown for the smaller counter. *)
Lemma C10_counterexample :
  let s := Bcd.ticks 12 (exec Bcd.start_stopwatch (Bcd.boot true)) in
  Bcd.hundredths s = 12 /\
  Bcd.hundredths (exec (Bcd.print_stopwatch (one_irq_before 1)) s) = 13 /\
  mil_value 12 = 9 /\ mil_value 13 = 10 /\
  firstn 2 (trace (Bcd.print_stopwatch (one_irq_before 1)) s)
  = [Vram 12 6 (Bcd.NUMBERS_BASE_TILE_IDX + 0);
     Vram 13 6 (Bcd.NUMBERS_BASE_TILE_IDX + 0)].
Proof. vm_compute. repeat split; reflexivity. Qed.

(** * Further properties of the code *)

(** ** Start, pause and the polling of the buttons *)

(** X1.  Pause followed by start gives back exactly the state of a running
    stopwatch whose control register holds the start value, and start
    followed by pause gives back exactly an idle state whose timer is
    stopped: the counters, the timer counter (the phase of the tick in
    flight) and the modulo survive a pause/resume pair untouched. *)
Theorem X1_pause_resume_round_trip :
  (forall s : Binary.state,
      Binary.stopwatch s = true -> Binary.TAC_REG s = bin_tac_start s ->
      exec Binary.start_stopwatch (exec Binary.pause_stopwatch s) = s) /\
  (forall s : Binary.state,
      Binary.stopwatch s = false ->
      Binary.TAC_REG s = Binary.TAC_REG_STOP ->
      exec Binary.pause_stopwatch (exec Binary.start_stopwatch s) = s) /\
  (forall s : Bcd.state,
      Bcd.stopwatch s = true -> Bcd.TAC_REG s = bcd_tac_start ->
      exec Bcd.start_stopwatch (exec Bcd.pause_stopwatch s) = s) /\
  (forall s : Bcd.state,
      Bcd.stopwatch s = false -> Bcd.TAC_REG s = TACF_STOP ->
      exec Bcd.pause_stopwatch (exec Bcd.start_stopwatch s) = s).
Proof.
  repeat apply conj; intros s Hf Ht; destruct s;
    unfold bin_tac_start in *; cbn in Hf, Ht; subst; reflexivity.
Qed.

Lemma X1_pause_resume_round_trip_witness :
  (let s := Binary.ticks 250
              (exec Binary.start_stopwatch (Binary.boot true)) in
   exec Binary.start_stopwatch (exec Binary.pause_stopwatch s) = s) /\
  (let s := Bcd.boot false in
   exec Bcd.pause_stopwatch (exec Bcd.start_stopwatch s) = s).
Proof.
  destruct X1_pause_resume_round_trip as (B1 & _ & _ & D2).
  cbv zeta. split.
  - apply B1; vm_compute; reflexivity.
  - apply D2; vm_compute; reflexivity.
Defined.

Lemma bin_handle_inputs_no_edge (r : pad_reads) (s : Binary.state) :
  confirm_edge r (Binary.prev_joypad s) = false ->
  cancel_edge r (Binary.prev_joypad s) = false ->
  Binary.handle_inputs r s = (Binary.set_prev_joypad (jp_cur r) s, []).
Proof.
  intros Ha Hb.
  destruct s as [g f b z sw ptk m sec h bm bs bh tma tima tac prev].
  cbn in Ha, Hb.
  unfold Binary.handle_inputs, seq, branch.
  cbn [Binary.prev_joypad Binary.stopwatch].
  rewrite Ha. cbn -[cancel_edge]. rewrite Hb. reflexivity.
Qed.

Lemma bcd_handle_inputs_no_edge (r : pad_reads) (s : Bcd.state) :
  confirm_edge r (Bcd.prev_joypad s) = false ->
  cancel_edge r (Bcd.prev_joypad s) = false ->
  Bcd.handle_inputs r s = (Bcd.set_prev_joypad (jp_cur r) s, []).
Proof.
  intros Ha Hb.
  destruct s as [g f sw ptk m sec h tma tima tac prev].
  cbn in Ha, Hb.
  unfold Bcd.handle_inputs, seq, branch.
  cbn [Bcd.prev_joypad Bcd.stopwatch].
  rewrite Ha. cbn -[cancel_edge]. rewrite Hb. reflexivity.
Qed.

Lemma bin_handle_inputs_flag (r : pad_reads) (s : Binary.state) :
  let s' := exec (Binary.handle_inputs r) s in
  Binary.stopwatch s' =
    xorb (Binary.stopwatch s) (confirm_edge r (Binary.prev_joypad s)) /\
  Binary.TAC_REG s' =
    (if confirm_edge r (Binary.prev_joypad s)
     then (if Binary.stopwatch s then Binary.TAC_REG_STOP
           else bin_tac_start s)
     else Binary.TAC_REG s) /\
  Binary.prev_joypad s' = jp_cur r /\
  Binary.is_cpu_fast s' = Binary.is_cpu_fast s /\
  Binary.TMA_REG s' = Binary.TMA_REG s /\
  Binary.TIMA_REG s' = Binary.TIMA_REG s.
Proof.
  cbv zeta. rewrite bin_handle_inputs_state. cbv zeta.
  destruct s as [g f b z sw ptk m sec h bm bs bh tma tima tac prev].
  cbn [Binary.prev_joypad Binary.stopwatch].
  destruct (confirm_edge r prev); [destruct sw|];
    cbn -[confirm_edge cancel_edge];
    destruct (cancel_edge r prev); try destruct sw; repeat split.
Qed.

Lemma bcd_handle_inputs_flag (r : pad_reads) (s : Bcd.state) :
  let s' := exec (Bcd.handle_inputs r) s in
  Bcd.stopwatch s' =
    xorb (Bcd.stopwatch s) (confirm_edge r (Bcd.prev_joypad s)) /\
  Bcd.TAC_REG s' =
    (if confirm_edge r (Bcd.prev_joypad s)
     then (if Bcd.stopwatch s then TACF_STOP else bcd_tac_start)
     else Bcd.TAC_REG s) /\
  Bcd.prev_joypad s' = jp_cur r /\
  Bcd.is_cpu_fast s' = Bcd.is_cpu_fast s /\
  Bcd.TMA_REG s' = Bcd.TMA_REG s /\
  Bcd.TIMA_REG s' = Bcd.TIMA_REG s.
Proof.
  cbv zeta. rewrite bcd_handle_inputs_state. cbv zeta.
  destruct s as [g f sw ptk m sec h tma tima tac prev].
  cbn [Bcd.prev_joypad Bcd.stopwatch].
  destruct (confirm_edge r prev); [destruct sw|];
    cbn -[confirm_edge cancel_edge];
    destruct (cancel_edge r prev); try destruct sw; repeat split.
Qed.

(** X3.  One poll of the buttons flips the run flag exactly when it
    detects a confirm press-edge, whatever the cancel button does in the
    same poll, and the timer control register follows: stopped when the
    stopwatch was running, the start value when it was idle, untouched
    without a confirm press-edge. *)
Theorem X3_confirm_edge_toggles :
  (forall (r : pad_reads) (s : Binary.state),
      Binary.stopwatch (exec (Binary.handle_inputs r) s) =
        xorb (Binary.stopwatch s) (confirm_edge r (Binary.prev_joypad s)) /\
      Binary.TAC_REG (exec (Binary.handle_inputs r) s) =
        (if confirm_edge r (Binary.prev_joypad s)
         then (if Binary.stopwatch s then Binary.TAC_REG_STOP
               else bin_tac_start s)
         else Binary.TAC_REG s)) /\
  (forall (r : pad_reads) (s : Bcd.state),
      Bcd.stopwatch (exec (Bcd.handle_inputs r) s) =
        xorb (Bcd.stopwatch s) (confirm_edge r (Bcd.prev_joypad s)) /\
      Bcd.TAC_REG (exec (Bcd.handle_inputs r) s) =
        (if confirm_edge r (Bcd.prev_joypad s)
         then (if Bcd.stopwatch s then TACF_STOP else bcd_tac_start)
         else Bcd.TAC_REG s)).
Proof.
  split; intros r s.
  - destruct (bin_handle_inputs_flag r s) as (H1 & H2 & _). now split.
  - destruct (bcd_handle_inputs_flag r s) as (H1 & H2 & _). now split.
Qed.

Lemma edges_of_held_mask (m : Z) :
  confirm_edge (pad m) m = false /\ cancel_edge (pad m) m = false.
Proof.
  unfold confirm_edge, cancel_edge, pad. cbn [jp_a jp_b].
  split; [destruct (tst m J_A) | destruct (tst m J_B)]; reflexivity.
Qed.

(** X4.  A button that is held does not act again: after a poll in which
    all three reads returned the mask [m], a second poll that reads [m]
    again changes nothing and emits nothing, whatever the state and the
    mask. *)
Theorem X4_held_buttons_do_not_repeat :
  (forall (m : Z) (s : Binary.state),
      let s1 := exec (Binary.handle_inputs (pad m)) s in
      Binary.handle_inputs (pad m) s1 = (s1, [])) /\
  (forall (m : Z) (s : Bcd.state),
      let s1 := exec (Bcd.handle_inputs (pad m)) s in
      Bcd.handle_inputs (pad m) s1 = (s1, [])).
Proof.
  split; intros m s s1.
  - assert (Hp : Binary.prev_joypad s1 = m)
      by apply (bin_handle_inputs_flag (pad m) s).
    destruct (edges_of_held_mask m) as (Ha & Hb).
    rewrite bin_handle_inputs_no_edge by (rewrite Hp; assumption).
    cbn [jp_cur pad]. f_equal.
    destruct s1; cbn in Hp; subst; reflexivity.
  - assert (Hp : Bcd.prev_joypad s1 = m)
      by apply (bcd_handle_inputs_flag (pad m) s).
    destruct (edges_of_held_mask m) as (Ha & Hb).
    rewrite bcd_handle_inputs_no_edge by (rewrite Hp; assumption).
    cbn [jp_cur pad]. f_equal.
    destruct s1; cbn in Hp; subst; reflexivity.
Qed.

(** X5.  The mask remembered for the next poll comes from the first
    [joypad()] read, the confirm test from the second.  When the confirm
    button goes down between these two reads, the poll acts on the press
    but remembers the button as released, so the next poll, with the button
    still down, acts on it again: after the two polls the run flag is back
    at its value before the press. *)
Theorem X5_press_between_reads_acts_twice :
  (forall (r1 r2 : pad_reads) (s : Binary.state),
      tst (Binary.prev_joypad s) J_A = false ->
      tst (jp_cur r1) J_A = false -> tst (jp_a r1) J_A = true ->
      tst (jp_a r2) J_A = true ->
      Binary.stopwatch (exec (Binary.handle_inputs r1) s)
        = negb (Binary.stopwatch s) /\
      Binary.stopwatch
        (exec (Binary.handle_inputs r2) (exec (Binary.handle_inputs r1) s))
        = Binary.stopwatch s) /\
  (forall (r1 r2 : pad_reads) (s : Bcd.state),
      tst (Bcd.prev_joypad s) J_A = false ->
      tst (jp_cur r1) J_A = false -> tst (jp_a r1) J_A = true ->
      tst (jp_a r2) J_A = true ->
      Bcd.stopwatch (exec (Bcd.handle_inputs r1) s)
        = negb (Bcd.stopwatch s) /\
      Bcd.stopwatch
        (exec (Bcd.handle_inputs r2) (exec (Bcd.handle_inputs r1) s))
        = Bcd.stopwatch s).
Proof.
  split; intros r1 r2 s Hp Hc Ha1 Ha2.
  - destruct (bin_handle_inputs_flag r1 s) as (F1 & _ & P1 & _).
    destruct (bin_handle_inputs_flag r2 (exec (Binary.handle_inputs r1) s))
      as (F2 & _).
    rewrite F2, P1, F1. unfold confirm_edge. rewrite Hp, Hc, Ha1, Ha2.
    cbn [andb negb]. split; destruct (Binary.stopwatch s); reflexivity.
  - destruct (bcd_handle_inputs_flag r1 s) as (F1 & _ & P1 & _).
    destruct (bcd_handle_inputs_flag r2 (exec (Bcd.handle_inputs r1) s))
      as (F2 & _).
    rewrite F2, P1, F1. unfold confirm_edge. rewrite Hp, Hc, Ha1, Ha2.
    cbn [andb negb]. split; destruct (Bcd.stopwatch s); reflexivity.
Qed.

Lemma X5_press_between_reads_acts_twice_witness :
  (let s := Binary.boot false in
   Binary.stopwatch (exec (Binary.handle_inputs (PadReads 0 J_A J_A)) s)
   = true /\
   Binary.stopwatch
     (exec (Binary.handle_inputs (pad J_A))
        (exec (Binary.handle_inputs (PadReads 0 J_A J_A)) s)) = false) /\
  (let s := Bcd.boot true in
   Bcd.stopwatch (exec (Bcd.handle_inputs (PadReads 0 J_A J_A)) s) = true /\
   Bcd.stopwatch
     (exec (Bcd.handle_inputs (pad J_A))
        (exec (Bcd.handle_inputs (PadReads 0 J_A J_A)) s)) = false).
Proof.
  destruct X5_press_between_reads_acts_twice as (B & D).
  cbv zeta. split.
  - apply (B (PadReads 0 J_A J_A) (pad J_A) (Binary.boot false));
      reflexivity.
  - apply (D (PadReads 0 J_A J_A) (pad J_A) (Bcd.boot true)); reflexivity.
Defined.

(** ** What the main loop and the interrupt keep *)

Lemma bin_isr_control (s : Binary.state) :
  let s' := Binary.stopwatch_timer_isr s in
  Binary.stopwatch s' = Binary.stopwatch s /\
  Binary.TAC_REG s' = Binary.TAC_REG s /\
  Binary.is_cpu_fast s' = Binary.is_cpu_fast s /\
  Binary.TMA_REG s' = Binary.TMA_REG s.
Proof.
  unfold Binary.stopwatch_timer_isr. destruct s; cbn.
  repeat match goal with |- context [if ?b then _ else _] => destruct b end;
    repeat split.
Qed.

Lemma bcd_isr_control (s : Bcd.state) :
  let s' := Bcd.stopwatch_timer_isr s in
  Bcd.stopwatch s' = Bcd.stopwatch s /\
  Bcd.TAC_REG s' = Bcd.TAC_REG s /\
  Bcd.is_cpu_fast s' = Bcd.is_cpu_fast s /\
  Bcd.TMA_REG s' = Bcd.TMA_REG s.
Proof.
  unfold Bcd.stopwatch_timer_isr. destruct s; cbn.
  repeat match goal with |- context [if ?b then _ else _] => destruct b end;
    repeat split.
Qed.

Lemma bin_handle_stopwatch_control (s : Binary.state) :
  let s' := exec Binary.handle_stopwatch s in
  Binary.stopwatch s' = Binary.stopwatch s /\
  Binary.TAC_REG s' = Binary.TAC_REG s /\
  Binary.is_cpu_fast s' = Binary.is_cpu_fast s /\
  Binary.TMA_REG s' = Binary.TMA_REG s.
Proof.
  destruct s as [g f b z sw ptk m sec h bm bs bh tma tima tac prev].
  destruct sw, ptk; repeat split.
Qed.

Lemma bcd_handle_stopwatch_control (s : Bcd.state) :
  let s' := exec Bcd.handle_stopwatch s in
  Bcd.stopwatch s' = Bcd.stopwatch s /\
  Bcd.TAC_REG s' = Bcd.TAC_REG s /\
  Bcd.is_cpu_fast s' = Bcd.is_cpu_fast s /\
  Bcd.TMA_REG s' = Bcd.TMA_REG s.
Proof.
  destruct s as [g f sw ptk m sec h tma tima tac prev].
  destruct sw, ptk; repeat split.
Qed.

Lemma bin_wf_of_counters (s s' : Binary.state) :
  bin_wf s ->
  Binary.counters s' = Binary.counters s \/ Binary.counters s' = (0, 0, 0) ->
  bin_wf s'.
Proof.
  unfold bin_wf, Binary.counters. intros Hwf [E|E]; injection E as -> -> ->;
    [exact Hwf | lia].
Qed.

Lemma bcd_wf_of_counters (s s' : Bcd.state) :
  bcd_wf s ->
  Bcd.counters s' = Bcd.counters s \/ Bcd.counters s' = (0, 0, 0) ->
  bcd_wf s'.
Proof.
  unfold bcd_wf, Bcd.counters. intros Hwf [E|E]; injection E as -> -> ->;
    [exact Hwf|].
  repeat split; try lia; try apply bcd_valid_0; cbv; congruence.
Qed.

Lemma bin_sched_step_keeps (x : Binary.sched) (s : Binary.state) :
  bin_timer_follows s -> bin_wf s ->
  let s' := exec (Binary.sched_step x) s in
  bin_timer_follows s' /\ bin_wf s' /\
  Binary.is_cpu_fast s' = Binary.is_cpu_fast s /\
  Binary.TMA_REG s' = Binary.TMA_REG s.
Proof.
  intros Hf Hwf. destruct x as [|r]; cbn [Binary.sched_step]; cbv zeta.
  - change (exec (modify Binary.stopwatch_timer_isr) s)
      with (Binary.stopwatch_timer_isr s).
    destruct (bin_isr_control s) as (E1 & E2 & E3 & E4).
    unfold bin_timer_follows, bin_tac_start in *.
    rewrite E1, E2, E3. auto using bin_isr_wf.
  - unfold Binary.main_loop_body. rewrite exec_seq.
    set (s1 := exec (Binary.handle_inputs r) s).
    destruct (bin_handle_stopwatch_control s1) as (E1 & E2 & E3 & E4).
    destruct (bin_handle_inputs_flag r s) as (F1 & F2 & _ & F3 & F4 & _).
    fold s1 in F1, F2, F3, F4.
    unfold bin_timer_follows, bin_tac_start in *.
    rewrite E1, E2, E3, E4, F1, F2, F3, F4.
    split; [|split; [|split; reflexivity]].
    + destruct (confirm_edge r (Binary.prev_joypad s)),
        (Binary.stopwatch s); cbn [xorb negb]; auto.
    + apply (bin_wf_of_counters s1).
      * apply (bin_wf_of_counters s s1 Hwf).
        apply bin_handle_inputs_counters_any.
      * left. apply bin_handle_stopwatch_counters.
Qed.

Lemma bcd_sched_step_keeps (x : Bcd.sched) (s : Bcd.state) :
  bcd_timer_follows s -> bcd_wf s ->
  let s' := exec (Bcd.sched_step x) s in
  bcd_timer_follows s' /\ bcd_wf s' /\
  Bcd.is_cpu_fast s' = Bcd.is_cpu_fast s /\
  Bcd.TMA_REG s' = Bcd.TMA_REG s.
Proof.
  intros Hf Hwf. destruct x as [|r]; cbn [Bcd.sched_step]; cbv zeta.
  - change (exec (modify Bcd.stopwatch_timer_isr) s)
      with (Bcd.stopwatch_timer_isr s).
    destruct (bcd_isr_control s) as (E1 & E2 & E3 & E4).
    unfold bcd_timer_follows in *.
    rewrite E1, E2. auto using bcd_isr_wf.
  - unfold Bcd.main_loop_body. rewrite exec_seq.
    set (s1 := exec (Bcd.handle_inputs r) s).
    destruct (bcd_handle_stopwatch_control s1) as (E1 & E2 & E3 & E4).
    destruct (bcd_handle_inputs_flag r s) as (F1 & F2 & _ & F3 & F4 & _).
    fold s1 in F1, F2, F3, F4.
    unfold bcd_timer_follows in *.
    rewrite E1, E2, E3, E4, F1, F2, F3, F4.
    split; [|split; [|split; reflexivity]].
    + destruct (confirm_edge r (Bcd.prev_joypad s)),
        (Bcd.stopwatch s); cbn [xorb negb]; auto.
    + apply (bcd_wf_of_counters s1).
      * apply (bcd_wf_of_counters s s1 Hwf).
        apply bcd_handle_inputs_counters_any.
      * left. apply bcd_handle_stopwatch_counters.
Qed.

(** X2.  In every state reached from boot by any interleaving of timer
    interrupts and main-loop iterations, with any button reads, the timer
    control register agrees with the run flag (the start value while
    running, stopped while idle), sub-unit and seconds are in range, the
    minutes byte is well formed, and the speed mode and the timer modulo
    are those set at boot. *)
Theorem X2_timer_follows_run_flag :
  (forall (cgb : bool) (l : list Binary.sched),
      let s := exec (Binary.sched_run l) (Binary.boot cgb) in
      bin_timer_follows s /\ bin_wf s /\
      Binary.is_cpu_fast s = cgb /\
      Binary.TMA_REG s = (if cgb then 0xAE else 0x5C)) /\
  (forall (cgb : bool) (l : list Bcd.sched),
      let s := exec (Bcd.sched_run l) (Bcd.boot cgb) in
      bcd_timer_follows s /\ bcd_wf s /\
      Bcd.is_cpu_fast s = cgb /\
      Bcd.TMA_REG s = (if cgb then 0xC0 else 0xE0)).
Proof.
  split; intros cgb l.
  - assert (G : forall s, bin_timer_follows s -> bin_wf s ->
                bin_timer_follows (exec (Binary.sched_run l) s) /\
                bin_wf (exec (Binary.sched_run l) s) /\
                Binary.is_cpu_fast (exec (Binary.sched_run l) s)
                  = Binary.is_cpu_fast s /\
                Binary.TMA_REG (exec (Binary.sched_run l) s)
                  = Binary.TMA_REG s).
    { induction l as [|x l IH]; intros s Hf Hwf;
        [split; [assumption|split; [assumption|split; reflexivity]]|].
      cbn [Binary.sched_run]. rewrite exec_seq.
      destruct (bin_sched_step_keeps x s Hf Hwf) as (Hf' & Hwf' & E1 & E2).
      destruct (IH _ Hf' Hwf') as (H1 & H2 & H3 & H4).
      rewrite H3, H4, E1, E2.
      split; [assumption|split; [assumption|split; reflexivity]]. }
    cbv zeta.
    destruct (G (Binary.boot cgb)) as (H1 & H2 & H3 & H4);
      [destruct cgb; reflexivity | apply bin_boot_wf |].
    rewrite H3, H4.
    split; [assumption|split; [assumption|]].
    split; destruct cgb; reflexivity.
  - assert (G : forall s, bcd_timer_follows s -> bcd_wf s ->
                bcd_timer_follows (exec (Bcd.sched_run l) s) /\
                bcd_wf (exec (Bcd.sched_run l) s) /\
                Bcd.is_cpu_fast (exec (Bcd.sched_run l) s)
                  = Bcd.is_cpu_fast s /\
                Bcd.TMA_REG (exec (Bcd.sched_run l) s) = Bcd.TMA_REG s).
    { induction l as [|x l IH]; intros s Hf Hwf;
        [split; [assumption|split; [assumption|split; reflexivity]]|].
      cbn [Bcd.sched_run]. rewrite exec_seq.
      destruct (bcd_sched_step_keeps x s Hf Hwf) as (Hf' & Hwf' & E1 & E2).
      destruct (IH _ Hf' Hwf') as (H1 & H2 & H3 & H4).
      rewrite H3, H4, E1, E2.
      split; [assumption|split; [assumption|split; reflexivity]]. }
    cbv zeta.
    destruct (G (Bcd.boot cgb)) as (H1 & H2 & H3 & H4);
      [destruct cgb; reflexivity | apply bcd_boot_wf |].
    rewrite H3, H4.
    split; [assumption|split; [assumption|]].
    split; destruct cgb; reflexivity.
Qed.

(** ** Counting on from any state *)

Lemma bin_isr_elapsed (s : Binary.state) :
  Binary.stopwatch s = true -> bin_wf s ->
  bin_elapsed (Binary.stopwatch_timer_isr s)
  = (bin_elapsed s + 1) mod (256 * 6000).
Proof.
  intros Hrun Hwf. rewrite (bin_isr_running s Hrun Hwf).
  destruct Hwf as (Hh & Hs & Hm). unfold bin_elapsed. bin_fields.
  destruct (Z.eqb_spec (Binary.hundredths s) 99);
    destruct (Z.eqb_spec (Binary.seconds s) 59); cbn [andb];
    Z.to_euclidean_division_equations; lia.
Qed.

Lemma bcd_isr_elapsed (s : Bcd.state) :
  Bcd.stopwatch s = true -> bcd_wf s ->
  bcd_elapsed (Bcd.stopwatch_timer_isr s)
  = (bcd_elapsed s + 1) mod (100 * 7680).
Proof.
  intros Hrun Hwf. rewrite (bcd_isr_running s Hrun Hwf).
  destruct Hwf as (Hh & (Hs & Hs60) & Hm).
  destruct (bcd_valid_to_bcd _ Hs) as (Es & Hsr).
  destruct (bcd_valid_to_bcd _ Hm) as (Em & Hmr).
  assert (Hm1 : 0 <= (bcd_val (Bcd.minutes s) + 1) mod 100 < 100)
    by (apply Z.mod_pos_bound; lia).
  unfold bcd_elapsed. bcd_fields.
  destruct (Z.eqb_spec (Bcd.hundredths s) 127);
    destruct (Z.eqb_spec (bcd_val (Bcd.seconds s)) 59); cbn [andb];
    rewrite ?bcd_val_to_bcd by lia; change (bcd_val 0) with 0;
    Z.to_euclidean_division_equations; lia.
Qed.

Lemma bin_ticks_elapsed (n : nat) (s : Binary.state) :
  Binary.stopwatch s = true -> bin_wf s ->
  Binary.stopwatch (Binary.ticks n s) = true /\
  bin_wf (Binary.ticks n s) /\
  bin_elapsed (Binary.ticks n s)
  = (bin_elapsed s + Z.of_nat n) mod (256 * 6000).
Proof.
  intros Hrun Hwf. induction n as [|n (IHr & IHwf & IHe)].
  - change (Binary.ticks 0 s) with s.
    split; [assumption|]. split; [assumption|].
    destruct Hwf as (Hh & Hs & Hm). unfold bin_elapsed.
    change (Z.of_nat 0) with 0. rewrite Z.add_0_r, Z.mod_small; lia.
  - change (Binary.ticks (S n) s)
      with (Binary.stopwatch_timer_isr (Binary.ticks n s)).
    split; [now rewrite bin_isr_stopwatch|].
    split; [now apply bin_isr_wf|].
    rewrite bin_isr_elapsed, IHe by assumption.
    rewrite Zplus_mod_idemp_l. f_equal. lia.
Qed.

Lemma bcd_ticks_elapsed (n : nat) (s : Bcd.state) :
  Bcd.stopwatch s = true -> bcd_wf s ->
  Bcd.stopwatch (Bcd.ticks n s) = true /\
  bcd_wf (Bcd.ticks n s) /\
  bcd_elapsed (Bcd.ticks n s)
  = (bcd_elapsed s + Z.of_nat n) mod (100 * 7680).
Proof.
  intros Hrun Hwf. induction n as [|n (IHr & IHwf & IHe)].
  - change (Bcd.ticks 0 s) with s.
    split; [assumption|]. split; [assumption|].
    destruct Hwf as (Hh & (Hs & Hs60) & Hm).
    destruct (bcd_valid_to_bcd _ Hs) as (Es & Hsr).
    destruct (bcd_valid_to_bcd _ Hm) as (Em & Hmr).
    unfold bcd_elapsed.
    change (Z.of_nat 0) with 0. rewrite Z.add_0_r, Z.mod_small; lia.
  - change (Bcd.ticks (S n) s)
      with (Bcd.stopwatch_timer_isr (Bcd.ticks n s)).
    split; [now rewrite bcd_isr_stopwatch|].
    split; [now apply bcd_isr_wf|].
    rewrite bcd_isr_elapsed, IHe by assumption.
    rewrite Zplus_mod_idemp_l. f_equal. lia.
Qed.

(** X6.  Counting goes on from whatever the counters hold: [n] interrupts
    in a running state with well-formed counters bring them to the time
    shown before plus [n] sub-units, modulo the range of the display (256
    minutes in the binary revision, 100 minutes in the BCD revision). *)
Theorem X6_ticks_from_any_state :
  (forall (n : nat) (s : Binary.state),
      Binary.stopwatch s = true -> bin_wf s ->
      let e := (bin_elapsed s + Z.of_nat n) mod (256 * 6000) in
      Binary.minutes (Binary.ticks n s) = e / 6000 /\
      Binary.seconds (Binary.ticks n s) = (e / 100) mod 60 /\
      Binary.hundredths (Binary.ticks n s) = e mod 100) /\
  (forall (n : nat) (s : Bcd.state),
      Bcd.stopwatch s = true -> bcd_wf s ->
      let e := (bcd_elapsed s + Z.of_nat n) mod (100 * 7680) in
      bcd_valid (Bcd.minutes (Bcd.ticks n s)) /\
      bcd_val (Bcd.minutes (Bcd.ticks n s)) = e / 7680 /\
      bcd_valid (Bcd.seconds (Bcd.ticks n s)) /\
      bcd_val (Bcd.seconds (Bcd.ticks n s)) = (e / 128) mod 60 /\
      Bcd.hundredths (Bcd.ticks n s) = e mod 128).
Proof.
  split; intros n s Hrun Hwf e.
  - destruct (bin_ticks_elapsed n s Hrun Hwf) as (_ & Hwf' & He).
    fold e in He. destruct Hwf' as (Hh & Hs & Hm).
    unfold bin_elapsed in He at 1.
    repeat split; Z.to_euclidean_division_equations; lia.
  - destruct (bcd_ticks_elapsed n s Hrun Hwf) as (_ & Hwf' & He).
    fold e in He. destruct Hwf' as (Hh & (Hs & Hs60) & Hm).
    destruct (bcd_valid_to_bcd _ Hs) as (Es & Hsr).
    destruct (bcd_valid_to_bcd _ Hm) as (Em & Hmr).
    unfold bcd_elapsed in He at 1.
    split; [exact Hm|]. split; [|split; [exact Hs|split]];
      Z.to_euclidean_division_equations; lia.
Qed.

Lemma X6_ticks_from_any_state_witness :
  (let s := exec Binary.start_stopwatch
              (exec Binary.pause_stopwatch
                 (Binary.ticks 250
                    (exec Binary.start_stopwatch (Binary.boot false)))) in
   Binary.seconds (Binary.ticks 4750 s) = 50 /\
   Binary.hundredths (Binary.ticks 4750 s) = 0) /\
  (let s := Bcd.ticks 300 (exec Bcd.start_stopwatch (Bcd.boot true)) in
   bcd_val (Bcd.seconds (Bcd.ticks 4700 s)) = 39).
Proof.
  destruct X6_ticks_from_any_state as (B & D). cbv zeta. split.
  - destruct (B 4750%nat
                (exec Binary.start_stopwatch
                   (exec Binary.pause_stopwatch
                      (Binary.ticks 250
                         (exec Binary.start_stopwatch
                            (Binary.boot false))))))
      as (_ & Es & Eh);
      [reflexivity | vm_compute; repeat split; congruence |].
    rewrite Es, Eh. split; reflexivity.
  - destruct (D 4700%nat
                (Bcd.ticks 300 (exec Bcd.start_stopwatch (Bcd.boot true))))
      as (_ & _ & _ & Es & _);
      [reflexivity | vm_compute; repeat split; congruence |].
    rewrite Es. reflexivity.
Defined.

Lemma to_bcd_zero (n : Z) : 0 <= n < 100 -> to_bcd n = 0 -> n = 0.
Proof.
  intros Hn H. apply (f_equal bcd_val) in H.
  rewrite bcd_val_to_bcd in H by lia. exact H.
Qed.

(** X7.  Counting from zero, the display shows 00:00:00 again exactly
    after every full range of the counters: every 256 minutes of run time
    (1536000 interrupts) in the binary revision, every 100 minutes (768000
    interrupts) in the BCD revision, and at no other tick count. *)
Theorem X7_counters_wrap_period :
  (forall (n : nat) (s : Binary.state),
      Binary.stopwatch s = true -> Binary.counters s = (0, 0, 0) ->
      (Binary.counters (Binary.ticks n s) = (0, 0, 0)
       <-> Z.of_nat n mod (256 * 6000) = 0)) /\
  (forall (n : nat) (s : Bcd.state),
      Bcd.stopwatch s = true -> Bcd.counters s = (0, 0, 0) ->
      (Bcd.counters (Bcd.ticks n s) = (0, 0, 0)
       <-> Z.of_nat n mod (100 * 7680) = 0)).
Proof.
  split; intros n s Hrun Hz.
  - destruct (bin_ticks_closed n s Hrun Hz) as (_ & Eh & Es & Em).
    unfold Binary.counters. rewrite Eh, Es, Em. split.
    + intros H. injection H as Hm Hs Hh.
      Z.to_euclidean_division_equations; lia.
    + intros H.
      assert (Z.of_nat n mod 100 = 0 /\ (Z.of_nat n / 100) mod 60 = 0 /\
              (Z.of_nat n / 6000) mod 256 = 0) as (-> & -> & ->)
        by (Z.to_euclidean_division_equations; lia).
      reflexivity.
  - destruct (bcd_ticks_closed n s Hrun Hz) as (_ & Eh & Es & Em).
    assert (B2 : 0 <= (Z.of_nat n / 128) mod 60 < 60)
      by (apply Z.mod_pos_bound; lia).
    assert (B3 : 0 <= (Z.of_nat n / 7680) mod 100 < 100)
      by (apply Z.mod_pos_bound; lia).
    unfold Bcd.counters. rewrite Eh, Es, Em. split.
    + intros H. injection H as Hm Hs Hh.
      apply to_bcd_zero in Hm; [|lia]. apply to_bcd_zero in Hs; [|lia].
      Z.to_euclidean_division_equations; lia.
    + intros H.
      assert (Z.of_nat n mod 128 = 0 /\ (Z.of_nat n / 128) mod 60 = 0 /\
              (Z.of_nat n / 7680) mod 100 = 0) as (-> & -> & ->)
        by (Z.to_euclidean_division_equations; lia).
      reflexivity.
Qed.

Lemma X7_counters_wrap_period_witness :
  Binary.counters
    (Binary.ticks (Z.to_nat (256 * 6000))
       (exec Binary.start_stopwatch (Binary.boot false))) = (0, 0, 0) /\
  Bcd.counters
    (Bcd.ticks (Z.to_nat (100 * 7680))
       (exec Bcd.start_stopwatch (Bcd.boot true))) = (0, 0, 0).
Proof.
  destruct X7_counters_wrap_period as (B & D). split.
  - apply B; [reflexivity | reflexivity |].
    rewrite Z2Nat.id by lia. reflexivity.
  - apply D; [reflexivity | reflexivity |].
    rewrite Z2Nat.id by lia. reflexivity.
Defined.

(** ** Time spent paused *)

Lemma bin_ticks_idle (n : nat) (s : Binary.state) :
  Binary.stopwatch s = false -> Binary.ticks n s = s.
Proof.
  intros Hidle. induction n as [|n IH]; [reflexivity|].
  change (Binary.ticks (S n) s)
    with (Binary.stopwatch_timer_isr (Binary.ticks n s)).
  rewrite IH. now apply bin_isr_idle.
Qed.

Lemma bcd_ticks_idle (n : nat) (s : Bcd.state) :
  Bcd.stopwatch s = false -> Bcd.ticks n s = s.
Proof.
  intros Hidle. induction n as [|n IH]; [reflexivity|].
  change (Bcd.ticks (S n) s)
    with (Bcd.stopwatch_timer_isr (Bcd.ticks n s)).
  rewrite IH. now apply bcd_isr_idle.
Qed.

Lemma bin_ticks_control (n : nat) (s : Binary.state) :
  Binary.stopwatch (Binary.ticks n s) = Binary.stopwatch s /\
  Binary.TAC_REG (Binary.ticks n s) = Binary.TAC_REG s /\
  Binary.is_cpu_fast (Binary.ticks n s) = Binary.is_cpu_fast s.
Proof.
  induction n as [|n (I1 & I2 & I3)]; [now repeat split|].
  change (Binary.ticks (S n) s)
    with (Binary.stopwatch_timer_isr (Binary.ticks n s)).
  destruct (bin_isr_control (Binary.ticks n s)) as (E1 & E2 & E3 & _).
  rewrite E1, E2, E3. now repeat split.
Qed.

Lemma bcd_ticks_control (n : nat) (s : Bcd.state) :
  Bcd.stopwatch (Bcd.ticks n s) = Bcd.stopwatch s /\
  Bcd.TAC_REG (Bcd.ticks n s) = Bcd.TAC_REG s.
Proof.
  induction n as [|n (I1 & I2)]; [now repeat split|].
  change (Bcd.ticks (S n) s)
    with (Bcd.stopwatch_timer_isr (Bcd.ticks n s)).
  destruct (bcd_isr_control (Bcd.ticks n s)) as (E1 & E2 & _).
  rewrite E1, E2. now repeat split.
Qed.

Lemma bin_start_after_pause (s : Binary.state) :
  Binary.stopwatch s = true -> Binary.TAC_REG s = bin_tac_start s ->
  exec Binary.start_stopwatch (exec Binary.pause_stopwatch s) = s.
Proof.
  intros Hf Ht. destruct s. unfold bin_tac_start in Ht.
  cbn in Hf, Ht. subst. reflexivity.
Qed.

Lemma bcd_start_after_pause (s : Bcd.state) :
  Bcd.stopwatch s = true -> Bcd.TAC_REG s = bcd_tac_start ->
  exec Bcd.start_stopwatch (exec Bcd.pause_stopwatch s) = s.
Proof.
  intros Hf Ht. destruct s. cbn in Hf, Ht. subst. reflexivity.
Qed.

(** X8.  Time spent paused is not counted, and nothing is lost by pausing:
    [n] interrupts, a pause, any number [k] of interrupts while paused, a
    resume and [m] more interrupts leave the stopwatch in exactly the state
    that [n + m] interrupts without the pause would have produced. *)
Theorem X8_paused_time_not_counted :
  (forall (n k m : nat) (s : Binary.state),
      Binary.stopwatch s = true -> Binary.TAC_REG s = bin_tac_start s ->
      Binary.ticks m
        (exec Binary.start_stopwatch
           (Binary.ticks k
              (exec Binary.pause_stopwatch (Binary.ticks n s))))
      = Binary.ticks (n + m) s) /\
  (forall (n k m : nat) (s : Bcd.state),
      Bcd.stopwatch s = true -> Bcd.TAC_REG s = bcd_tac_start ->
      Bcd.ticks m
        (exec Bcd.start_stopwatch
           (Bcd.ticks k (exec Bcd.pause_stopwatch (Bcd.ticks n s))))
      = Bcd.ticks (n + m) s).
Proof.
  split; intros n k m s Hrun Htac.
  - destruct (bin_ticks_control n s) as (E1 & E2 & E3).
    rewrite (bin_ticks_idle k (exec Binary.pause_stopwatch (Binary.ticks n s)))
      by reflexivity.
    rewrite bin_start_after_pause.
    + unfold Binary.ticks. rewrite Nat.add_comm. symmetry.
      apply Nat.iter_add.
    + now rewrite E1.
    + unfold bin_tac_start. now rewrite E2, E3.
  - destruct (bcd_ticks_control n s) as (E1 & E2).
    rewrite (bcd_ticks_idle k (exec Bcd.pause_stopwatch (Bcd.ticks n s)))
      by reflexivity.
    rewrite bcd_start_after_pause.
    + unfold Bcd.ticks. rewrite Nat.add_comm. symmetry.
      apply Nat.iter_add.
    + now rewrite E1.
    + now rewrite E2.
Qed.

Lemma X8_paused_time_not_counted_witness :
  (let s := exec Binary.start_stopwatch (Binary.boot false) in
   Binary.counters
     (Binary.ticks 100
        (exec Binary.start_stopwatch
           (Binary.ticks 1000
              (exec Binary.pause_stopwatch (Binary.ticks 250 s)))))
   = (0, 3, 50)) /\
  (let s := exec Bcd.start_stopwatch (Bcd.boot true) in
   Bcd.counters
     (Bcd.ticks 100
        (exec Bcd.start_stopwatch
           (Bcd.ticks 1000 (exec Bcd.pause_stopwatch (Bcd.ticks 300 s)))))
   = (0, 3, 16)).
Proof.
  destruct X8_paused_time_not_counted as (B & D). cbv zeta. split.
  - rewrite B; vm_compute; reflexivity.
  - rewrite D; vm_compute; reflexivity.
Defined.

(** ** The iteration that pauses *)

(** X9.  The main-loop iteration that pauses a running stopwatch (confirm
    press-edge, no cancel press-edge) emits the volume setting, the
    start/stop cue and the two labels and nothing else: no digit cell is
    written in it, so the display keeps the digits of the previous
    iteration, and the cue flag is left as it was.  The state after it is
    the paused state with the new button mask remembered. *)
Theorem X9_pausing_iteration_does_not_redraw :
  (forall (r : pad_reads) (s : Binary.state),
      Binary.stopwatch s = true ->
      confirm_edge r (Binary.prev_joypad s) = true ->
      cancel_edge r (Binary.prev_joypad s) = false ->
      Binary.main_loop_body r s =
      (Binary.set_prev_joypad (jp_cur r) (exec Binary.pause_stopwatch s),
       [Snd NR50_REG 0x77;
        Snd NR10_REG 0x17; Snd NR11_REG 0x42; Snd NR12_REG 0xD5;
        Snd NR13_REG 0x37; Snd NR14_REG 0x87;
        Print 10 15 "Start"; Print 5 16 "B:   Reset"])) /\
  (forall (r : pad_reads) (s : Bcd.state),
      Bcd.stopwatch s = true ->
      confirm_edge r (Bcd.prev_joypad s) = true ->
      cancel_edge r (Bcd.prev_joypad s) = false ->
      Bcd.main_loop_body r s =
      (Bcd.set_prev_joypad (jp_cur r) (exec Bcd.pause_stopwatch s),
       [Snd NR50_REG 0x77;
        Snd NR10_REG 0x17; Snd NR11_REG 0x42; Snd NR12_REG 0xD5;
        Snd NR13_REG 0x37; Snd NR14_REG 0x87;
        Print 10 15 "Start"; Print 5 16 "B:   Reset"])).
Proof.
  split; intros r s Hrun Ha Hb.
  - destruct s as [g f b z sw ptk m sec h bm bs bh tma tima tac prev].
    cbn in Hrun, Ha, Hb. subst sw.
    unfold Binary.main_loop_body, Binary.handle_inputs, seq, branch.
    cbn [Binary.prev_joypad Binary.stopwatch].
    rewrite Ha. cbn -[cancel_edge]. rewrite Hb. reflexivity.
  - destruct s as [g f sw ptk m sec h tma tima tac prev].
    cbn in Hrun, Ha, Hb. subst sw.
    unfold Bcd.main_loop_body, Bcd.handle_inputs, seq, branch.
    cbn [Bcd.prev_joypad Bcd.stopwatch].
    rewrite Ha. cbn -[cancel_edge]. rewrite Hb. reflexivity.
Qed.

Lemma X9_pausing_iteration_does_not_redraw_witness :
  (let s := Binary.ticks 250
              (exec Binary.start_stopwatch (Binary.boot false)) in
   exec (Binary.main_loop_body (pad J_A)) s =
   Binary.set_prev_joypad J_A (exec Binary.pause_stopwatch s)) /\
  (let s := Bcd.ticks 300 (exec Bcd.start_stopwatch (Bcd.boot true)) in
   exec (Bcd.main_loop_body (pad J_A)) s =
   Bcd.set_prev_joypad J_A (exec Bcd.pause_stopwatch s)).
Proof.
  destruct X9_pausing_iteration_does_not_redraw as (B & D).
  cbv zeta. split.
  - unfold exec at 1. rewrite B; [reflexivity | | |]; vm_compute; reflexivity.
  - unfold exec at 1. rewrite D; [reflexivity | | |]; vm_compute; reflexivity.
Defined.

(** ** The decimal adjust *)

(** X10.  The add-one-and-adjust step always yields a byte, and on a valid
    packed-BCD byte it yields the valid packed-BCD byte of the next number
    modulo 100 (so 0x09 gives 0x10, 0x59 gives 0x60 and 0x99 wraps to
    0x00). *)
Theorem X10_bcdIncrement_decimal_successor :
  (forall b : Z, 0 <= bcdIncrement b <= 255) /\
  (forall b : Z,
      bcd_valid b ->
      bcd_valid (bcdIncrement b) /\
      bcd_val (bcdIncrement b) = (bcd_val b + 1) mod 100).
Proof.
  split.
  - intros b. unfold bcdIncrement, asm_daa, u8.
    match goal with
    | |- 0 <= ?x mod 256 <= 255 =>
        pose proof (Z.mod_pos_bound x 256 ltac:(lia)); lia
    end.
  - intros b Hb. destruct (bcd_valid_to_bcd b Hb) as (Eb & Hr).
    assert (Hm : 0 <= (bcd_val b + 1) mod 100 < 100)
      by (apply Z.mod_pos_bound; lia).
    rewrite Eb at 1 2. rewrite bcdIncrement_to_bcd by lia.
    split; [now apply to_bcd_valid | now apply bcd_val_to_bcd].
Qed.

Lemma X10_bcdIncrement_decimal_successor_witness :
  bcd_val (bcdIncrement 0x39) = 40 /\ bcdIncrement 0x39 = 0x40.
Proof.
  destruct X10_bcdIncrement_decimal_successor as (_ & H).
  destruct (H 0x39) as (_ & E); [cbv; repeat split; congruence|].
  split; [rewrite E; reflexivity | reflexivity].
Defined.

(** ** The hundredths table, continued *)

Lemma mil_value_scaled (v : Z) :
  0 <= v < 128 -> mil_value v = v * 100 / 128.
Proof.
  intros Hv. pose proof (mil_table_checked v Hv) as H.
  unfold mil_entry_ok in H. apply andb_prop in H as [_ H].
  now apply Z.eqb_eq in H.
Qed.

(** X11.  The table leaves no hundredths value out and repeats none more
    than twice: every number 00..99 is shown for some sub-unit value, and
    two sub-unit values that show the same number are equal or
    neighbours. *)
Theorem X11_mil_table_covers_all_hundredths :
  (forall q : Z, 0 <= q < 100 ->
     exists v : Z, 0 <= v < 128 /\ mil_value v = q) /\
  (forall v w : Z, 0 <= v < 128 -> 0 <= w < 128 ->
     mil_value v = mil_value w -> -1 <= v - w <= 1).
Proof.
  split.
  - intros q Hq. exists ((q * 128 + 99) / 100).
    assert (Hv : 0 <= (q * 128 + 99) / 100 < 128)
      by (Z.to_euclidean_division_equations; lia).
    split; [exact Hv|]. rewrite mil_value_scaled by exact Hv.
    Z.to_euclidean_division_equations; lia.
  - intros v w Hv Hw. rewrite !mil_value_scaled by assumption.
    intros H. Z.to_euclidean_division_equations; lia.
Qed.

Lemma X11_mil_table_covers_all_hundredths_witness :
  (exists v : Z, 0 <= v < 128 /\ mil_value v = 99) /\
  -1 <= 4 - 5 <= 1.
Proof.
  destruct X11_mil_table_covers_all_hundredths as (H1 & H2). split.
  - apply H1. lia.
  - apply H2; [lia | lia | reflexivity].
Defined.

(** ** What the renderers draw *)

Lemma tiles_are_spec (l expected : list Z) :
  tiles_are l expected = true -> l = expected.
Proof.
  unfold tiles_are. intros H. apply andb_prop in H as [Hlen Hall].
  apply Nat.eqb_eq in Hlen. rewrite forallb_forall in Hall.
  apply (nth_ext l expected (-1) (-1) Hlen).
  intros i Hi. apply Z.eqb_eq, Hall, in_seq. lia.
Qed.

(** The digit tiles of a converted byte, character base 0. *)
Lemma bin_uitoa_tiles (v : Z) :
  0 <= v < 256 ->
  map (fun c => u8 (0 + c - 32)) (filter Binary.is_digit (Binary.uitoa v))
  = (if v <? 10 then [16 + v]
     else if v <? 100 then [16 + v / 10; 16 + v mod 10]
     else [16 + v / 100; 16 + (v / 10) mod 10; 16 + v mod 10]).
Proof.
  intros Hv. apply tiles_are_spec.
  assert (Hv' : 0 <= v < Z.of_nat 256) by lia. clear Hv. revert v Hv'.
  apply (all_below_spec 256
    (fun v => tiles_are
       (map (fun c => u8 (0 + c - 32))
            (filter Binary.is_digit (Binary.uitoa v)))
       (if v <? 10 then [16 + v]
        else if v <? 100 then [16 + v / 10; 16 + v mod 10]
        else [16 + v / 100; 16 + (v / 10) mod 10; 16 + v mod 10]))).
  vm_compute. reflexivity.
Qed.

Lemma bin_read_tiles_two (v1 v2 : Z) :
  (9 <? v1) = (9 <? v2) -> 0 <= v2 < 100 ->
  bin_read_tiles 0 v1 v2 = [16 + v2 / 10; 16 + v2 mod 10].
Proof.
  intros E Hv. unfold bin_read_tiles. rewrite E, bin_uitoa_tiles by lia.
  destruct (Z.ltb_spec 9 v2).
  - destruct (Z.ltb_spec v2 10); [lia|].
    destruct (Z.ltb_spec v2 100); [|lia]. reflexivity.
  - destruct (Z.ltb_spec v2 10); [|lia].
    rewrite Z.div_small, Z.mod_small by lia. reflexivity.
Qed.


Lemma bin_read_tiles_stray (v1 v2 : Z) :
  v1 <= 9 -> 10 <= v2 < 100 ->
  bin_read_tiles 0 v1 v2 = [16; 16 + v2 / 10; 16 + v2 mod 10].
Proof.
  intros H1 Hv. unfold bin_read_tiles. rewrite bin_uitoa_tiles by lia.
  destruct (Z.ltb_spec 9 v1); [lia|].
  destruct (Z.ltb_spec v2 10); [lia|].
  destruct (Z.ltb_spec v2 100); [|lia]. reflexivity.
Qed.

(** X12.  Binary revision, character base 0 (it is never assigned).  The
    counters are read twice each, with the interrupt live.  Whenever, for
    each counter, the value the [num_zeros] test read and the value
    converted afterwards are on the same side of 10, and the converted
    values are below 100, the redraw writes exactly seven cells of row 6:
    the tens and units digit tiles of the converted minutes at columns 6
    and 7, of seconds at 9 and 10, of hundredths at 12 and 13, and the
    blank tile 0 at column 14.  In particular a redraw during which no
    interrupt is serviced draws the digits of the state it started in. *)
Theorem X12_binary_redraw_two_digits :
  (forall (irqs : nat -> nat) (s : Binary.state),
      Binary.text_LUT_ascii_base_idx s = 0 ->
      let m := Binary.minutes (bin_at irqs 1 s) in
      let sec := Binary.seconds (bin_at irqs 3 s) in
      let h := Binary.hundredths (bin_at irqs 5 s) in
      (9 <? Binary.minutes (bin_at irqs 0 s)) = (9 <? m) ->
      (9 <? Binary.seconds (bin_at irqs 2 s)) = (9 <? sec) ->
      (9 <? Binary.hundredths (bin_at irqs 4 s)) = (9 <? h) ->
      0 <= m < 100 -> 0 <= sec < 100 -> 0 <= h < 100 ->
      trace (Binary.print_stopwatch irqs) s =
      digit_pair 6 m ++ digit_pair 9 sec ++ digit_pair 12 h
      ++ [Vram 14 6 0]) /\
  (forall s : Binary.state,
      Binary.text_LUT_ascii_base_idx s = 0 ->
      0 <= Binary.minutes s < 100 ->
      0 <= Binary.seconds s < 100 ->
      0 <= Binary.hundredths s < 100 ->
      trace (Binary.print_stopwatch no_irq) s =
      digit_pair 6 (Binary.minutes s) ++ digit_pair 9 (Binary.seconds s)
      ++ digit_pair 12 (Binary.hundredths s) ++ [Vram 14 6 0]).
Proof.
  split.
  - intros irqs s Hb m sec h Em Es Eh Hm Hs Hh.
    rewrite bin_print_trace_irq. cbv zeta. rewrite Hb.
    fold m sec h.
    rewrite (bin_read_tiles_two _ m Em Hm), (bin_read_tiles_two _ sec Es Hs),
      (bin_read_tiles_two _ h Eh Hh).
    reflexivity.
  - intros s Hb Hm Hs Hh.
    rewrite bin_print_trace_irq. cbv zeta. rewrite Hb.
    change (bin_at no_irq 0 s) with s. change (bin_at no_irq 1 s) with s.
    change (bin_at no_irq 2 s) with s. change (bin_at no_irq 3 s) with s.
    change (bin_at no_irq 4 s) with s. change (bin_at no_irq 5 s) with s.
    rewrite !bin_read_tiles_two by (assumption || reflexivity).
    reflexivity.
Qed.

Lemma X12_binary_redraw_two_digits_witness :
  trace (Binary.print_stopwatch (one_irq_before 5))
    (Binary.ticks 705 (exec Binary.start_stopwatch (Binary.boot false)))
  = [Vram 6 6 16; Vram 7 6 16; Vram 9 6 16; Vram 10 6 23;
     Vram 12 6 16; Vram 13 6 22; Vram 14 6 0] /\
  trace (Binary.print_stopwatch no_irq)
    (Binary.ticks 705 (exec Binary.start_stopwatch (Binary.boot false)))
  = [Vram 6 6 16; Vram 7 6 16; Vram 9 6 16; Vram 10 6 23;
     Vram 12 6 16; Vram 13 6 21; Vram 14 6 0].
Proof.
  destruct X12_binary_redraw_two_digits as (H1 & H2). split.
  - rewrite H1;
      first [vm_compute; reflexivity | vm_compute; split; congruence].
  - rewrite H2;
      first [vm_compute; reflexivity | vm_compute; split; congruence].
Defined.



Lemma bin_place_columns (c x y : Z) (tiles : list Z) (o : out) :
  c <= x -> In o (Binary.place x y tiles) ->
  match o with Vram x' _ _ => c <= x' | _ => False end.
Proof.
  revert x. induction tiles as [|t tiles IH]; intros x Hx Ho;
    cbn [Binary.place] in Ho; [destruct Ho|].
  destruct Ho as [<-|Ho]; [exact Hx|].
  apply (IH (x + 1)); [lia | exact Ho].
Qed.

(** X16.  Binary revision, the artifact the safety write is there for:
    when an interrupt takes hundredths from below 10 to 10 or more between
    the [num_zeros] test and the conversion, the redraw writes the leading
    zero and both digits, three tiles at columns 12, 13 and 14, and its
    last write then blanks column 14.  The same slip on seconds puts the
    stray third tile on column 11, the cell of the second colon, and
    no write of the redraw blanks it. *)
Theorem X16_binary_redraw_stray_digit :
  (forall (irqs : nat -> nat) (s : Binary.state),
      Binary.text_LUT_ascii_base_idx s = 0 ->
      Binary.hundredths (bin_at irqs 4 s) <= 9 ->
      10 <= Binary.hundredths (bin_at irqs 5 s) < 100 ->
      let h := Binary.hundredths (bin_at irqs 5 s) in
      exists pre : list out,
        trace (Binary.print_stopwatch irqs) s =
        pre ++ [Vram 12 6 16; Vram 13 6 (16 + h / 10);
                Vram 14 6 (16 + h mod 10); Vram 14 6 0]) /\
  (forall (irqs : nat -> nat) (s : Binary.state),
      Binary.text_LUT_ascii_base_idx s = 0 ->
      Binary.seconds (bin_at irqs 2 s) <= 9 ->
      10 <= Binary.seconds (bin_at irqs 3 s) < 100 ->
      let sec := Binary.seconds (bin_at irqs 3 s) in
      exists pre post : list out,
        trace (Binary.print_stopwatch irqs) s =
        pre ++ [Vram 9 6 16; Vram 10 6 (16 + sec / 10);
                Vram 11 6 (16 + sec mod 10)] ++ post /\
        forall o, In o post ->
          match o with Vram x _ _ => 12 <= x | _ => False end).
Proof.
  split.
  - intros irqs s Hb H4 H5 h. eexists.
    rewrite bin_print_trace_irq. cbv zeta. rewrite Hb.
    rewrite (bin_read_tiles_stray _ _ H4 H5). fold h.
    rewrite app_assoc. reflexivity.
  - intros irqs s Hb H2 H3 sec. eexists. eexists.
    rewrite bin_print_trace_irq. cbv zeta. rewrite Hb.
    rewrite (bin_read_tiles_stray _ _ H2 H3). fold sec.
    split; [reflexivity|].
    intros o Ho. apply in_app_or in Ho as [Ho|Ho].
    + eapply (bin_place_columns 12 12 6); [lia | exact Ho].
    + destruct Ho as [<-|[]]. lia.
Qed.

Lemma X16_binary_redraw_stray_digit_witness :
  exists pre : list out,
    trace (Binary.print_stopwatch (one_irq_before 5))
      (Binary.ticks 9 (exec Binary.start_stopwatch (Binary.boot false)))
    = pre ++ [Vram 12 6 16; Vram 13 6 17; Vram 14 6 16; Vram 14 6 0].
Proof.
  destruct X16_binary_redraw_stray_digit as (H & _).
  apply (H (one_irq_before 5)
           (Binary.ticks 9
              (exec Binary.start_stopwatch (Binary.boot false))));
    [reflexivity | vm_compute; congruence | vm_compute; split; congruence].
Defined.

Lemma bcd_ticks_wf (k : nat) (s : Bcd.state) :
  bcd_wf s -> bcd_wf (Bcd.ticks k s).
Proof.
  intros Hwf. induction k as [|k IH]; [exact Hwf|].
  change (Bcd.ticks (S k) s)
    with (Bcd.stopwatch_timer_isr (Bcd.ticks k s)).
  now apply bcd_isr_wf.
Qed.

Lemma bcd_at_wf (irqs : nat -> nat) (i : nat) (s : Bcd.state) :
  bcd_wf s -> bcd_wf (bcd_at irqs i s).
Proof.
  intros Hwf. induction i as [|i IH]; cbn [bcd_at]; now apply bcd_ticks_wf.
Qed.

Lemma bcd_digit_tiles (b : Z) :
  bcd_valid b ->
  u8 (Z.land (Z.shiftr b 4) 0x0F + Bcd.NUMBERS_BASE_TILE_IDX)
    = 16 + bcd_val b / 10 /\
  u8 (Z.land b 0x0F + Bcd.NUMBERS_BASE_TILE_IDX) = 16 + bcd_val b mod 10.
Proof.
  intros [Hb Hn].
  assert (H : implb (Z.land b 0x0F <=? 9)
                ((u8 (Z.land (Z.shiftr b 4) 0x0F + Bcd.NUMBERS_BASE_TILE_IDX)
                    =? 16 + bcd_val b / 10)
                 && (u8 (Z.land b 0x0F + Bcd.NUMBERS_BASE_TILE_IDX)
                       =? 16 + bcd_val b mod 10)) = true).
  { assert (Hb' : 0 <= b < Z.of_nat 154) by lia. clear Hb Hn.
    revert b Hb'.
    apply (all_below_spec 154
      (fun b => implb (Z.land b 0x0F <=? 9)
                ((u8 (Z.land (Z.shiftr b 4) 0x0F + Bcd.NUMBERS_BASE_TILE_IDX)
                    =? 16 + bcd_val b / 10)
                 && (u8 (Z.land b 0x0F + Bcd.NUMBERS_BASE_TILE_IDX)
                       =? 16 + bcd_val b mod 10)))).
    vm_compute. reflexivity. }
  apply Z.leb_le in Hn. rewrite Hn in H. cbn [implb] in H.
  apply andb_prop in H as [H1 H2]. split; now apply Z.eqb_eq.
Qed.

(** X14.  BCD revision: the redraw reads a counter once per digit, with
    the interrupt live.  From well-formed counters it writes exactly six
    cells of row 6, in this order, each the tile of one decimal digit of
    the value its own read returned: tens and units of the scaled
    hundredths at columns 12 and 13, tens and units of seconds at 9 and 10,
    tens and units of minutes at 6 and 7.  When no interrupt is serviced
    during the redraw these are the digits of the state it started in. *)
Theorem X14_bcd_redraw_digits :
  (forall (irqs : nat -> nat) (s : Bcd.state),
      bcd_wf s ->
      trace (Bcd.print_stopwatch irqs) s =
      [Vram 12 6 (16 + (Bcd.hundredths (bcd_at irqs 0 s) * 100 / 128) / 10);
       Vram 13 6
         (16 + (Bcd.hundredths (bcd_at irqs 1 s) * 100 / 128) mod 10);
       Vram 9 6 (16 + bcd_val (Bcd.seconds (bcd_at irqs 2 s)) / 10);
       Vram 10 6 (16 + bcd_val (Bcd.seconds (bcd_at irqs 3 s)) mod 10);
       Vram 6 6 (16 + bcd_val (Bcd.minutes (bcd_at irqs 4 s)) / 10);
       Vram 7 6 (16 + bcd_val (Bcd.minutes (bcd_at irqs 5 s)) mod 10)]) /\
  (forall s : Bcd.state,
      bcd_wf s ->
      trace (Bcd.print_stopwatch no_irq) s =
      digit_pair 12 (Bcd.hundredths s * 100 / 128)
      ++ digit_pair 9 (bcd_val (Bcd.seconds s))
      ++ digit_pair 6 (bcd_val (Bcd.minutes s))).
Proof.
  assert (G : forall (irqs : nat -> nat) (s : Bcd.state),
      bcd_wf s ->
      trace (Bcd.print_stopwatch irqs) s =
      [Vram 12 6 (16 + (Bcd.hundredths (bcd_at irqs 0 s) * 100 / 128) / 10);
       Vram 13 6
         (16 + (Bcd.hundredths (bcd_at irqs 1 s) * 100 / 128) mod 10);
       Vram 9 6 (16 + bcd_val (Bcd.seconds (bcd_at irqs 2 s)) / 10);
       Vram 10 6 (16 + bcd_val (Bcd.seconds (bcd_at irqs 3 s)) mod 10);
       Vram 6 6 (16 + bcd_val (Bcd.minutes (bcd_at irqs 4 s)) / 10);
       Vram 7 6 (16 + bcd_val (Bcd.minutes (bcd_at irqs 5 s)) mod 10)]).
  { intros irqs s Hwf.
    destruct (bcd_at_wf irqs 0 s Hwf) as (Hh0 & _).
    destruct (bcd_at_wf irqs 1 s Hwf) as (Hh1 & _).
    destruct (bcd_at_wf irqs 2 s Hwf) as (_ & (Hs2 & _) & _).
    destruct (bcd_at_wf irqs 3 s Hwf) as (_ & (Hs3 & _) & _).
    destruct (bcd_at_wf irqs 4 s Hwf) as (_ & _ & Hm4).
    destruct (bcd_at_wf irqs 5 s Hwf) as (_ & _ & Hm5).
    pose proof (mil_table_checked _ Hh0) as T0.
    pose proof (mil_table_checked _ Hh1) as T1.
    unfold mil_entry_ok in T0, T1.
    apply andb_prop in T0 as [T0 _]. apply andb_prop in T0 as [T0 _].
    apply andb_prop in T0 as [_ T0]. apply Z.eqb_eq in T0.
    apply andb_prop in T1 as [T1 _]. apply andb_prop in T1 as [_ T1].
    apply Z.eqb_eq in T1.
    destruct (bcd_digit_tiles _ Hs2) as (S2 & _).
    destruct (bcd_digit_tiles _ Hs3) as (_ & S3).
    destruct (bcd_digit_tiles _ Hm4) as (M4 & _).
    destruct (bcd_digit_tiles _ Hm5) as (_ & M5).
    rewrite bcd_print_trace_irq. rewrite T0, T1, S2, S3, M4, M5.
    reflexivity. }
  split; [exact G|].
  intros s Hwf. rewrite (G no_irq s Hwf). reflexivity.
Qed.

Lemma X14_bcd_redraw_digits_witness :
  trace (Bcd.print_stopwatch (one_irq_before 1))
    (Bcd.ticks 12 (exec Bcd.start_stopwatch (Bcd.boot true)))
  = [Vram 12 6 16; Vram 13 6 16; Vram 9 6 16; Vram 10 6 16;
     Vram 6 6 16; Vram 7 6 16] /\
  trace (Bcd.print_stopwatch no_irq)
    (Bcd.ticks 1500 (exec Bcd.start_stopwatch (Bcd.boot true)))
  = [Vram 12 6 23; Vram 13 6 17; Vram 9 6 17; Vram 10 6 17;
     Vram 6 6 16; Vram 7 6 16].
Proof.
  destruct X14_bcd_redraw_digits as (H1 & H2). split.
  - rewrite H1; [vm_compute; reflexivity|].
    vm_compute. repeat split; congruence.
  - rewrite H2; [vm_compute; reflexivity|].
    vm_compute. repeat split; congruence.
Defined.

(** ** While paused and untouched *)

Lemma reads_mask_pad (m : Z) (r : pad_reads) :
  reads_mask m r = true -> r = pad m.
Proof.
  unfold reads_mask. intros H.
  apply andb_prop in H as [H H3]. apply andb_prop in H as [H1 H2].
  apply Z.eqb_eq in H1, H2, H3. destruct r; cbn in *. now subst.
Qed.

Lemma bin_idle_iteration (s : Binary.state) :
  Binary.stopwatch s = false ->
  Binary.main_loop_body (pad (Binary.prev_joypad s)) s = (s, []).
Proof.
  intros Hidle.
  destruct (edges_of_held_mask (Binary.prev_joypad s)) as (Ha & Hb).
  unfold Binary.main_loop_body, seq.
  rewrite (bin_handle_inputs_no_edge _ s Ha Hb).
  destruct s as [g f b z sw ptk m sec h bm bs bh tma tima tac prev].
  cbn in Hidle. subst sw. reflexivity.
Qed.

Lemma bcd_idle_iteration (s : Bcd.state) :
  Bcd.stopwatch s = false ->
  Bcd.main_loop_body (pad (Bcd.prev_joypad s)) s = (s, []).
Proof.
  intros Hidle.
  destruct (edges_of_held_mask (Bcd.prev_joypad s)) as (Ha & Hb).
  unfold Bcd.main_loop_body, seq.
  rewrite (bcd_handle_inputs_no_edge _ s Ha Hb).
  destruct s as [g f sw ptk m sec h tma tima tac prev].
  cbn in Hidle. subst sw. reflexivity.
Qed.

(** X15.  While the stopwatch is idle and the buttons are read as they
    were at the last poll, nothing happens at all: any interleaving of
    timer interrupts and main-loop iterations leaves the whole state as it
    is and emits nothing, neither a tile nor a sound.  The display is not
    redrawn while paused and a pending tick cue stays pending. *)
Theorem X15_idle_and_untouched_is_inert :
  (forall (l : list Binary.sched) (s : Binary.state),
      Binary.stopwatch s = false ->
      bin_all_read (Binary.prev_joypad s) l = true ->
      Binary.sched_run l s = (s, [])) /\
  (forall (l : list Bcd.sched) (s : Bcd.state),
      Bcd.stopwatch s = false ->
      bcd_all_read (Bcd.prev_joypad s) l = true ->
      Bcd.sched_run l s = (s, [])).
Proof.
  split; intros l s Hidle; induction l as [|x l IH]; intros Hl;
    try reflexivity.
  - cbn [bin_all_read forallb] in Hl. apply andb_prop in Hl as [Hx Hl].
    cbn [Binary.sched_run]. unfold seq.
    assert (Hstep : Binary.sched_step x s = (s, [])).
    { destruct x as [|r]; cbn [Binary.sched_step].
      - unfold modify. now rewrite bin_isr_idle.
      - apply reads_mask_pad in Hx. subst r.
        now apply bin_idle_iteration. }
    rewrite Hstep, (IH Hl). reflexivity.
  - cbn [bcd_all_read forallb] in Hl. apply andb_prop in Hl as [Hx Hl].
    cbn [Bcd.sched_run]. unfold seq.
    assert (Hstep : Bcd.sched_step x s = (s, [])).
    { destruct x as [|r]; cbn [Bcd.sched_step].
      - unfold modify. now rewrite bcd_isr_idle.
      - apply reads_mask_pad in Hx. subst r.
        now apply bcd_idle_iteration. }
    rewrite Hstep, (IH Hl). reflexivity.
Qed.

Lemma X15_idle_and_untouched_is_inert_witness :
  (let s := exec (Binary.main_loop_body (pad J_A))
              (Binary.ticks 250
                 (exec Binary.start_stopwatch (Binary.boot false))) in
   Binary.sched_run
     [Binary.Frame (pad J_A); Binary.Tick; Binary.Tick;
      Binary.Frame (pad J_A)] s = (s, [])) /\
  (let s := Bcd.boot true in
   Bcd.sched_run [Bcd.Tick; Bcd.Frame (pad 0); Bcd.Tick] s = (s, [])).
Proof.
  destruct X15_idle_and_untouched_is_inert as (B & D). cbv zeta. split.
  - apply B; vm_compute; reflexivity.
  - apply D; vm_compute; reflexivity.
Defined.
